(** * smoothexit: the migration engine, embedded and verified

    A shallow embedding of the core of the migration engine
    (src/app/services/transformer.py, validator.py, schema_registry.py
    and src/app/orchestrator.py), together with the theorems that settle
    the properties stated about it.

    Conventions of the embedding.
    - A Python value is a [pyval]; dictionaries keep their insertion
      order and are association lists with string keys.
    - A call that can raise returns a [result]; the exception class is
      kept because the source catches some classes and not others.
    - Strings are sequences of characters; character classes and case
      mapping are those of ASCII, and [int] and [str] have no limit on
      the number of digits.  Python's classes and case mapping are
      Unicode's, and CPython raises ValueError beyond 4300 digits:
      [Str.is_ascii], [Py.plain] and [Transformer.plain_path] mark the
      inputs on which the two agree, and the theorems that depend on
      the difference assume them.
    - Values have no identity: a write builds a new value.  The code
      writes into dictionaries in place, so a statement about what a
      write leaves unchanged is made only where no object that could be
      shared is written into.
    - Floats are IEEE-754 binary64 values ([spec_float], precision 53).
    - Library calls whose behaviour is fixed outside this repository
      (the shortest [repr] of a float, [float] of a string, dateutil on
      strings that are not ISO datetimes, [strptime], [fromisoformat],
      the local UTC offset) are the fields of the class [PyRuntime]. *)

From Stdlib Require Import ZArith List String Ascii Bool Lia.
From Stdlib Require Import Floats.SpecFloat Numbers.DecimalString.
Import ListNotations.

Set Warnings "-register-all".
Set Warnings "-notation-overridden".
Set Warnings "-automation".
Set Warnings "-notation-incompatible-prefix".

Open Scope list_scope.
Open Scope string_scope.

(* ===================================================================== *)
(** ** Results and exceptions *)
(* ===================================================================== *)

(** The exception classes the modelled code can meet.  [Unmodelled]
    marks a run that leaves the fragment of Python covered here (a
    dictionary key that is not a string). *)
Inductive exn : Type :=
| TypeError | ValueError | AttributeError | KeyError | OverflowError
| Unmodelled.

Inductive result (A : Type) : Type :=
| Ok (a : A)
| Raise (e : exn).
Arguments Ok {A} a.
Arguments Raise {A} e.

Definition bind {A B} (r : result A) (k : A -> result B) : result B :=
  match r with
  | Ok a => k a
  | Raise e => Raise e
  end.

Notation "'do' x <- r ;; k" := (bind r (fun x => k))
  (at level 10, x name, r at level 100, k at level 200).

(** [except (ValueError, TypeError)] of the numeric operators. *)
Definition is_value_or_type_error (e : exn) : bool :=
  match e with
  | TypeError | ValueError => true
  | _ => false
  end.

(* ===================================================================== *)
(** ** Strings *)
(* ===================================================================== *)

Module Str.

Definition code (c : ascii) : nat := nat_of_ascii c.

Definition is_upper (c : ascii) : bool := (65 <=? code c)%nat && (code c <=? 90)%nat.
Definition is_lower (c : ascii) : bool := (97 <=? code c)%nat && (code c <=? 122)%nat.
Definition is_digit (c : ascii) : bool := (48 <=? code c)%nat && (code c <=? 57)%nat.
(** [\w] *)
Definition is_word (c : ascii) : bool :=
  is_upper c || is_lower c || is_digit c || (code c =? 95)%nat.
(** [str.isspace] on one character *)
Definition is_space (c : ascii) : bool :=
  ((9 <=? code c)%nat && (code c <=? 13)%nat)
  || ((28 <=? code c)%nat && (code c <=? 32)%nat).

Definition lower_char (c : ascii) : ascii :=
  if is_upper c then ascii_of_nat (code c + 32) else c.
Definition upper_char (c : ascii) : ascii :=
  if is_lower c then ascii_of_nat (code c - 32) else c.

Fixpoint map_chars (f : ascii -> ascii) (s : string) : string :=
  match s with
  | EmptyString => EmptyString
  | String c r => String (f c) (map_chars f r)
  end.

Definition lower : string -> string := map_chars lower_char.
Definition upper : string -> string := map_chars upper_char.

Fixpoint all_chars (p : ascii -> bool) (s : string) : bool :=
  match s with
  | EmptyString => true
  | String c r => p c && all_chars p r
  end.

(** Text in ASCII.  On it the character classes and the case mapping
    above are those of Python's [str] methods and of [re]; on other
    text Python's are Unicode's ([\w] and [isdigit] accept more, [upper]
    and [lower] change more). *)
Definition is_ascii (s : string) : bool := all_chars (fun c => (code c <? 128)%nat) s.

(** [sys.int_info.default_max_str_digits]: [int] of a text of more
    digits and [str] of an integer of more digits raise ValueError. *)
Definition max_str_digits : nat := 4300.

Fixpoint filter_chars (p : ascii -> bool) (s : string) : string :=
  match s with
  | EmptyString => EmptyString
  | String c r => if p c then String c (filter_chars p r) else filter_chars p r
  end.

Fixpoint mem_char (c : ascii) (s : string) : bool :=
  match s with
  | EmptyString => false
  | String d r => Ascii.eqb c d || mem_char c r
  end.

Definition is_empty (s : string) : bool :=
  match s with EmptyString => true | _ => false end.

Definition startswith (s p : string) : bool := String.prefix p s.

Fixpoint drop (n : nat) (s : string) : string :=
  match n, s with
  | O, _ => s
  | S k, EmptyString => EmptyString
  | S k, String _ r => drop k r
  end.

Fixpoint take (n : nat) (s : string) : string :=
  match n, s with
  | O, _ => EmptyString
  | S k, EmptyString => EmptyString
  | S k, String c r => String c (take k r)
  end.

Fixpoint rev_onto (s acc : string) : string :=
  match s with
  | EmptyString => acc
  | String c r => rev_onto r (String c acc)
  end.
Definition rev (s : string) : string := rev_onto s EmptyString.

Definition endswith (s p : string) : bool := startswith (rev s) (rev p).

(** [sub in s] *)
Fixpoint contains (s sub : string) : bool :=
  startswith s sub ||
  match s with
  | EmptyString => false
  | String _ r => contains r sub
  end.

(** [s.split(sep)] for a non-empty [sep]: the first piece and the pieces
    after it.  [skip] counts the characters of a separator occurrence
    still to be passed over. *)
Fixpoint split_go (sep s : string) (skip : nat) : string * list string :=
  match s with
  | EmptyString => (EmptyString, [])
  | String c r =>
      match skip with
      | S k => split_go sep r k
      | O =>
          if startswith s sep
          then (EmptyString,
                let '(p, ps) := split_go sep r (String.length sep - 1) in p :: ps)
          else let '(p, ps) := split_go sep r 0 in (String c p, ps)
      end
  end.

Definition split (sep s : string) : list string :=
  let '(p, ps) := split_go sep s 0 in p :: ps.

(** [s.split(sep, 1)] *)
Fixpoint split_once (sep s : string) : option (string * string) :=
  match s with
  | EmptyString => None
  | String c r =>
      if startswith s sep then Some (EmptyString, drop (String.length sep) s)
      else match split_once sep r with
           | Some (a, b) => Some (String c a, b)
           | None => None
           end
  end.

Definition split1 (sep s : string) : list string :=
  match split_once sep s with
  | Some (a, b) => [a; b]
  | None => [s]
  end.

Fixpoint join (sep : string) (l : list string) : string :=
  match l with
  | [] => EmptyString
  | [x] => x
  | x :: r => x ++ sep ++ join sep r
  end.

(** [s.replace(old, new)] for a non-empty [old] *)
Definition replace (old new s : string) : string := join new (split old s).

Fixpoint lstrip_by (p : ascii -> bool) (s : string) : string :=
  match s with
  | EmptyString => EmptyString
  | String c r => if p c then lstrip_by p r else s
  end.
Definition strip_by (p : ascii -> bool) (s : string) : string :=
  rev (lstrip_by p (rev (lstrip_by p s))).

(** [s.strip()] and [s.strip(chars)] *)
Definition strip (s : string) : string := strip_by is_space s.
Definition strip_chars (chars s : string) : string :=
  strip_by (fun c => mem_char c chars) s.

(** [s.isdigit()] *)
Definition isdigit (s : string) : bool := negb (is_empty s) && all_chars is_digit s.

Definition digit_val (c : ascii) : Z := Z.of_nat (code c - 48).

Fixpoint digits_to_Z (acc : Z) (s : string) : Z :=
  match s with
  | EmptyString => acc
  | String c r => digits_to_Z (10 * acc + digit_val c)%Z r
  end.

(** [int(s)] for a string of decimal digits *)
Definition int_of_digits (s : string) : Z := digits_to_Z 0%Z s.

(** [str(n)] for an integer *)
Definition of_Z (z : Z) : string := NilZero.string_of_int (Z.to_int z).

Definition digit_char (d : Z) : ascii := ascii_of_nat (48 + Z.to_nat d).

(** [%02d] and [%04d] for a number in range *)
Definition fmt2 (n : Z) : string :=
  String (digit_char (n / 10)) (String (digit_char (n mod 10)) EmptyString).
Definition fmt4 (n : Z) : string :=
  String (digit_char (n / 1000))
    (String (digit_char ((n / 100) mod 10))
       (String (digit_char ((n / 10) mod 10))
          (String (digit_char (n mod 10)) EmptyString))).
Definition fmt6 (n : Z) : string :=
  String (digit_char (n / 100000))
    (String (digit_char ((n / 10000) mod 10)) (fmt4 (n mod 10000))).

Definition hex_digit (n : nat) : ascii :=
  if (n <? 10)%nat then ascii_of_nat (48 + n) else ascii_of_nat (87 + n).

End Str.

(* ===================================================================== *)
(** ** Python values *)
(* ===================================================================== *)

Inductive pyval : Type :=
| VNone
| VBool (b : bool)
| VInt (z : Z)
| VFloat (f : spec_float)
| VStr (s : string)
| VList (l : list pyval)
| VDict (d : list (string * pyval)).

(** A dictionary with string keys, in insertion order. *)
Definition dict (V : Type) : Type := list (string * V).
Definition pydict : Type := dict pyval.

Module Dict.

Section Ops.
Context {V : Type}.

(** [d.get(k)] *)
Fixpoint get (d : dict V) (k : string) : option V :=
  match d with
  | [] => None
  | (k', v) :: r => if String.eqb k k' then Some v else get r k
  end.

(** [k in d] *)
Definition contains (d : dict V) (k : string) : bool :=
  match get d k with Some _ => true | None => false end.

(** [d[k] = v]: an existing key keeps its position. *)
Fixpoint set (d : dict V) (k : string) (v : V) : dict V :=
  match d with
  | [] => [(k, v)]
  | (k', v') :: r =>
      if String.eqb k k' then (k', v) :: r else (k', v') :: set r k v
  end.

(** [d.update(other)] *)
Definition update (d other : dict V) : dict V :=
  fold_left (fun acc kv => set acc (fst kv) (snd kv)) other d.

Definition keys (d : dict V) : list string := map fst d.
Definition values (d : dict V) : list V := map snd d.

End Ops.

End Dict.

(** A naive [datetime]. *)
Record datetime : Type := mk_datetime {
  dt_year : Z; dt_month : Z; dt_day : Z;
  dt_hour : Z; dt_minute : Z; dt_second : Z;
  dt_microsecond : Z
}.

(** What the interpreter and its libraries decide. *)
Class PyRuntime : Type := {
  (** [repr(x)] of a float *)
  float_repr : spec_float -> string;
  (** [float(s)] of a string; [None] is ValueError *)
  float_of_string : string -> option spec_float;
  (** [dateutil.parser.parse(s).timestamp()] on a string that is not an
      ISO datetime as printed by [isoformat]; [None] is any exception *)
  dateutil_timestamp : string -> option spec_float;
  (** [datetime.strptime(s, fmt)] succeeds *)
  strptime_ok : string -> string -> bool;
  (** [datetime.fromisoformat(s)] succeeds *)
  fromisoformat_ok : string -> bool;
  (** offset of local time from UTC, in seconds (a fixed-offset zone) *)
  utc_offset : Z
}.

Module Py.

(** *** binary64 *)

Definition prec : Z := 53.
Definition emax : Z := 1024.

Definition float_of_Z (z : Z) : spec_float := binary_normalize prec emax z 0 false.
Definition fadd : spec_float -> spec_float -> spec_float := SFadd prec emax.
Definition fmul : spec_float -> spec_float -> spec_float := SFmul prec emax.
Definition fdiv : spec_float -> spec_float -> spec_float := SFdiv prec emax.
Definition fneg : spec_float -> spec_float := SFopp.
Definition fabs : spec_float -> spec_float := SFabs.
Definition flt : spec_float -> spec_float -> bool := SFltb.
Definition feq : spec_float -> spec_float -> bool := SFeqb.

Definition float_is_zero (f : spec_float) : bool :=
  match f with S754_zero _ => true | _ => false end.

Definition signed (s : bool) (z : Z) : Z := if s then (- z)%Z else z.

(** [int(x)] of a float: truncation towards zero *)
Definition int_of_float (f : spec_float) : result Z :=
  match f with
  | S754_zero _ => Ok 0%Z
  | S754_nan => Raise ValueError
  | S754_infinity _ => Raise OverflowError
  | S754_finite s m e =>
      Ok (signed s (if (0 <=? e)%Z then (Zpos m * 2 ^ e)%Z
                    else (Zpos m / 2 ^ (- e))%Z))
  end.

(** [x == n] for a float and an integer, compared exactly *)
Definition float_eq_Z (f : spec_float) (z : Z) : bool :=
  match f with
  | S754_zero _ => (z =? 0)%Z
  | S754_finite s m e =>
      if (0 <=? e)%Z then (z =? signed s (Zpos m * 2 ^ e))%Z
      else (z * 2 ^ (- e) =? signed s (Zpos m))%Z
  | _ => false
  end.

Definition Z_of_bool (b : bool) : Z := if b then 1%Z else 0%Z.

(** *** truth value, type names *)

Definition truthy (v : pyval) : bool :=
  match v with
  | VNone => false
  | VBool b => b
  | VInt z => negb (z =? 0)%Z
  | VFloat f => negb (float_is_zero f)
  | VStr s => negb (Str.is_empty s)
  | VList l => match l with [] => false | _ => true end
  | VDict d => match d with [] => false | _ => true end
  end.

Definition is_none (v : pyval) : bool :=
  match v with VNone => true | _ => false end.

(** [type(v).__name__] *)
Definition type_name (v : pyval) : string :=
  match v with
  | VNone => "NoneType"
  | VBool _ => "bool"
  | VInt _ => "int"
  | VFloat _ => "float"
  | VStr _ => "str"
  | VList _ => "list"
  | VDict _ => "dict"
  end.

(** [a or b] *)
Definition por (a b : pyval) : pyval := if truthy a then a else b.

(** [d.get(k)] with [None] for a missing key, and [d.get(k, dflt)] *)
Definition get (d : pydict) (k : string) : pyval :=
  match Dict.get d k with Some v => v | None => VNone end.
Definition get_or (d : pydict) (k : string) (dflt : pyval) : pyval :=
  match Dict.get d k with Some v => v | None => dflt end.

(** *** equality *)

Fixpoint eqb (a b : pyval) : bool :=
  match a, b with
  | VNone, VNone => true
  | VBool x, VBool y => Bool.eqb x y
  | VBool x, VInt y => (Z_of_bool x =? y)%Z
  | VInt x, VBool y => (x =? Z_of_bool y)%Z
  | VInt x, VInt y => (x =? y)%Z
  | VBool x, VFloat y => float_eq_Z y (Z_of_bool x)
  | VFloat x, VBool y => float_eq_Z x (Z_of_bool y)
  | VInt x, VFloat y => float_eq_Z y x
  | VFloat x, VInt y => float_eq_Z x y
  | VFloat x, VFloat y => feq x y
  | VStr x, VStr y => String.eqb x y
  | VList l1, VList l2 =>
      (fix go (l1 l2 : list pyval) : bool :=
         match l1, l2 with
         | [], [] => true
         | x :: xs, y :: ys => eqb x y && go xs ys
         | _, _ => false
         end) l1 l2
  | VDict d1, VDict d2 =>
      (List.length d1 =? List.length d2)%nat &&
      (fix go (d : list (string * pyval)) : bool :=
         match d with
         | [] => true
         | (k, v) :: r =>
             match Dict.get d2 k with
             | Some w => eqb v w && go r
             | None => false
             end
         end) d1
  | _, _ => false
  end.

(** [v in l] *)
Definition mem (v : pyval) (l : list pyval) : bool := existsb (eqb v) l.

(** *** [repr] and [str] *)

Definition repr_char (quote : ascii) (c : ascii) : string :=
  let n := Str.code c in
  if Ascii.eqb c "\"%char then "\\"
  else if Ascii.eqb c quote then String "\"%char (String c EmptyString)
  else if (n =? 9)%nat then "\t"
  else if (n =? 10)%nat then "\n"
  else if (n =? 13)%nat then "\r"
  else if (n <? 32)%nat || (n =? 127)%nat then
    "\x" ++ String (Str.hex_digit (n / 16)) (String (Str.hex_digit (n mod 16)) EmptyString)
  else String c EmptyString.

Fixpoint repr_chars (quote : ascii) (s : string) : string :=
  match s with
  | EmptyString => EmptyString
  | String c r => repr_char quote c ++ repr_chars quote r
  end.

Definition apostrophe : ascii := "'"%char.
Definition dquote : ascii := ascii_of_nat 34.

Definition repr_str (s : string) : string :=
  let quote :=
    if Str.mem_char apostrophe s && negb (Str.mem_char dquote s)
    then dquote else apostrophe in
  String quote (repr_chars quote s ++ String quote EmptyString).

(** [str] prints the integer: it has at most [Str.max_str_digits]
    digits. *)
Definition int_prints (z : Z) : bool :=
  (String.length (Str.of_Z (Z.abs z)) <=? Str.max_str_digits)%nat.

(** Every integer in a value passes [on_int], and every text and every
    key passes [on_text]. *)
Fixpoint every (on_int : Z -> bool) (on_text : string -> bool) (v : pyval) : bool :=
  match v with
  | VInt z => on_int z
  | VStr s => on_text s
  | VList l =>
      (fix go (l : list pyval) : bool :=
         match l with
         | [] => true
         | x :: r => every on_int on_text x && go r
         end) l
  | VDict d =>
      (fix go (d : list (string * pyval)) : bool :=
         match d with
         | [] => true
         | (k, x) :: r => on_text k && every on_int on_text x && go r
         end) d
  | _ => true
  end.

(** Plain values: every text and every key in them is in ASCII, and
    [str] prints every integer.  These are the values on which [str]
    below and the [Str] operations are what Python computes: [str] of a
    longer integer raises ValueError, and Python's case mapping,
    [strip] and [\w] go beyond ASCII. *)
Definition plain : pyval -> bool := every int_prints Str.is_ascii.

Section WithRuntime.
Context {rt : PyRuntime}.

Fixpoint repr (v : pyval) : string :=
  match v with
  | VNone => "None"
  | VBool true => "True"
  | VBool false => "False"
  | VInt z => Str.of_Z z
  | VFloat f => float_repr f
  | VStr s => repr_str s
  | VList l => "[" ++ Str.join ", " (map repr l) ++ "]"
  | VDict d =>
      "{" ++ Str.join ", " (map (fun kv => repr_str (fst kv) ++ ": " ++ repr (snd kv)) d) ++ "}"
  end.

(** [str(v)], also what an f-string prints, for a value all of whose
    integers pass [int_prints]; on a longer integer [str] raises
    ValueError. *)
Definition str (v : pyval) : string :=
  match v with
  | VStr s => s
  | _ => repr v
  end.

(** [float(v)] *)
Definition to_float (v : pyval) : result spec_float :=
  match v with
  | VBool b => Ok (float_of_Z (Z_of_bool b))
  | VInt z =>
      match float_of_Z z with
      | S754_infinity _ => Raise OverflowError
      | f => Ok f
      end
  | VFloat f => Ok f
  | VStr s =>
      match float_of_string s with
      | Some f => Ok f
      | None => Raise ValueError
      end
  | VNone | VList _ | VDict _ => Raise TypeError
  end.

End WithRuntime.

(** The number a value stands for in arithmetic with a float:
    [x * v] and [x / v] raise TypeError on anything else. *)
Definition float_operand (v : pyval) : result spec_float :=
  match v with
  | VBool b => Ok (float_of_Z (Z_of_bool b))
  | VInt z =>
      match float_of_Z z with
      | S754_infinity _ => Raise OverflowError
      | f => Ok f
      end
  | VFloat f => Ok f
  | _ => Raise TypeError
  end.

(** [v + 1] *)
Definition add_one (v : pyval) : result pyval :=
  match v with
  | VBool b => Ok (VInt (Z_of_bool b + 1))
  | VInt z => Ok (VInt (z + 1))
  | VFloat f => Ok (VFloat (fadd f (float_of_Z 1)))
  | _ => Raise TypeError
  end.

End Py.

(* ===================================================================== *)
(** ** [datetime] *)
(* ===================================================================== *)

(** The proleptic Gregorian calendar of Python's [datetime] and the
    conversions the transformer uses: [fromtimestamp], [isoformat],
    [timestamp], and dateutil's parser on the strings [isoformat]
    prints.  Local time is UTC shifted by the runtime's fixed offset. *)
Module Datetime.

Open Scope Z_scope.

Definition is_leap (y : Z) : bool :=
  (y mod 4 =? 0) && (negb (y mod 100 =? 0) || (y mod 400 =? 0)).

Definition days_before_year (y : Z) : Z :=
  let p := y - 1 in p * 365 + p / 4 - p / 100 + p / 400.

(** [_DAYS_IN_MONTH], with February of a leap year *)
Definition days_in_month_of (leap : bool) (m : Z) : Z :=
  if m =? 2 then (if leap then 29 else 28)
  else if (m =? 4) || (m =? 6) || (m =? 9) || (m =? 11) then 30
  else 31.

Definition days_in_month (y m : Z) : Z := days_in_month_of (is_leap y) m.

(** [_DAYS_BEFORE_MONTH] *)
Definition days_before_month_table (m : Z) : Z :=
  if m =? 1 then 0 else if m =? 2 then 31 else if m =? 3 then 59
  else if m =? 4 then 90 else if m =? 5 then 120 else if m =? 6 then 151
  else if m =? 7 then 181 else if m =? 8 then 212 else if m =? 9 then 243
  else if m =? 10 then 273 else if m =? 11 then 304 else 334.

Definition days_before_month_of (leap : bool) (m : Z) : Z :=
  days_before_month_table m + (if (2 <? m) && leap then 1 else 0).

Definition days_before_month (y m : Z) : Z := days_before_month_of (is_leap y) m.

Definition ymd2ord (y m d : Z) : Z :=
  days_before_year y + days_before_month y m + d.

Definition DI400Y : Z := 146097.
Definition DI100Y : Z := 36524.
Definition DI4Y : Z := 1461.

(** The month and the day of day [n], counted from 0, of a year: the
    estimate [(n + 50) >> 5] is right or one too large. *)
Definition month_day (leapyear : bool) (n : Z) : Z * Z :=
  let month := Z.shiftr (n + 50) 5 in
  let preceding :=
    days_before_month_table month + (if (2 <? month) && leapyear then 1 else 0) in
  if n <? preceding then
    let month' := month - 1 in
    let preceding' :=
      preceding - (days_in_month_of false month'
                   + (if (month' =? 2) && leapyear then 1 else 0)) in
    (month', n - preceding' + 1)
  else (month, n - preceding + 1).

(** [_ord2ymd] *)
Definition ord2ymd (ordinal : Z) : Z * Z * Z :=
  let n := ordinal - 1 in
  let n400 := n / DI400Y in
  let n := n mod DI400Y in
  let n100 := n / DI100Y in
  let n := n mod DI100Y in
  let n4 := n / DI4Y in
  let n := n mod DI4Y in
  let n1 := n / 365 in
  let n := n mod 365 in
  let year := n400 * 400 + 1 + n100 * 100 + n4 * 4 + n1 in
  if (n1 =? 4) || (n100 =? 4) then (year - 1, 12, 31)
  else
    let leapyear := (n1 =? 3) && (negb (n4 =? 24) || (n100 =? 3)) in
    let '(month, day) := month_day leapyear n in
    (year, month, day).

(** ordinal of 1970-01-01 and of 9999-12-31 *)
Definition epoch_ordinal : Z := 719163.
Definition max_ordinal : Z := 3652059.

(** [math.modf] on a finite float: integral part and fractional part *)
Definition modf (f : spec_float) : option (Z * spec_float) :=
  match f with
  | S754_zero s => Some (0, S754_zero s)
  | S754_finite s m e =>
      if 0 <=? e then Some (Py.signed s (Zpos m * 2 ^ e), S754_zero s)
      else
        let k := 2 ^ (- e) in
        Some (Py.signed s (Zpos m / k),
              binary_normalize Py.prec Py.emax (Py.signed s (Zpos m mod k)) e s)
  | _ => None
  end.

(** [round(x)] of a finite float: to the nearest integer, ties to even *)
Definition round_half_even (f : spec_float) : Z :=
  match f with
  | S754_finite s m e =>
      if 0 <=? e then Py.signed s (Zpos m * 2 ^ e)
      else
        let k := 2 ^ (- e) in
        let q := Zpos m / k in
        let r := Zpos m mod k in
        Py.signed s
          (if 2 * r <? k then q
           else if k <? 2 * r then q + 1
           else if Z.even q then q else q + 1)
  | _ => 0
  end.

(** [max_fold_seconds]: how far back a repeated local hour is looked
    for. *)
Definition max_fold_seconds : Z := 86400.

Section WithRuntime.
Context {rt : PyRuntime}.

(** [local(u)] of the C implementation, with [u] counted from the
    epoch: the local time at [u], in seconds; [None] when its year is
    outside 1..9999, where [utc_to_seconds] raises ValueError. *)
Definition local (u : Z) : option Z :=
  let t := u + utc_offset in
  let ordinal := t / 86400 + epoch_ordinal in
  if (1 <=? ordinal) && (ordinal <=? max_ordinal) then Some t else None.

(** The civil date and time of [secs] seconds after the epoch, in local
    time; [None] outside the years 1..9999, where [datetime] raises,
    and in the first 24 hours of the year 1, where the probe for a
    fold, [local(secs - max_fold_seconds)], does. *)
Definition of_epoch_seconds (secs us : Z) : option datetime :=
  let loc := secs + utc_offset in
  let ordinal := loc / 86400 + epoch_ordinal in
  let rem := loc mod 86400 in
  if (1 <=? ordinal) && (ordinal <=? max_ordinal) then
    let '(y, m, d) := ord2ymd ordinal in
    match local (secs - max_fold_seconds) with
    | Some _ =>
        Some (mk_datetime y m d (rem / 3600) ((rem mod 3600) / 60) (rem mod 60) us)
    | None => None
    end
  else None.

(** [datetime.fromtimestamp(t)]; [None] when it raises *)
Definition fromtimestamp (t : spec_float) : option datetime :=
  match modf t with
  | None => None
  | Some (secs, frac) =>
      let us := round_half_even (Py.fmul frac (Py.float_of_Z 1000000)) in
      if 1000000 <=? us then of_epoch_seconds (secs + 1) (us - 1000000)
      else if us <? 0 then of_epoch_seconds (secs - 1) (us + 1000000)
      else of_epoch_seconds secs us
  end.

(** [dt.timestamp()] of a naive value; [None] when it raises.
    [local_to_seconds] solves [t = local(u)] for [u], where [t] is the
    value read as if it were UTC: it calls [local] at [t] for the
    offset [a], at the solution [u1 = t - a], and 24 hours before [u1]
    to look for a fold, and each call raises when the local time there
    lies outside the years 1..9999.  With a fixed offset [local(u1)] is
    [t] and no other offset is found, so [u1] is the answer. *)
Definition timestamp (dt : datetime) : option spec_float :=
  let days := ymd2ord (dt_year dt) (dt_month dt) (dt_day dt) - epoch_ordinal in
  let t := days * 86400 + dt_hour dt * 3600 + dt_minute dt * 60 + dt_second dt in
  match local t with
  | None => None
  | Some lt =>
      let a := lt - t in
      let u1 := t - a in
      match local u1, local (u1 - max_fold_seconds) with
      | Some _, Some _ =>
          Some (Py.fadd (Py.float_of_Z u1)
                  (Py.fdiv (Py.float_of_Z (dt_microsecond dt)) (Py.float_of_Z 1000000)))
      | _, _ => None
      end
  end.

End WithRuntime.

(** [dt.isoformat()] of a naive value *)
Definition isoformat (dt : datetime) : string :=
  (Str.fmt4 (dt_year dt) ++ "-" ++ Str.fmt2 (dt_month dt) ++ "-" ++ Str.fmt2 (dt_day dt)
   ++ "T" ++ Str.fmt2 (dt_hour dt) ++ ":" ++ Str.fmt2 (dt_minute dt) ++ ":"
   ++ Str.fmt2 (dt_second dt)
   ++ (if (dt_microsecond dt =? 0)%Z then "" else "." ++ Str.fmt6 (dt_microsecond dt)))%string.

(** Reading [n] decimal digits off the front of a string. *)
Fixpoint read_digits (n : nat) (acc : Z) (s : string) : option (Z * string) :=
  match n with
  | O => Some (acc, s)
  | S k =>
      match s with
      | String c r =>
          if Str.is_digit c then read_digits k (10 * acc + Str.digit_val c) r
          else None
      | EmptyString => None
      end
  end.

Definition expect (c : ascii) (s : string) : option string :=
  match s with
  | String d r => if Ascii.eqb c d then Some r else None
  | EmptyString => None
  end.

Definition valid_fields (y m d hh mm ss : Z) : bool :=
  (1 <=? y) && (1 <=? m) && (m <=? 12) && (1 <=? d) && (d <=? days_in_month y m)
  && (hh <? 24) && (mm <? 60) && (ss <? 60).

(** The parser on [YYYY-MM-DDTHH:MM:SS] and [YYYY-MM-DDTHH:MM:SS.ffffff];
    [None] for any other string. *)
Definition parse_isoformat (s : string) : option datetime :=
  match read_digits 4 0 s with
  | None => None
  | Some (y, s) =>
  match expect "-" s with None => None | Some s =>
  match read_digits 2 0 s with None => None | Some (m, s) =>
  match expect "-" s with None => None | Some s =>
  match read_digits 2 0 s with None => None | Some (d, s) =>
  match expect "T" s with None => None | Some s =>
  match read_digits 2 0 s with None => None | Some (hh, s) =>
  match expect ":" s with None => None | Some s =>
  match read_digits 2 0 s with None => None | Some (mm, s) =>
  match expect ":" s with None => None | Some s =>
  match read_digits 2 0 s with None => None | Some (ss, s) =>
    if valid_fields y m d hh mm ss then
      match s with
      | EmptyString => Some (mk_datetime y m d hh mm ss 0)
      | _ =>
          match expect "." s with
          | None => None
          | Some s =>
              match read_digits 6 0 s with
              | Some (us, EmptyString) => Some (mk_datetime y m d hh mm ss us)
              | _ => None
              end
          end
      end
    else None
  end end end end end end end end end end end.

End Datetime.

(* ===================================================================== *)
(** ** The data model (src/app/models) *)
(* ===================================================================== *)

Inductive FieldType : Type :=
| STRING | INTEGER | DECIMAL | BOOLEAN | TIMESTAMP | DATE
| DATETIME | ENUM | OBJECT | ARRAY | JSON | CURRENCY.

Definition FieldType_value (t : FieldType) : string :=
  match t with
  | STRING => "string" | INTEGER => "integer" | DECIMAL => "decimal"
  | BOOLEAN => "boolean" | TIMESTAMP => "timestamp" | DATE => "date"
  | DATETIME => "datetime" | ENUM => "enum" | OBJECT => "object"
  | ARRAY => "array" | JSON => "json" | CURRENCY => "currency"
  end.

Definition FieldType_eqb (a b : FieldType) : bool :=
  String.eqb (FieldType_value a) (FieldType_value b).

(** [FieldDefinition], with the attributes validation reads. *)
Inductive FieldDefinition : Type :=
  mk_FieldDefinition {
    fd_name : string;
    fd_type : FieldType;
    fd_required : bool;
    fd_max_length : option Z;
    fd_enum_values : option (list string);
    fd_properties : option (list (string * FieldDefinition));
    fd_items : option FieldDefinition
  }.

Record EntitySchema : Type := mk_EntitySchema {
  es_name : string;
  es_fields : dict FieldDefinition;
  es_primary_key : string
}.

Record ServiceSchema : Type := mk_ServiceSchema {
  ss_name : string;
  ss_entities : dict EntitySchema
}.

(** [FieldMapping].  [fm_transform] is the operator tag: the value of
    the [TransformType] member, or the string stored in its place. *)
Record FieldMapping : Type := mk_FieldMapping {
  fm_source_field : option string;
  fm_target_field : string;
  fm_transform : string;
  fm_transform_config : pydict;
  fm_required : bool;
  fm_default_value : pyval;
  fm_condition : option string
}.

Record EntityMapping : Type := mk_EntityMapping {
  em_name : string;
  em_source_entity : string;
  em_target_entity : string;
  em_source_service : string;
  em_target_service : string;
  em_field_mappings : list FieldMapping
}.

Record SourceRecord : Type := mk_SourceRecord {
  sr_id : pyval;
  sr_source_service : string;
  sr_source_entity : string;
  sr_data : pydict
}.

(** The text of a [ValidationError]: a literal, or the text of a caught
    exception after ["Transform error: "]. *)
Inductive message : Type :=
| Msg (s : string)
| TransformErrorMsg (e : exn).

Record ValidationError : Type := mk_ValidationError {
  ve_field : string;
  ve_message : message;
  ve_error_type : string;
  ve_severity : string;
  ve_value : pyval;
  ve_suggested_fix : option string
}.

Record TransformedRecord : Type := mk_TransformedRecord {
  tr_id : pyval;
  tr_target_service : string;
  tr_target_entity : string;
  tr_data : pydict;
  tr_source_records : list SourceRecord;
  tr_validation_errors : list ValidationError;
  tr_warnings : list string
}.

(** [TransformType] values that name a built-in operator, and the tag
    of a registered function. *)
Definition CUSTOM : string := "custom".

(* ===================================================================== *)
(** ** The transformation engine (src/app/services/transformer.py) *)
(* ===================================================================== *)

Module Transformer.

(** The signature of a transform: value, operator configuration, the
    payloads by service, the run context. *)
Definition transform_fn : Type :=
  pyval -> pydict -> dict pydict -> pydict -> result pyval.

(** *** Access with a key that is itself a value *)

(** [d.get(k)] for a value [k]: a string is looked up, another hashable
    value is no key of a dictionary with string keys, a list or a
    dictionary is unhashable. *)
Definition get_val {V} (d : dict V) (k : pyval) : result (option V) :=
  match k with
  | VStr s => Ok (Dict.get d s)
  | VList _ | VDict _ => Raise TypeError
  | _ => Ok None
  end.

(** [d[k] = v] for a value [k] *)
Definition set_val (d : pydict) (k : pyval) (v : pyval) : result pydict :=
  match k with
  | VStr s => Ok (Dict.set d s v)
  | VList _ | VDict _ => Raise TypeError
  | _ => Raise Unmodelled
  end.

(** [x.items()]: AttributeError unless [x] is a dictionary *)
Definition items (x : pyval) : result (list (string * pyval)) :=
  match x with
  | VDict d => Ok d
  | _ => Raise AttributeError
  end.

(** [for e in x] *)
Definition iterate (x : pyval) : result (list pyval) :=
  match x with
  | VList l => Ok l
  | VStr s => Ok (map (fun c => VStr (String c EmptyString)) (list_ascii_of_string s))
  | VDict d => Ok (map (fun kv => VStr (fst kv)) d)
  | _ => Raise TypeError
  end.

(** [s in x] for a string [s] *)
Definition str_in (s : string) (x : pyval) : result bool :=
  match x with
  | VDict d => Ok (Dict.contains d s)
  | VList l => Ok (Py.mem (VStr s) l)
  | VStr t => Ok (Str.contains t s)
  | _ => Raise TypeError
  end.

(** [x[s]] for a string [s] *)
Definition subscript_str (x : pyval) (s : string) : result pyval :=
  match x with
  | VDict d =>
      match Dict.get d s with
      | Some v => Ok v
      | None => Raise KeyError
      end
  | _ => Raise TypeError
  end.

(** [x.get(s)]: AttributeError unless [x] is a dictionary *)
Definition attr_get (x : pyval) (s : string) : result pyval :=
  match x with
  | VDict d => Ok (Py.get d s)
  | _ => Raise AttributeError
  end.

(** *** [_get_nested_value] *)

Fixpoint span (p : ascii -> bool) (s : string) : string * string :=
  match s with
  | EmptyString => (EmptyString, EmptyString)
  | String c r =>
      if p c then let '(a, b) := span p r in (String c a, b)
      else (EmptyString, s)
  end.

Definition newline : string := String (ascii_of_nat 10) EmptyString.

(** [re.match(r"^(\w+)\[(\d+)\]$", part)]: the two groups *)
Definition array_match (part : string) : option (string * string) :=
  let '(key, rest) := span Str.is_word part in
  if Str.is_empty key then None
  else match rest with
       | String c rest1 =>
           if Ascii.eqb c "["%char then
             let '(index, rest2) := span Str.is_digit rest1 in
             if Str.is_empty index then None
             else if String.eqb rest2 "]" || String.eqb rest2 ("]" ++ newline)
                  then Some (key, index)
                  else None
           else None
       | EmptyString => None
       end.

Definition list_index (l : list pyval) (i : Z) : option pyval :=
  if (i <? Z.of_nat (List.length l))%Z then nth_error l (Z.to_nat i) else None.

(** One turn of the loop over the parts of a path.  [int(index)] and
    [int(part)] are taken to return the number the digits spell, as
    they do on a [plain_path] (defined below); on another path they may
    raise ValueError. *)
Definition nested_step (value : pyval) (part : string) : pyval :=
  if Py.is_none value then VNone
  else
    match array_match part with
    | Some (key, index) =>
        let value := match value with VDict d => Py.get d key | _ => value end in
        match value with
        | VList l =>
            match list_index l (Str.int_of_digits index) with
            | Some v => v
            | None => VNone
            end
        | _ => VNone
        end
    | None =>
        match value with
        | VDict d => Py.get d part
        | VList l =>
            if Str.isdigit part then
              match list_index l (Str.int_of_digits part) with
              | Some v => v
              | None => VNone
              end
            else VNone
        | _ => VNone
        end
    end.

Definition _get_nested_value (data : pyval) (path : string) : pyval :=
  fold_left nested_step (Str.split "." path) data.

(** A path in ASCII of at most [Str.max_str_digits] characters.  On
    such a path [re.match] and [isdigit] accept a segment exactly when
    [array_match] and [Str.isdigit] do, and [int] reads every index
    they accept; on another path [int(index)] or [int(part)] may raise
    ValueError where [nested_step] goes on. *)
Definition plain_path (path : string) : bool :=
  Str.is_ascii path && (String.length path <=? Str.max_str_digits)%nat.

(** A plain configuration: a plain object in which every text and every
    key, which an operator may read as a path, is a plain path. *)
Definition plain_config (config : pydict) : bool :=
  Py.every Py.int_prints plain_path (VDict config).

(** *** [_set_nested_value] *)

(** The payload after the write, as a value.  The code writes into the
    dictionaries it passes through; another field that holds one of
    them changes with it, which a value does not show. *)
Fixpoint set_nested_parts (parts : list string) (current : pydict) (value : pyval)
  : result pydict :=
  match parts with
  | [] => Ok current
  | [last] => Ok (Dict.set current last value)
  | part :: rest =>
      match Dict.get current part with
      | None =>
          do sub <- set_nested_parts rest [] value ;;
          Ok (Dict.set current part (VDict sub))
      | Some (VDict sub) =>
          do sub' <- set_nested_parts rest sub value ;;
          Ok (Dict.set current part (VDict sub'))
      | Some _ => Raise TypeError
      end
  end.

Definition _set_nested_value (data : pydict) (path : string) (value : pyval)
  : result pydict :=
  set_nested_parts (Str.split "." path) data value.

Section WithRuntime.
Context {rt : PyRuntime}.

(** *** [_evaluate_condition] *)

Definition quotes : string := String Py.apostrophe (String Py.dquote EmptyString).

Definition _evaluate_condition (condition : string) (combined_data : dict pydict) : bool :=
  if Str.contains condition " exists" then
    let field := Str.strip (Str.replace " exists" "" condition) in
    existsb (fun sd => negb (Py.is_none (_get_nested_value (VDict sd) field)))
            (Dict.values combined_data)
  else if Str.contains condition " == " then
    match Str.split " == " condition with
    | [field; expected] =>
        existsb (fun sd =>
                   String.eqb (Py.str (_get_nested_value (VDict sd) (Str.strip field)))
                              (Str.strip_chars quotes (Str.strip expected)))
                (Dict.values combined_data)
    | _ => true
    end
  else if Str.contains condition " != " then
    match Str.split " != " condition with
    | [field; expected] =>
        existsb (fun sd =>
                   negb (String.eqb (Py.str (_get_nested_value (VDict sd) (Str.strip field)))
                                    (Str.strip_chars quotes (Str.strip expected))))
                (Dict.values combined_data)
    | _ => true
    end
  else true.

(** The same on a value that need not be a string: every failure inside
    is caught and answers [True]. *)
Definition _evaluate_condition_val (condition : pyval) (combined_data : dict pydict) : bool :=
  match condition with
  | VStr s => _evaluate_condition s combined_data
  | _ => true
  end.

(** [for service_data in data.values(): v = get_nested(service_data, path);
    if v is not None: ...]: the first value found, for a path that is
    itself a value. *)
Definition first_in_services (data : dict pydict) (path : pyval) : result pyval :=
  match Dict.values data with
  | [] => Ok VNone
  | sds =>
      match path with
      | VStr p =>
          Ok (match find (fun v => negb (Py.is_none v))
                         (map (fun sd => _get_nested_value (VDict sd) p) sds) with
              | Some v => v
              | None => VNone
              end)
      | _ => Raise AttributeError
      end
  end.



(** *** Built-in transform functions *)

Definition attr_get_or (x : pyval) (s : string) (dflt : pyval) : result pyval :=
  match x with
  | VDict d => Ok (Py.get_or d s dflt)
  | _ => Raise AttributeError
  end.

(** [value_str[len(prefix):]] when [value_str.startswith(prefix)] *)
Definition strip_prefix (value_str : string) (prefix : pyval) : result string :=
  match prefix with
  | VStr p =>
      Ok (if Str.startswith value_str p
          then Str.drop (String.length p) value_str else value_str)
  | _ => Raise TypeError
  end.

(** [s[:stop]] *)
Definition slice_to (s : string) (stop : pyval) : result string :=
  let upto (n : Z) :=
    if (0 <=? n)%Z then Str.take (Z.to_nat n) s
    else Str.take (Z.to_nat (Z.of_nat (String.length s) + n)) s in
  match stop with
  | VNone => Ok s
  | VInt n => Ok (upto n)
  | VBool b => Ok (upto (Py.Z_of_bool b))
  | _ => Raise TypeError
  end.

Fixpoint mapM {A B} (f : A -> result B) (l : list A) : result (list B) :=
  match l with
  | [] => Ok []
  | x :: r => do y <- f x ;; do ys <- mapM f r ;; Ok (y :: ys)
  end.

Definition _transform_direct : transform_fn :=
  fun value config data ctx => Ok value.

Definition _transform_prefix_add : transform_fn :=
  fun value config data ctx =>
    if Py.is_none value then Ok VNone
    else
      let prefix := Py.get_or config "prefix" (VStr "") in
      Ok (VStr (Py.str prefix ++ Py.str value)).

Definition _transform_prefix_strip : transform_fn :=
  fun value config data ctx =>
    if Py.is_none value then Ok VNone
    else
      let value_str := Py.str value in
      let prefix := Py.get_or config "prefix" (VStr "") in
      let new_prefix := Py.get_or config "new_prefix" (VStr "") in
      do value_str <- strip_prefix value_str prefix ;;
      Ok (VStr (Py.str new_prefix ++ value_str)).

Definition _transform_prefix_strip_and_add : transform_fn :=
  fun value config data ctx =>
    if Py.is_none value then Ok VNone
    else
      let value_str := Py.str value in
      let strip := Py.get_or config "strip" (VStr "") in
      let add := Py.get_or config "add" (VStr "") in
      do value_str <- strip_prefix value_str strip ;;
      Ok (VStr (Py.str add ++ value_str)).

Definition _transform_split_name : transform_fn :=
  fun value config data ctx =>
    if negb (Py.truthy value) then Ok VNone
    else
      let part := Py.get_or config "part" (VStr "first") in
      let parts := Str.split1 " " (Py.str value) in
      if Py.eqb part (VStr "first") then
        Ok (match parts with p :: _ => VStr p | [] => VNone end)
      else if Py.eqb part (VStr "last") then
        Ok (match parts with _ :: p :: _ => VStr p | _ => VNone end)
      else Ok value.

Definition _transform_truncate : transform_fn :=
  fun value config data ctx =>
    if Py.is_none value then Ok VNone
    else
      let max_length := Py.get_or config "max_length" (VInt 255) in
      do s <- slice_to (Py.str value) max_length ;;
      Ok (VStr s).

Definition _transform_uppercase : transform_fn :=
  fun value config data ctx =>
    if Py.is_none value then Ok VNone
    else Ok (VStr (Str.upper (Py.str value))).

Definition _transform_lowercase : transform_fn :=
  fun value config data ctx =>
    if Py.is_none value then Ok VNone
    else Ok (VStr (Str.lower (Py.str value))).

Definition _transform_enum_map : transform_fn :=
  fun value config data ctx =>
    if Py.is_none value then Ok (Py.get config "default")
    else
      let mapping := Py.get_or config "mapping" (VDict []) in
      attr_get_or mapping (Py.str value) (Py.get config "default").

Definition _transform_boolean_to_enum : transform_fn :=
  fun value config data ctx =>
    if Py.is_none value then
      Ok (Py.por (Py.get config "false_value") (Py.get config "false"))
    else
      let true_value := Py.por (Py.get config "true_value") (Py.get config "true") in
      let false_value := Py.por (Py.get config "false_value") (Py.get config "false") in
      match value with
      | VBool b => Ok (if b then true_value else false_value)
      | VStr s =>
          let l := Str.lower s in
          Ok (if String.eqb l "true" || String.eqb l "1" || String.eqb l "yes"
              then true_value else false_value)
      | _ => Ok (if Py.truthy value then true_value else false_value)
      end.

Definition _transform_to_metadata : transform_fn :=
  fun value config data ctx => Ok value.

(** [for key, path in fields.items(): for service_data in data.values(): ...
    result[key] = nested_value; break] *)
Fixpoint gather (fields : list (string * pyval)) (data : dict pydict) (result_ : pydict)
  : result pydict :=
  match fields with
  | [] => Ok result_
  | (key, path) :: rest =>
      do v <- first_in_services data path ;;
      gather rest data (if Py.is_none v then result_ else Dict.set result_ key v)
  end.

Definition _transform_merge : transform_fn :=
  fun value config data ctx =>
    match value with
    | VDict d =>
        let additional := Py.get_or config "additional_fields" (VDict []) in
        do fields <- items additional ;;
        do r <- gather fields data d ;;
        Ok (VDict r)
    | _ => Ok value
    end.

Fixpoint map_item_fields (item_mapping : list (string * pyval)) (id_transform item : pyval)
  (mapped_item : pydict) : result pydict :=
  match item_mapping with
  | [] => Ok mapped_item
  | (source_key, target_key) :: rest =>
      let item_value := _get_nested_value item source_key in
      match target_key with
      | VStr tk =>
          do item_value <-
            (if Str.endswith tk "_id" && Py.truthy id_transform && Py.truthy item_value
             then
               do prefix <- attr_get_or id_transform "prefix" (VStr "") ;;
               do new_prefix <- attr_get_or id_transform "new_prefix" (VStr "") ;;
               do stripped <- strip_prefix (Py.str item_value) prefix ;;
               Ok (VStr (Py.str new_prefix ++ stripped))
             else Ok item_value) ;;
          map_item_fields rest id_transform item (Dict.set mapped_item tk item_value)
      | _ => Raise AttributeError
      end
  end.

Definition _transform_array_map : transform_fn :=
  fun value config data ctx =>
    match value with
    | VList l =>
        let item_mapping := Py.get_or config "item_mapping" (VDict []) in
        let id_transform := Py.get_or config "id_transform" (VDict []) in
        do r <- mapM (fun item =>
                        do fields <- items item_mapping ;;
                        do m <- map_item_fields fields id_transform item [] ;;
                        Ok (VDict m)) l ;;
        Ok (VList r)
    | _ => Ok value
    end.

Definition _transform_default : transform_fn :=
  fun value config data ctx =>
    if Py.is_none value then Ok (Py.get config "value") else Ok value.

Definition _transform_coalesce : transform_fn :=
  fun value config data ctx =>
    if negb (Py.is_none value) then Ok value
    else
      let fallback_field := Py.get config "fallback_field" in
      if Py.truthy fallback_field then
        do fallback_value <- first_in_services data fallback_field ;;
        if Py.is_none fallback_value then Ok VNone
        else
          let suffix := Py.get_or config "fallback_suffix" (VStr "") in
          Ok (if Py.truthy suffix
              then VStr (Py.str fallback_value ++ Py.str suffix)
              else fallback_value)
      else Ok VNone.

Fixpoint first_of_fields (fields : list pyval) (data : dict pydict) : result pyval :=
  match fields with
  | [] => Ok VNone
  | field :: rest =>
      do v <- first_in_services data field ;;
      if Py.is_none v then first_of_fields rest data else Ok v
  end.

Definition _transform_coalesce_fields : transform_fn :=
  fun value config data ctx =>
    if negb (Py.is_none value) then Ok value
    else
      let fallback_fields := Py.get_or config "fallback_fields" (VList []) in
      do fields <- iterate fallback_fields ;;
      first_of_fields fields data.

Fixpoint conditional_rules (conditions : list pyval) (value : pyval) (data : dict pydict)
  : result pyval :=
  match conditions with
  | [] => Ok value
  | condition :: rest =>
      do has_value <- str_in "value" condition ;;
      do matched <-
        (if has_value then
           do cv <- subscript_str condition "value" ;;
           Ok (String.eqb (Py.str value) (Py.str cv))
         else Ok false) ;;
      if matched then attr_get condition "result"
      else
        do has_if <- str_in "if" condition ;;
        do fires <-
          (if has_if then
             do c <- subscript_str condition "if" ;;
             Ok (_evaluate_condition_val c data)
           else Ok false) ;;
        if fires then attr_get condition "then"
        else
          do has_default <- str_in "default" condition ;;
          if has_default then subscript_str condition "default"
          else conditional_rules rest value data
  end.

Definition _transform_conditional : transform_fn :=
  fun value config data ctx =>
    let conditions := Py.get_or config "conditions" (VList []) in
    do rules <- iterate conditions ;;
    conditional_rules rules value data.

Definition default_tier_field_mapping : pyval :=
  VDict [("up_to", VStr "ending_unit"); ("unit_amount", VStr "price")].

(** [for source_key, target_key in field_mapping.items():
      if source_key in tier: mapped_tier[target_key] = tier[source_key]] *)
Fixpoint copy_mapped_fields (field_mapping : list (string * pyval)) (tier mapped_tier : pydict)
  : result pydict :=
  match field_mapping with
  | [] => Ok mapped_tier
  | (source_key, target_key) :: rest =>
      match Dict.get tier source_key with
      | Some v =>
          do m <- set_val mapped_tier target_key v ;;
          copy_mapped_fields rest tier m
      | None => copy_mapped_fields rest tier mapped_tier
      end
  end.

Fixpoint tier_loop (tiers : list pyval) (field_mapping null_up_to starting_unit : pyval)
  : result (list pyval) :=
  match tiers with
  | [] => Ok []
  | tier :: rest =>
      match tier with
      | VDict t =>
          let mapped_tier := [("starting_unit", starting_unit)] in
          let up_to := Py.get t "up_to" in
          let mapped_tier :=
            Dict.set mapped_tier "ending_unit"
                     (if Py.is_none up_to then null_up_to else up_to) in
          do fields <- items field_mapping ;;
          do mapped_tier <- copy_mapped_fields fields t mapped_tier ;;
          do starting_unit <- Py.add_one (Py.por up_to (VInt 0)) ;;
          do bands <- tier_loop rest field_mapping null_up_to starting_unit ;;
          Ok (VDict mapped_tier :: bands)
      | _ => Raise AttributeError
      end
  end.

Definition _transform_tier_mapping : transform_fn :=
  fun value config data ctx =>
    match value with
    | VList tiers =>
        let field_mapping := Py.get_or config "field_mapping" default_tier_field_mapping in
        let null_up_to := Py.get_or config "null_up_to" (VStr "inf") in
        do bands <- tier_loop tiers field_mapping null_up_to (VInt 1) ;;
        Ok (VList bands)
    | _ => Ok value
    end.

(** [try: ... except (ValueError, TypeError): return value] *)
Definition or_echo (value : pyval) (r : result pyval) : result pyval :=
  match r with
  | Ok v => Ok v
  | Raise e => if is_value_or_type_error e then Ok value else Raise e
  end.

Definition float_zero : spec_float := S754_zero false.

Definition _transform_negate_if_positive : transform_fn :=
  fun value config data ctx =>
    if Py.is_none value then Ok VNone
    else or_echo value
           (do num <- Py.to_float value ;;
            Ok (VFloat (if Py.flt float_zero num then Py.fneg num else num))).

Definition _transform_negate_if_negative : transform_fn :=
  fun value config data ctx =>
    if Py.is_none value then Ok VNone
    else or_echo value
           (do num <- Py.to_float value ;;
            Ok (VFloat (Py.fabs num))).

(** [date_parser.parse(s).timestamp()]; [None] when either raises *)
Definition parse_timestamp (s : string) : option spec_float :=
  match Datetime.parse_isoformat s with
  | Some dt => Datetime.timestamp dt
  | None => dateutil_timestamp s
  end.

Definition int_or_none (f : spec_float) : pyval :=
  match Py.int_of_float f with
  | Ok z => VInt z
  | Raise _ => VNone
  end.

Definition _transform_iso_to_unix : transform_fn :=
  fun value config data ctx =>
    match value with
    | VNone => Ok VNone
    | VBool b => Ok (VInt (Py.Z_of_bool b))
    | VInt z => Ok (VInt z)
    | VFloat f => Ok (int_or_none f)
    | _ =>
        match parse_timestamp (Py.str value) with
        | Some ts => Ok (int_or_none ts)
        | None => Ok VNone
        end
    end.

Definition _transform_unix_to_iso : transform_fn :=
  fun value config data ctx =>
    if Py.is_none value then Ok VNone
    else
      match Py.to_float value with
      | Raise _ => Ok VNone
      | Ok timestamp =>
          match Datetime.fromtimestamp timestamp with
          | Some dt => Ok (VStr (Datetime.isoformat dt))
          | None => Ok VNone
          end
      end.

Definition _transform_multiply : transform_fn :=
  fun value config data ctx =>
    if Py.is_none value then Ok VNone
    else or_echo value
           (let multiplier := Py.get_or config "multiplier" (VInt 1) in
            do x <- Py.to_float value ;;
            do m <- Py.float_operand multiplier ;;
            Ok (VFloat (Py.fmul x m))).

Definition _transform_divide : transform_fn :=
  fun value config data ctx =>
    if Py.is_none value then Ok VNone
    else or_echo value
           (let divisor := Py.get_or config "divisor" (VInt 1) in
            if negb (Py.eqb divisor (VInt 0)) then
              do x <- Py.to_float value ;;
              do d <- Py.float_operand divisor ;;
              Ok (VFloat (Py.fdiv x d))
            else Ok value).

Definition country_codes : dict string :=
  [ ("united states", "US"); ("united states of america", "US"); ("usa", "US");
    ("united kingdom", "GB"); ("uk", "GB"); ("great britain", "GB");
    ("germany", "DE"); ("france", "FR"); ("canada", "CA"); ("australia", "AU");
    ("japan", "JP"); ("china", "CN"); ("india", "IN"); ("brazil", "BR");
    ("mexico", "MX"); ("spain", "ES"); ("italy", "IT"); ("netherlands", "NL");
    ("sweden", "SE"); ("switzerland", "CH"); ("belgium", "BE"); ("austria", "AT");
    ("denmark", "DK"); ("norway", "NO"); ("finland", "FI"); ("ireland", "IE");
    ("portugal", "PT"); ("poland", "PL"); ("new zealand", "NZ"); ("singapore", "SG") ].

Definition _transform_country_code : transform_fn :=
  fun value config data ctx =>
    if Py.is_none value then Ok VNone
    else
      let value_lower := Str.strip (Str.lower (Py.str value)) in
      if (String.length value_lower =? 2)%nat then Ok (VStr (Str.upper value_lower))
      else Ok (match Dict.get country_codes value_lower with
               | Some code => VStr code
               | None => value
               end).

Definition _transform_clean_phone : transform_fn :=
  fun value config data ctx =>
    if Py.is_none value then Ok VNone
    else
      let phone :=
        Str.filter_chars (fun c => Str.is_digit c || Ascii.eqb c "+"%char) (Py.str value) in
      let phone :=
        if negb (Str.is_empty phone) && negb (Str.startswith phone "+")
           && (10 <? String.length phone)%nat
        then "+" ++ phone else phone in
      Ok (if Str.is_empty phone then VNone else VStr phone).

Definition default_address_field_map : pyval :=
  VDict [("line1", VStr "line1"); ("line2", VStr "line2"); ("city", VStr "city");
         ("state", VStr "state_code"); ("postal_code", VStr "zip");
         ("country", VStr "country")].

Definition _transform_address_mapping : transform_fn :=
  fun value config data ctx =>
    match value with
    | VDict d =>
        let field_map := Py.get_or config "field_map" default_address_field_map in
        do fields <- items field_map ;;
        do r <- copy_mapped_fields fields d [] ;;
        Ok (VDict r)
    | _ => Ok value
    end.

Definition opt_val (o : option pyval) : pyval :=
  match o with Some v => v | None => VNone end.

Fixpoint lookup_rows (rows : list pyval) (key_field value_field value : pyval)
  : result pyval :=
  match rows with
  | [] => Ok VNone
  | record :: rest =>
      match record with
      | VDict r =>
          do k <- get_val r key_field ;;
          if Py.eqb (opt_val k) value then
            if Py.truthy value_field then
              do v <- get_val r value_field ;; Ok (opt_val v)
            else Ok record
          else lookup_rows rest key_field value_field value
      | _ => Raise AttributeError
      end
  end.

Definition _transform_lookup : transform_fn :=
  fun value config data ctx =>
    if Py.is_none value then Ok VNone
    else
      match Py.get_or ctx "lookup_tables" (VDict []) with
      | VDict tables =>
          do t <- get_val tables (Py.get config "table") ;;
          let lookup_table := opt_val t in
          if Py.truthy lookup_table then
            let key_field := Py.get_or config "key_field" (VStr "id") in
            let value_field := Py.get config "value_field" in
            do rows <- iterate lookup_table ;;
            lookup_rows rows key_field value_field value
          else Ok VNone
      | _ => Raise AttributeError
      end.

Definition _transform_compile_metadata : transform_fn :=
  fun value config data ctx =>
    let source_fields := Py.get_or config "source_fields" (VDict []) in
    do fields <- items source_fields ;;
    do r <- gather fields data [] ;;
    Ok (match r with [] => VNone | _ => VDict r end).

(** [_register_builtin_transforms] *)
Definition _builtin_transforms : dict transform_fn :=
  [ ("direct", _transform_direct);
    ("prefix_add", _transform_prefix_add);
    ("prefix_strip", _transform_prefix_strip);
    ("prefix_strip_and_add", _transform_prefix_strip_and_add);
    ("split_name", _transform_split_name);
    ("truncate", _transform_truncate);
    ("uppercase", _transform_uppercase);
    ("lowercase", _transform_lowercase);
    ("enum_map", _transform_enum_map);
    ("boolean_to_enum", _transform_boolean_to_enum);
    ("to_metadata", _transform_to_metadata);
    ("merge", _transform_merge);
    ("array_map", _transform_array_map);
    ("default", _transform_default);
    ("coalesce", _transform_coalesce);
    ("coalesce_fields", _transform_coalesce_fields);
    ("conditional", _transform_conditional);
    ("tier_mapping", _transform_tier_mapping);
    ("negate_if_positive", _transform_negate_if_positive);
    ("negate_if_negative", _transform_negate_if_negative);
    ("iso_to_unix", _transform_iso_to_unix);
    ("unix_to_iso", _transform_unix_to_iso);
    ("multiply", _transform_multiply);
    ("divide", _transform_divide);
    ("country_code", _transform_country_code);
    ("clean_phone", _transform_clean_phone);
    ("address_mapping", _transform_address_mapping);
    ("lookup", _transform_lookup);
    ("compile_metadata", _transform_compile_metadata) ].

(** *** [_get_source_value] *)

(** [for record in source_records: value = ...; if value is not None: return value] *)
Fixpoint probe_records (source_records : list SourceRecord) (field_path : string) : pyval :=
  match source_records with
  | [] => VNone
  | record :: rest =>
      let value := _get_nested_value (VDict (sr_data record)) field_path in
      if negb (Py.is_none value) then value else probe_records rest field_path
  end.

Definition _get_source_value (field_path : option string)
  (source_records : list SourceRecord) (combined_data : dict pydict) : pyval :=
  match field_path with
  | None => VNone
  | Some field_path =>
      if Str.is_empty field_path then VNone
      else
        let parts := Str.split "." field_path in
        if (1 <? List.length parts)%nat
           && existsb (String.eqb (Str.lower (hd "" parts)))
                      (map (fun r => Str.lower (sr_source_service r)) source_records)
        then
          let service := Str.lower (hd "" parts) in
          let remaining_path := Str.join "." (tl parts) in
          let data :=
            match Dict.get combined_data service with
            | Some d => d
            | None => []
            end in
          _get_nested_value (VDict data) remaining_path
        else probe_records source_records field_path
  end.

(** *** [_generate_target_id] *)

(** The loop over the field mappings: [None] when it ends without
    returning. *)
Fixpoint id_from_mappings (field_mappings : list FieldMapping)
  (source_records : list SourceRecord) : option (result pyval) :=
  match field_mappings with
  | [] => None
  | fm :: rest =>
      if String.eqb (fm_target_field fm) "id" then
        let source_value := _get_source_value (fm_source_field fm) source_records [] in
        if Py.truthy source_value then
          match Dict.get _builtin_transforms (fm_transform fm) with
          | Some transform_func =>
              Some (transform_func source_value (fm_transform_config fm) [] [])
          | None => Some (Ok (VStr (Py.str source_value)))
          end
        else id_from_mappings rest source_records
      else id_from_mappings rest source_records
  end.

Definition default_target_id (source_records : list SourceRecord) : pyval :=
  match source_records with
  | first :: _ => VStr (sr_source_service first ++ "_" ++ Py.str (sr_id first))
  | [] => VStr ""
  end.

Definition _generate_target_id (source_records : list SourceRecord)
  (mapping : EntityMapping) : result pyval :=
  match id_from_mappings (em_field_mappings mapping) source_records with
  | Some r => r
  | None => Ok (default_target_id source_records)
  end.

(** *** [transform_record] *)

(** The engine: its registered custom transforms. *)
Record TransformEngine : Type := mk_TransformEngine {
  _custom_transforms : dict transform_fn
}.

(** [register_transform] *)
Definition register_transform (self : TransformEngine) (name : string) (func : transform_fn)
  : TransformEngine :=
  mk_TransformEngine (Dict.set (_custom_transforms self) name func).

(** What the loop over the field mappings carries. *)
Record progress : Type := mk_progress {
  target_data : pydict;
  errors : list ValidationError;
  warnings : list string
}.

Definition combine_sources (source_records : list SourceRecord) : dict pydict :=
  fold_left (fun combined_data record =>
               Dict.set combined_data (sr_source_service record) (sr_data record))
            source_records [].

Definition transform_error (fm : FieldMapping) (e : exn) : ValidationError :=
  mk_ValidationError (fm_target_field fm) (TransformErrorMsg e) "transform" "error"
    (match fm_source_field fm with Some s => VStr s | None => VNone end) None.

Definition record_error (p : progress) (fm : FieldMapping) (e : exn) : progress :=
  mk_progress (target_data p) (errors p ++ [transform_error fm e])%list (warnings p).

Definition unknown_transform_warning (transform_name : string) : string :=
  "Unknown transform: " ++ transform_name ++ ", using direct copy".

(** The function a transform name resolves to, if any. *)
Definition resolve_transform (self : TransformEngine) (fm : FieldMapping)
  : result (option transform_fn) :=
  let transform_name := fm_transform fm in
  match Dict.get (_custom_transforms self) transform_name with
  | Some f => Ok (Some f)
  | None =>
      match Dict.get _builtin_transforms transform_name with
      | Some f => Ok (Some f)
      | None =>
          if String.eqb transform_name CUSTOM then
            get_val (_custom_transforms self) (Py.get (fm_transform_config fm) "function")
          else Ok None
      end
  end.

(** Default value, then the write into the target payload. *)
Definition store (p : progress) (fm : FieldMapping) (transformed_value : pyval) : progress :=
  let transformed_value :=
    if Py.is_none transformed_value && negb (Py.is_none (fm_default_value fm))
    then fm_default_value fm else transformed_value in
  if negb (Py.is_none transformed_value) then
    match _set_nested_value (target_data p) (fm_target_field fm) transformed_value with
    | Ok d => mk_progress d (errors p) (warnings p)
    | Raise e => record_error p fm e
    end
  else p.

Definition condition_holds (fm : FieldMapping) (combined_data : dict pydict) : bool :=
  match fm_condition fm with
  | None => true
  | Some c => if Str.is_empty c then true else _evaluate_condition c combined_data
  end.

(** The body of the loop, for one field mapping. *)
Definition apply_field_mapping (self : TransformEngine)
  (source_records : list SourceRecord) (combined_data : dict pydict) (context : pydict)
  (p : progress) (fm : FieldMapping) : progress :=
  if negb (condition_holds fm combined_data) then p
  else
    let source_value :=
      _get_source_value (fm_source_field fm) source_records combined_data in
    match resolve_transform self fm with
    | Raise e => record_error p fm e
    | Ok (Some transform_func) =>
        match transform_func source_value (fm_transform_config fm) combined_data context with
        | Ok transformed_value => store p fm transformed_value
        | Raise e => record_error p fm e
        end
    | Ok None =>
        store (mk_progress (target_data p) (errors p)
                 (warnings p ++ [unknown_transform_warning (fm_transform fm)])%list)
              fm source_value
    end.

Definition transform_record (self : TransformEngine)
  (source_records : list SourceRecord) (mapping : EntityMapping)
  (target_service target_entity : string) (context : pydict)
  : result TransformedRecord :=
  let combined_data := combine_sources source_records in
  do target_id <- _generate_target_id source_records mapping ;;
  let p := fold_left (apply_field_mapping self source_records combined_data context)
                     (em_field_mappings mapping) (mk_progress [] [] []) in
  Ok (mk_TransformedRecord target_id target_service target_entity (target_data p)
        source_records (errors p) (warnings p)).

End WithRuntime.

End Transformer.

(* ===================================================================== *)
(** ** The validator (src/app/services/validator.py) *)
(* ===================================================================== *)

Module Validator.

Definition isinstance_bool (v : pyval) : bool :=
  match v with VBool _ => true | _ => false end.
(** [bool] is a subclass of [int] *)
Definition isinstance_int (v : pyval) : bool :=
  match v with VInt _ | VBool _ => true | _ => false end.
Definition isinstance_float (v : pyval) : bool :=
  match v with VFloat _ => true | _ => false end.
Definition isinstance_str (v : pyval) : bool :=
  match v with VStr _ => true | _ => false end.
Definition isinstance_dict (v : pyval) : bool :=
  match v with VDict _ => true | _ => false end.
Definition isinstance_list (v : pyval) : bool :=
  match v with VList _ => true | _ => false end.

(** [_get_nested_value] of the validator: dictionaries only *)
Definition _get_nested_value (data : pydict) (path : string) : pyval :=
  fold_left (fun value part =>
               match value with
               | VDict d => Py.get d part
               | _ => VNone
               end)
            (Str.split "." path) (VDict data).

(** [_get_all_field_paths] *)
Fixpoint all_field_paths (data : pyval) (prefix : string) {struct data} : list string :=
  match data with
  | VDict d =>
      (fix items (d : list (string * pyval)) : list string :=
         match d with
         | [] => []
         | (key, value) :: rest =>
             let path := if Str.is_empty prefix then key else prefix ++ "." ++ key in
             ((path :: all_field_paths value path) ++ items rest)%list
         end) d
  | _ => []
  end.

Definition _get_all_field_paths (data : pydict) (prefix : string) : list string :=
  all_field_paths (VDict data) prefix.

Section WithRuntime.
Context {rt : PyRuntime}.

Definition _is_valid_date (value : string) : bool :=
  strptime_ok value "%Y-%m-%d".

Definition _is_valid_datetime (value : string) : bool :=
  fromisoformat_ok (Str.replace "Z" "+00:00" value)
  || strptime_ok value "%Y-%m-%dT%H:%M:%S".

(** The table [type_checks] *)
Definition type_checks (expected_type : FieldType) (v : pyval) : bool :=
  match expected_type with
  | STRING => isinstance_str v
  | INTEGER => isinstance_int v && negb (isinstance_bool v)
  | DECIMAL => (isinstance_int v || isinstance_float v) && negb (isinstance_bool v)
  | BOOLEAN => isinstance_bool v
  | TIMESTAMP => isinstance_int v || isinstance_float v
  | DATE => match v with VStr s => _is_valid_date s | _ => false end
  | DATETIME => match v with VStr s => _is_valid_datetime s | _ => false end
  | ENUM => isinstance_str v
  | OBJECT => isinstance_dict v
  | ARRAY => isinstance_list v
  | JSON => isinstance_dict v || isinstance_list v || isinstance_str v
  | CURRENCY => (isinstance_int v || isinstance_float v) && negb (isinstance_bool v)
  end.

Definition type_error (field_name : string) (value : pyval) (expected_type : FieldType)
  : ValidationError :=
  mk_ValidationError field_name
    (Msg ("Invalid type. Expected " ++ FieldType_value expected_type
          ++ ", got " ++ Py.type_name value))
    "type" "error" value None.

Definition _validate_type (field_name : string) (value : pyval) (expected_type : FieldType)
  : option ValidationError :=
  if negb (type_checks expected_type value)
  then Some (type_error field_name value expected_type)
  else None.

Definition required_error (field_name : string) : ValidationError :=
  mk_ValidationError field_name (Msg "Required field is missing")
    "required" "error" VNone None.

Definition max_length_errors (field_name : string) (value : pyval) (max_length : option Z)
  : list ValidationError :=
  match max_length, value with
  | Some n, VStr s =>
      if negb (n =? 0)%Z && (n <? Z.of_nat (String.length s))%Z then
        [mk_ValidationError field_name
           (Msg ("Value exceeds max length of " ++ Str.of_Z n))
           "max_length" "error" (VInt (Z.of_nat (String.length s)))
           (Some ("Truncate to " ++ Str.of_Z n ++ " characters"))]
      else []
  | _, _ => []
  end.

Definition enum_errors (field_name : string) (value : pyval) (enum_values : option (list string))
  : list ValidationError :=
  match enum_values with
  | Some (e :: es) =>
      let allowed := e :: es in
      if negb (Py.mem value (map VStr allowed)) then
        [mk_ValidationError field_name
           (Msg ("Invalid enum value. Must be one of: " ++ Py.repr (VList (map VStr allowed))))
           "enum" "error" value
           (Some ("Use one of: " ++ Str.join ", " allowed))]
      else []
  | _ => []
  end.

Fixpoint _validate_field (field_name : string) (value : pyval)
  (field_def : FieldDefinition) {struct field_def} : list ValidationError :=
  match field_def with
  | mk_FieldDefinition _ type required max_length enum_values properties items_ =>
      if required && Py.is_none value then [required_error field_name]
      else if Py.is_none value then []
      else
        ((match _validate_type field_name value type with
          | Some type_error => [type_error]
          | None => []
          end)
         ++ max_length_errors field_name value max_length
         ++ enum_errors field_name value enum_values
         ++ (match properties, value with
             | Some props, VDict d =>
                 if FieldType_eqb type OBJECT then
                   (fix each (ps : list (string * FieldDefinition)) : list ValidationError :=
                      match ps with
                      | [] => []
                      | (prop_name, prop_def) :: rest =>
                          (_validate_field (field_name ++ "." ++ prop_name)
                                           (Py.get d prop_name) prop_def
                           ++ each rest)%list
                      end) props
                 else []
             | _, _ => []
             end)
         ++ (match items_, value with
             | Some item_def, VList l =>
                 if FieldType_eqb type ARRAY then
                   (fix each (l : list pyval) (i : Z) : list ValidationError :=
                      match l with
                      | [] => []
                      | item :: rest =>
                          (_validate_field (field_name ++ "[" ++ Str.of_Z i ++ "]")
                                           item item_def
                           ++ each rest (i + 1)%Z)%list
                      end) l 0%Z
                 else []
             | _, _ => []
             end))%list
  end.

Definition unknown_field_error (field : string) (strict : bool) : ValidationError :=
  mk_ValidationError field (Msg ("Unknown field in target schema: " ++ field))
    "validation" (if negb strict then "warning" else "error") VNone None.

Definition validate_record (record : TransformedRecord) (schema : EntitySchema)
  (strict : bool) : list ValidationError :=
  let errors :=
    flat_map (fun kv =>
                let value := _get_nested_value (tr_data record) (fst kv) in
                _validate_field (fst kv) value (snd kv))
             (es_fields schema) in
  if strict then
    let record_fields := _get_all_field_paths (tr_data record) "" in
    (errors ++
     flat_map (fun field =>
                 let root_field := hd "" (Str.split "." field) in
                 if negb (Dict.contains (es_fields schema) root_field)
                    && negb (Str.startswith field "meta_data")
                 then [unknown_field_error field strict]
                 else [])
              record_fields)%list
  else errors.

(** The errors the fields of the schema give, in both modes. *)
Definition schema_field_errors (record : TransformedRecord) (schema : EntitySchema)
  : list ValidationError :=
  flat_map (fun kv =>
              _validate_field (fst kv) (_get_nested_value (tr_data record) (fst kv)) (snd kv))
           (es_fields schema).

(** [TransformedRecord.is_valid] and [RecordValidator.is_valid] *)
Definition has_error (errors : list ValidationError) : bool :=
  existsb (fun e => String.eqb (ve_severity e) "error") errors.

Definition is_valid (record : TransformedRecord) (schema : EntitySchema) : bool :=
  negb (has_error (validate_record record schema false)).

End WithRuntime.

End Validator.

(* ===================================================================== *)
(** ** The schema registry (src/app/services/schema_registry.py) *)
(* ===================================================================== *)

Module Registry.

Record SchemaRegistry : Type := mk_SchemaRegistry {
  schemas : dict ServiceSchema
}.

Definition register_schema (self : SchemaRegistry) (schema : ServiceSchema) : SchemaRegistry :=
  mk_SchemaRegistry (Dict.set (schemas self) (Str.lower (ss_name schema)) schema).

Definition get_schema (self : SchemaRegistry) (service_name : string) : option ServiceSchema :=
  Dict.get (schemas self) (Str.lower service_name).

Definition get_entity_schema (self : SchemaRegistry) (service_name entity_name : string)
  : option EntitySchema :=
  match get_schema self service_name with
  | Some schema => Dict.get (ss_entities schema) entity_name
  | None => None
  end.

Definition source_field_errors (source_schema : EntitySchema) (fm : FieldMapping)
  : list string :=
  match fm_source_field fm with
  | Some source_field =>
      if negb (Str.is_empty source_field)
         && negb (Dict.contains (es_fields source_schema) source_field)
      then
        let root_field := hd "" (Str.split "." source_field) in
        if negb (Dict.contains (es_fields source_schema) root_field)
        then ["Source field not found: " ++ source_field]
        else []
      else []
  | None => []
  end.

Definition target_field_errors (target_schema : EntitySchema) (fm : FieldMapping)
  : list string :=
  let target_field := fm_target_field fm in
  if negb (Str.is_empty target_field) then
    let root_field := hd "" (Str.split "." target_field) in
    if negb (Dict.contains (es_fields target_schema) root_field)
       && negb (Str.startswith target_field "meta_data")
    then ["Target field not found: " ++ target_field]
    else []
  else [].

Definition missing_mapping_error (field_name : string) : string :=
  "Required target field has no mapping: " ++ field_name.

(** [field_def.required and field_name not in mapped_targets] *)
Definition unmapped_required (mapping : EntityMapping) (kv : string * FieldDefinition) : bool :=
  fd_required (snd kv)
  && negb (existsb (String.eqb (fst kv)) (map fm_target_field (em_field_mappings mapping))).

Definition schema_not_found (side service entity : string) : string :=
  side ++ " schema not found: " ++ service ++ "." ++ entity.

Definition validate_mapping (self : SchemaRegistry) (mapping : EntityMapping) : list string :=
  let source_schema :=
    get_entity_schema self (em_source_service mapping) (em_source_entity mapping) in
  let target_schema :=
    get_entity_schema self (em_target_service mapping) (em_target_entity mapping) in
  ((match source_schema with
    | None => [schema_not_found "Source" (em_source_service mapping)
                                (em_source_entity mapping)]
    | Some _ => []
    end)
   ++ (match target_schema with
       | None => [schema_not_found "Target" (em_target_service mapping)
                                   (em_target_entity mapping)]
       | Some _ => []
       end)
   ++ (match source_schema, target_schema with
       | Some source_schema, Some target_schema =>
           flat_map (fun fm => source_field_errors source_schema fm
                               ++ target_field_errors target_schema fm)
                    (em_field_mappings mapping)
           ++ map (fun kv => missing_mapping_error (fst kv))
                  (filter (unmapped_required mapping) (es_fields target_schema))
       | _, _ => []
       end))%list.

(** The required target fields that no field mapping targets, and what
    it means for the fields a mapping declares to exist in the schemas. *)
Definition unmapped_required_fields (mapping : EntityMapping) (target_schema : EntitySchema)
  : list string :=
  map fst (filter (unmapped_required mapping) (es_fields target_schema)).

Definition mapped (mapping : EntityMapping) (field_name : string) : Prop :=
  In field_name (map fm_target_field (em_field_mappings mapping)).

Definition source_declared (source_schema : EntitySchema) (fm : FieldMapping) : Prop :=
  match fm_source_field fm with
  | None => True
  | Some s =>
      s = ""
      \/ Dict.contains (es_fields source_schema) s = true
      \/ Dict.contains (es_fields source_schema) (hd "" (Str.split "." s)) = true
  end.

Definition target_declared (target_schema : EntitySchema) (fm : FieldMapping) : Prop :=
  fm_target_field fm = ""
  \/ Dict.contains (es_fields target_schema) (hd "" (Str.split "." (fm_target_field fm))) = true
  \/ Str.startswith (fm_target_field fm) "meta_data" = true.

End Registry.

(* ===================================================================== *)
(** ** The orchestrator: deduplication (src/app/orchestrator.py) *)
(* ===================================================================== *)

(** Records are values here: the payload of a record is taken not to be
    shared with another record's. *)
Module Orchestrator.

(** The part of [MigrationConfig] deduplication reads. *)
Record MigrationConfig : Type := mk_MigrationConfig {
  deduplication : dict string;
  dedup_preferred_source : string
}.

(** The dictionary [seen]: keys are lower-cased key values (strings) and
    record ids, in insertion order. *)
Definition seen_map : Type := list (pyval * TransformedRecord).

Definition hashable (k : pyval) : bool :=
  match k with VList _ | VDict _ => false | _ => true end.

Fixpoint seen_get (seen : seen_map) (k : pyval) : option TransformedRecord :=
  match seen with
  | [] => None
  | (k', r) :: rest => if Py.eqb k k' then Some r else seen_get rest k
  end.

Fixpoint seen_set (seen : seen_map) (k : pyval) (r : TransformedRecord) : seen_map :=
  match seen with
  | [] => [(k, r)]
  | (k', r') :: rest =>
      if Py.eqb k k' then (k', r) :: rest else (k', r') :: seen_set rest k r
  end.

Definition seen_values (seen : seen_map) : list TransformedRecord := map snd seen.

(** [record.source_records[0].source_service if record.source_records else ""] *)
Definition first_source (record : TransformedRecord) : string :=
  match tr_source_records record with
  | r :: _ => sr_source_service r
  | [] => ""
  end.

(** One element of the argument of [dict.update] as a key and a value. *)
Definition as_pair (x : pyval) : result (pyval * pyval) :=
  match x with
  | VList [k; v] => Ok (k, v)
  | VList _ => Raise ValueError
  | VStr (String a (String b EmptyString)) =>
      Ok (VStr (String a EmptyString), VStr (String b EmptyString))
  | VStr _ => Raise ValueError
  | VDict [(k1, _); (k2, _)] => Ok (VStr k1, VStr k2)
  | VDict _ => Raise ValueError
  | _ => Raise TypeError
  end.

Fixpoint update_pairs (d : pydict) (l : list pyval) : result pydict :=
  match l with
  | [] => Ok d
  | x :: rest =>
      do kv <- as_pair x ;;
      do d' <- Transformer.set_val d (fst kv) (snd kv) ;;
      update_pairs d' rest
  end.

(** [target.update(other)] on values *)
Definition py_update (target other : pyval) : result pyval :=
  match target with
  | VDict d =>
      match other with
      | VDict o => Ok (VDict (Dict.update d o))
      | VList _ | VStr _ =>
          do l <- Transformer.iterate other ;;
          do d' <- update_pairs d l ;;
          Ok (VDict d')
      | _ => Raise TypeError
      end
  | _ => Raise AttributeError
  end.

(** [record.data["meta_data"] = new_meta], as a value.  In the code
    [new_meta] is the object the record held, updated in place: what
    else holds that object changes with it. *)
Definition with_meta_data (record : TransformedRecord) (meta : pyval) : TransformedRecord :=
  mk_TransformedRecord (tr_id record) (tr_target_service record) (tr_target_entity record)
    (Dict.set (tr_data record) "meta_data" meta)
    (tr_source_records record) (tr_validation_errors record) (tr_warnings record).

Section WithRuntime.
Context {rt : PyRuntime}.

(** The body of the loop over the records of one entity. *)
Definition dedup_step (key_field preferred_source : string)
  (seen : seen_map) (record : TransformedRecord) : result seen_map :=
  let key_value := Py.get (tr_data record) key_field in
  if negb (Py.truthy key_value) then
    if hashable (tr_id record) then
      Ok (match seen_get seen (tr_id record) with
          | None => seen_set seen (tr_id record) record
          | Some _ => seen
          end)
    else Raise TypeError
  else
    let key_value := VStr (Str.lower (Py.str key_value)) in
    match seen_get seen key_value with
    | None => Ok (seen_set seen key_value record)
    | Some existing =>
        let new_source := first_source record in
        let existing_source := first_source existing in
        if String.eqb new_source preferred_source
           && negb (String.eqb existing_source preferred_source)
        then
          let existing_meta := Py.get_or (tr_data existing) "meta_data" (VDict []) in
          let new_meta := Py.get_or (tr_data record) "meta_data" (VDict []) in
          do new_meta <- py_update new_meta existing_meta ;;
          Ok (seen_set seen key_value (with_meta_data record new_meta))
        else Ok seen
    end.

Fixpoint dedup_loop (key_field preferred_source : string)
  (records : list TransformedRecord) (seen : seen_map) : result seen_map :=
  match records with
  | [] => Ok seen
  | record :: rest =>
      do seen' <- dedup_step key_field preferred_source seen record ;;
      dedup_loop key_field preferred_source rest seen'
  end.

(** The records kept for one entity. *)
Definition dedup_entity (config : MigrationConfig) (entity : string)
  (records : list TransformedRecord) : result (list TransformedRecord) :=
  let key_field :=
    match Dict.get (deduplication config) entity with
    | Some f => f
    | None => "email"
    end in
  do seen <- dedup_loop key_field (dedup_preferred_source config) records [] ;;
  Ok (seen_values seen).

Fixpoint dedup_entities (config : MigrationConfig)
  (records_by_entity : dict (list TransformedRecord))
  (result_ : dict (list TransformedRecord))
  : result (dict (list TransformedRecord)) :=
  match records_by_entity with
  | [] => Ok result_
  | (entity, records) :: rest =>
      do kept <- dedup_entity config entity records ;;
      dedup_entities config rest (Dict.set result_ entity kept)
  end.

Definition _deduplicate_records (config : MigrationConfig)
  (records_by_entity : dict (list TransformedRecord))
  : result (dict (list TransformedRecord)) :=
  dedup_entities config records_by_entity [].

End WithRuntime.

End Orchestrator.

(* ===================================================================== *)
(** ** A runtime for closed examples *)
(* ===================================================================== *)

(** Local time is UTC.  The examples below never reach the other
    fields, which answer that the library call fails. *)
Definition reference_runtime : PyRuntime := {|
  float_repr := fun _ => "nan";
  float_of_string := fun _ => None;
  dateutil_timestamp := fun _ => None;
  strptime_ok := fun _ _ => false;
  fromisoformat_ok := fun _ => false;
  utc_offset := 0%Z
|}.

(** The same with local time one hour east of UTC. *)
Definition runtime_east : PyRuntime := {|
  float_repr := fun _ => "nan";
  float_of_string := fun _ => None;
  dateutil_timestamp := fun _ => None;
  strptime_ok := fun _ _ => false;
  fromisoformat_ok := fun _ => false;
  utc_offset := 3600%Z
|}.

(* ===================================================================== *)
(** ** Concrete inputs *)
(* ===================================================================== *)

Module Examples.

(** A target schema that requires [email], and a record that also
    carries a field the schema does not know. *)
Definition email_field : FieldDefinition :=
  mk_FieldDefinition "email" STRING true None None None None.

Definition customer_schema : EntitySchema :=
  mk_EntitySchema "customer" [("email", email_field)] "id".

Definition record_with_extra : TransformedRecord :=
  mk_TransformedRecord (VStr "c1") "chargebee" "customer"
    [("email", VStr "jane@x.com"); ("nickname", VStr "JJ")] [] [] [].

(** Two registered schemas and a mapping that leaves the required
    target field [first_name] without a field mapping. *)
Definition plain (name : string) (required : bool) : FieldDefinition :=
  mk_FieldDefinition name STRING required None None None None.

Definition stripe_schema : ServiceSchema :=
  mk_ServiceSchema "Stripe"
    [("customer", mk_EntitySchema "customer"
                    [("name", plain "name" false); ("email", plain "email" true)] "id")].

Definition chargebee_schema : ServiceSchema :=
  mk_ServiceSchema "Chargebee"
    [("customer", mk_EntitySchema "customer"
                    [("first_name", plain "first_name" true);
                     ("email", plain "email" true);
                     ("phone", plain "phone" false)] "id")].

Definition registry : Registry.SchemaRegistry :=
  Registry.register_schema
    (Registry.register_schema (Registry.mk_SchemaRegistry []) stripe_schema)
    chargebee_schema.

Definition direct (source target : string) : FieldMapping :=
  mk_FieldMapping (Some source) target "direct" [] false VNone None.

Definition email_only_mapping : EntityMapping :=
  mk_EntityMapping "customers" "customer" "customer" "stripe" "chargebee"
    [direct "email" "email"].

(** Two customers with the same e-mail address up to case, the first
    from Salesforce, the second from Stripe, the preferred source. *)
Definition source_of (service id : string) : SourceRecord :=
  mk_SourceRecord (VStr id) service "customer" [].

Definition salesforce_customer : TransformedRecord :=
  mk_TransformedRecord (VStr "sf_1") "chargebee" "customers"
    [("email", VStr "Jane@X.com");
     ("meta_data", VDict [("tier", VStr "gold"); ("region", VStr "emea")])]
    [source_of "salesforce" "sf_1"] [] [].

Definition stripe_customer : TransformedRecord :=
  mk_TransformedRecord (VStr "cus_1") "chargebee" "customers"
    [("email", VStr "jane@x.com");
     ("meta_data", VDict [("tier", VStr "silver"); ("plan", VStr "pro")])]
    [source_of "stripe" "cus_1"] [] [].

Definition dedup_config : Orchestrator.MigrationConfig :=
  Orchestrator.mk_MigrationConfig [("customers", "email")] "stripe".

(** Source records of two services.  The Salesforce payload has a key
    named like the other service. *)
Definition stripe_empty : SourceRecord :=
  mk_SourceRecord (VStr "cus_1") "stripe" "customer" [].

Definition salesforce_account : SourceRecord :=
  mk_SourceRecord (VStr "001") "salesforce" "account"
    [("stripe", VInt 7); ("email", VStr "jane@x.com")].

Definition stripe_with_email : SourceRecord :=
  mk_SourceRecord (VStr "cus_1") "stripe" "customer" [("email", VStr "jane@stripe.com")].

(** The same record extracted under a capitalised service name. *)
Definition capitalised_stripe : SourceRecord :=
  mk_SourceRecord (VStr "cus_1") "Stripe" "customer" [("email", VStr "jane@stripe.com")].

(** Stripe-shaped tiers: the last one is open-ended, with [up_to] null. *)
Definition stripe_tiers : pyval :=
  VList [VDict [("up_to", VInt 10); ("unit_amount", VInt 100)];
         VDict [("up_to", VNone); ("unit_amount", VInt 50)]].

(** The same tiers with the key [up_to] left out of the last one. *)
Definition tiers_without_key : pyval :=
  VList [VDict [("up_to", VInt 10); ("unit_amount", VInt 100)];
         VDict [("unit_amount", VInt 50)]].

(** A Stripe customer, a mapping whose [id] comes from the customer's
    [id] with a prefix, and a mapping whose [id] has a default for a
    source field the customer lacks. *)
Definition stripe_jane : SourceRecord :=
  mk_SourceRecord (VStr "cus_1") "stripe" "customer"
    [("id", VStr "cus_1"); ("name", VStr "Jane Doe"); ("email", VStr "jane@x.com")].

Definition prefixed_id : FieldMapping :=
  mk_FieldMapping (Some "id") "id" "prefix_add" [("prefix", VStr "cb_")] false VNone None.

Definition defaulted_id : FieldMapping :=
  mk_FieldMapping (Some "legacy_id") "id" "default" [("value", VStr "fallback-id")]
    false VNone None.

Definition mapping_of (field_mappings : list FieldMapping) : EntityMapping :=
  mk_EntityMapping "customers" "customer" "customer" "stripe" "chargebee" field_mappings.



Definition unknown_under_string : FieldMapping :=
  mk_FieldMapping (Some "name") "contact.name" "frobnicate" [] false VNone None.

Definition engine : Transformer.TransformEngine := Transformer.mk_TransformEngine [].

End Examples.

(* ===================================================================== *)
(** ** Statements about merged metadata *)
(* ===================================================================== *)

(** [merged] is the union of two dictionaries in which the keys of
    [first] take precedence over those of [second]. *)
Definition union_preferring (first second merged : pydict) : Prop :=
  forall key,
    Dict.get merged key
    = match Dict.get first key with
      | Some v => Some v
      | None => Dict.get second key
      end.


(* ===================================================================== *)
(** ** Statements about source resolution *)
(* ===================================================================== *)

(** The payload [transform_record] holds for a service: that of the last
    source record carrying exactly that service name. *)
Fixpoint payload_of (service : string) (source_records : list SourceRecord)
  : option pydict :=
  match source_records with
  | [] => None
  | record :: rest =>
      match payload_of service rest with
      | Some payload => Some payload
      | None =>
          if String.eqb service (sr_source_service record)
          then Some (sr_data record) else None
      end
  end.

(** [value] is what the first record with a non-absent value at [path]
    has there, in the order supplied; absent if no record has one. *)
Definition first_non_absent (source_records : list SourceRecord) (path : string)
  (value : pyval) : Prop :=
  (exists pre record post,
      source_records = (pre ++ record :: post)%list
      /\ (forall r, In r pre ->
                    Transformer._get_nested_value (VDict (sr_data r)) path = VNone)
      /\ Transformer._get_nested_value (VDict (sr_data record)) path = value
      /\ value <> VNone)
  \/ (value = VNone
      /\ forall r, In r source_records ->
                   Transformer._get_nested_value (VDict (sr_data r)) path = VNone).


(* ===================================================================== *)
(** ** Statements about pricing bands *)
(* ===================================================================== *)

(** Bands that start at [start] and follow one another: each band but
    the last ends one unit before the next one starts. *)
Fixpoint contiguous_from (start : Z) (bands : list pyval) : Prop :=
  match bands with
  | [] => True
  | band :: rest =>
      exists b,
        band = VDict b
        /\ Py.get b "starting_unit" = VInt start
        /\ (rest = []
            \/ exists ending,
                 Py.get b "ending_unit" = VInt ending
                 /\ contiguous_from (ending + 1) rest)
  end.

(** A tier with an integer [up_to]. *)
Definition closed_tier (tier : pyval) : Prop :=
  exists t up_to, tier = VDict t /\ Dict.get t "up_to" = Some (VInt up_to).

(** A tier without the key [up_to]. *)
Definition open_tier (tier : pyval) : Prop :=
  exists t, tier = VDict t /\ Dict.get t "up_to" = None.


(* ===================================================================== *)
(** ** Statements about the target id *)
(* ===================================================================== *)

(** A field mapping that yields the target id: it targets [id] and its
    source value, resolved without the per-service payload table, is
    true as a condition. *)
Definition id_candidate (source_records : list SourceRecord) (fm : FieldMapping) : bool :=
  String.eqb (fm_target_field fm) "id"
  && Py.truthy (Transformer._get_source_value (fm_source_field fm) source_records []).

(** A source path with a service prefix: it has several segments, and
    the first names, up to the case of letters, the service of one of
    the source records. *)
Definition service_prefixed (source_records : list SourceRecord) (path : option string)
  : bool :=
  match path with
  | None => false
  | Some path =>
      let parts := Str.split "." path in
      (1 <? List.length parts)%nat
      && existsb (String.eqb (Str.lower (hd "" parts)))
                 (map (fun r => Str.lower (sr_source_service r)) source_records)
  end.


(* ===================================================================== *)
(** ** Statements about plain inputs *)
(* ===================================================================== *)

(** A plain source record: plain id and payload, service name in ASCII. *)
Definition plain_source (record : SourceRecord) : bool :=
  Py.plain (sr_id record) && Str.is_ascii (sr_source_service record)
  && Py.plain (VDict (sr_data record)).

(** A plain field mapping: source path and condition are plain paths,
    the target path is in ASCII, the configuration and the default are
    plain. *)
Definition plain_mapping (fm : FieldMapping) : bool :=
  match fm_source_field fm with Some path => Transformer.plain_path path | None => true end
  && Str.is_ascii (fm_target_field fm)
  && Transformer.plain_config (fm_transform_config fm)
  && Py.plain (fm_default_value fm)
  && match fm_condition fm with Some c => Transformer.plain_path c | None => true end.



(* ===================================================================== *)
(** ** Statements about operator configurations *)
(* ===================================================================== *)

Definition is_str (v : pyval) : Prop := exists s, v = VStr s.
Definition is_dict (v : pyval) : Prop := exists d, v = VDict d.

(** The configurations the four operators that read paths or rules
    from their configuration are written for: plain, with
    [fallback_field] a string (or nothing true as a condition),
    [fallback_fields] a list of strings, [conditions] a list of
    objects, [source_fields] an object whose values are strings. *)
Definition config_well_formed (config : pydict) : Prop :=
  Transformer.plain_config config = true
  /\ (Py.truthy (Py.get config "fallback_field") = true ->
      is_str (Py.get config "fallback_field"))
  /\ (forall v, Dict.get config "fallback_fields" = Some v ->
                exists l, v = VList l /\ Forall is_str l)
  /\ (forall v, Dict.get config "conditions" = Some v ->
                exists l, v = VList l /\ Forall is_dict l)
  /\ (forall v, Dict.get config "source_fields" = Some v ->
                exists d, v = VDict d /\ Forall (fun kv => is_str (snd kv)) d
                          /\ NoDup (Dict.keys d)).

(** The payloads are plain. *)
Definition plain_payloads (data : dict pydict) : Prop :=
  Forall (fun payload => Py.plain (VDict payload) = true) (Dict.values data).

(** [found] is the first of [candidates] that is not null; null if
    there is none. *)
Definition first_non_null (candidates : list pyval) (found : pyval) : Prop :=
  (exists pre post,
      candidates = (pre ++ found :: post)%list
      /\ Forall (eq VNone) pre /\ found <> VNone)
  \/ (found = VNone /\ Forall (eq VNone) candidates).

(** What the payloads hold at [path], in the order of the payloads. *)
Definition lookups (data : dict pydict) (path : string) : list pyval :=
  map (fun payload => Transformer._get_nested_value (VDict payload) path)
      (Dict.values data).

Section ConditionalRules.
Context {rt : PyRuntime}.

(** What a rule of [conditional] answers to an absent input: its
    [result] when its [value] prints as the absent input does; else its [then]
    when it has a condition [if] that holds; else its [default];
    nothing when it has none of these, and the next rule is asked. *)
Definition rule_answer (rule : pydict) (data : dict pydict) : option pyval :=
  if Dict.contains rule "value" && String.eqb (Py.str VNone) (Py.str (Py.get rule "value"))
  then Some (Py.get rule "result")
  else if Dict.contains rule "if"
          && Transformer._evaluate_condition_val (Py.get rule "if") data
  then Some (Py.get rule "then")
  else if Dict.contains rule "default" then Some (Py.get rule "default")
  else None.

(** [answer] is what the first rule that answers says; null if none
    does. *)
Definition first_answer (rules : list pydict) (data : dict pydict) (answer : pyval) : Prop :=
  (exists pre rule post,
      rules = (pre ++ rule :: post)%list
      /\ Forall (fun r => rule_answer r data = None) pre
      /\ rule_answer rule data = Some answer)
  \/ (answer = VNone /\ Forall (fun r => rule_answer r data = None) rules).

End ConditionalRules.

(** The operators documented to give an absent result on an absent
    input. *)
Definition preserves_absent (name : string) : bool :=
  existsb (String.eqb name)
    [ "direct"; "prefix_add"; "prefix_strip"; "prefix_strip_and_add"; "split_name";
      "truncate"; "uppercase"; "lowercase"; "to_metadata"; "merge"; "array_map";
      "tier_mapping"; "negate_if_positive"; "negate_if_negative"; "iso_to_unix";
      "unix_to_iso"; "multiply"; "divide"; "country_code"; "clean_phone";
      "address_mapping"; "lookup" ].


(* ===================================================================== *)
(** ** Statements about the calendar *)
(* ===================================================================== *)

(** [month_day] gives a month and a day of that month, and the days
    before them add up to the day of the year. *)
Definition month_day_check (leap : bool) (n : Z) : bool :=
  let '(m, d) := Datetime.month_day leap n in
  ((1 <=? m) && (m <=? 12) && (1 <=? d) && (d <=? Datetime.days_in_month_of leap m)
   && (Datetime.days_before_month_of leap m + d =? n + 1))%Z.


(* ===================================================================== *)
(** ** Records: validity (src/app/models/record.py) *)
(* ===================================================================== *)

Module Records.

(** [TransformedRecord.is_valid]: no error of severity ["error"] among
    the errors the record carries. *)
Definition is_valid (record : TransformedRecord) : bool :=
  negb (existsb (fun e => String.eqb (ve_severity e) "error")
                (tr_validation_errors record)).

(** [record.validation_errors.extend(errors)] *)
Definition extend_errors (record : TransformedRecord) (errors : list ValidationError)
  : TransformedRecord :=
  mk_TransformedRecord (tr_id record) (tr_target_service record) (tr_target_entity record)
    (tr_data record) (tr_source_records record)
    (tr_validation_errors record ++ errors)%list (tr_warnings record).

End Records.

(* ===================================================================== *)
(** ** The validator on a batch (src/app/services/validator.py) *)
(* ===================================================================== *)

Module BatchValidator.

(** A dictionary keyed by record ids, in insertion order. *)
Definition by_id (V : Type) : Type := list (pyval * V).

(** [d[k] = v] for a hashable [k]: an existing key keeps its position. *)
Fixpoint id_set {V} (d : by_id V) (k : pyval) (v : V) : by_id V :=
  match d with
  | [] => [(k, v)]
  | (k', v') :: rest =>
      if Py.eqb k k' then (k', v) :: rest else (k', v') :: id_set rest k v
  end.

Section WithRuntime.
Context {rt : PyRuntime}.

(** The loop of [validate_batch], from the dictionary built so far. *)
Fixpoint validate_batch_from (records : list TransformedRecord) (schema : EntitySchema)
  (stop_on_first_error : bool) (all_errors : by_id (list ValidationError))
  : result (by_id (list ValidationError)) :=
  match records with
  | [] => Ok all_errors
  | record :: rest =>
      match Validator.validate_record record schema false with
      | [] => validate_batch_from rest schema stop_on_first_error all_errors
      | errors =>
          if Orchestrator.hashable (tr_id record) then
            let all_errors := id_set all_errors (tr_id record) errors in
            if stop_on_first_error then Ok all_errors
            else validate_batch_from rest schema stop_on_first_error all_errors
          else Raise TypeError
      end
  end.

Definition validate_batch (records : list TransformedRecord) (schema : EntitySchema)
  (stop_on_first_error : bool) : result (by_id (list ValidationError)) :=
  validate_batch_from records schema stop_on_first_error [].

End WithRuntime.

End BatchValidator.

(* ===================================================================== *)
(** ** The registry: inference and matching by name
       (src/app/services/schema_registry.py) *)
(* ===================================================================== *)

Module SchemaInference.

(** [_get_python_type] *)
Definition _get_python_type (value : pyval) : string :=
  match value with
  | VBool _ => "boolean"
  | VInt _ => "integer"
  | VFloat _ => "decimal"
  | VStr _ => "string"
  | VList _ => "array"
  | VDict _ => "object"
  | VNone => "string"
  end.

(** A set of type names is a list read up to order and repetition. *)
Definition set_mem (x : string) (types : list string) : bool :=
  existsb (String.eqb x) types.

(** [types == {...}] *)
Definition set_eq (types literal : list string) : bool :=
  forallb (fun x => set_mem x literal) types
  && forallb (fun x => set_mem x types) literal.

(** [types.add(value_type)] *)
Definition set_add (types : list string) (x : string) : list string :=
  if set_mem x types then types else (types ++ [x])%list.

(** [_determine_field_type] *)
Definition _determine_field_type (types : list string) : FieldType :=
  match types with
  | [] => STRING
  | _ =>
      if set_mem "object" types then OBJECT
      else if set_mem "array" types then ARRAY
      else if set_eq types ["integer"] then INTEGER
      else if set_eq types ["decimal"] || set_eq types ["integer"; "decimal"]
           then DECIMAL
      else if set_eq types ["boolean"] then BOOLEAN
      else STRING
  end.

(** What [infer_schema_from_data] collects while it reads the samples:
    per field path, the set of type names seen, the first value seen,
    and whether the field is still taken to be required. *)
Record analysis : Type := mk_analysis {
  field_types : dict (list string);
  field_examples : pydict;
  field_required : dict bool
}.

(** The body of the loop of [_analyze_record] for one key, before it
    recurses into the value. *)
Definition observe (path : string) (value : pyval) (a : analysis) : analysis :=
  let a :=
    if negb (Dict.contains (field_types a) path)
    then mk_analysis (Dict.set (field_types a) path []) (field_examples a)
                     (Dict.set (field_required a) path true)
    else a in
  if Py.is_none value then
    mk_analysis (field_types a) (field_examples a) (Dict.set (field_required a) path false)
  else
    let types :=
      match Dict.get (field_types a) path with
      | Some types => types
      | None => []
      end in
    mk_analysis
      (Dict.set (field_types a) path (set_add types (_get_python_type value)))
      (if negb (Dict.contains (field_examples a) path)
       then Dict.set (field_examples a) path value
       else field_examples a)
      (field_required a).

(** [_analyze_record]: nested objects are read under [path.key], the
    first element of a list of objects under [path[]]. *)
Fixpoint _analyze_record (data : pyval) (prefix : string) (a : analysis) {struct data}
  : analysis :=
  match data with
  | VDict d =>
      (fix each (items : list (string * pyval)) (a : analysis) : analysis :=
         match items with
         | [] => a
         | (key, value) :: rest =>
             let path := if Str.is_empty prefix then key else prefix ++ "." ++ key in
             let a := observe path value a in
             let a :=
               match value with
               | VDict _ => _analyze_record value path a
               | VList (first :: _) =>
                   match first with
                   | VDict _ => _analyze_record first (path ++ "[]") a
                   | _ => a
                   end
               | _ => a
               end in
             each rest a
         end) d a
  | _ => a
  end.

(** The field definition made for one analysed path; of the attributes
    of the embedding it sets name, type and [required]. *)
Definition inferred_field (a : analysis) (field_path : string) (types : list string)
  : FieldDefinition :=
  let field_name :=
    if Str.contains field_path "." then last (Str.split "." field_path) ""
    else field_path in
  mk_FieldDefinition field_name (_determine_field_type types)
    (match Dict.get (field_required a) field_path with
     | Some required => required
     | None => false
     end)
    None None None None.

Definition infer_schema_from_data (data : list pyval) (service_name entity_name : string)
  : EntitySchema :=
  let a := fold_left (fun a record => _analyze_record record "" a) data
                     (mk_analysis [] [] []) in
  let fields :=
    fold_left (fun fields kv =>
                 Dict.set fields (fst kv) (inferred_field a (fst kv) (snd kv)))
              (field_types a) [] in
  mk_EntitySchema entity_name fields "id".

End SchemaInference.

Module SchemaMatching.

(** The table [variations] of [_normalize_field_name]. *)
Definition variations : dict string :=
  [ ("firstname", "firstname"); ("first_name", "firstname");
    ("lastName", "lastname"); ("last_name", "lastname");
    ("email", "email"); ("emailaddress", "email");
    ("phone", "phone"); ("phonenumber", "phone");
    ("createdat", "createdat"); ("created", "createdat");
    ("createddate", "createdat");
    ("updatedat", "updatedat"); ("updated", "updatedat");
    ("modifieddate", "updatedat"); ("lastmodifieddate", "updatedat") ].

Definition _normalize_field_name (name : string) : string :=
  let normalized := Str.replace "-" "" (Str.replace "_" "" (Str.lower name)) in
  match Dict.get variations normalized with
  | Some v => v
  | None => normalized
  end.

(** [{self._normalize_field_name(f): f for f in schema.fields.keys()}] *)
Definition by_normalized_name (fields : dict FieldDefinition) : dict string :=
  fold_left (fun acc f => Dict.set acc (_normalize_field_name f) f)
            (Dict.keys fields) [].

(** [FieldMapping(source_field=..., target_field=..., transform=DIRECT)];
    the free-text note is not part of the embedding. *)
Definition auto_matched (source_field target_field : string) : FieldMapping :=
  mk_FieldMapping (Some source_field) target_field "direct" [] false VNone None.

(** The loop over [target_fields.items()]. *)
Definition match_fields (source_fields target_fields : dict string) : list FieldMapping :=
  flat_map (fun kv =>
              match Dict.get source_fields (fst kv) with
              | Some source_field => [auto_matched source_field (snd kv)]
              | None => []
              end)
           target_fields.

Definition create_mapping_from_schemas (source_schema target_schema : EntitySchema)
  (source_service target_service : string) (auto_match : bool) : EntityMapping :=
  let field_mappings :=
    if auto_match then
      match_fields (by_normalized_name (es_fields source_schema))
                   (by_normalized_name (es_fields target_schema))
    else [] in
  mk_EntityMapping
    (source_service ++ "_" ++ es_name source_schema ++ "_to_"
     ++ target_service ++ "_" ++ es_name target_schema)
    (es_name source_schema) (es_name target_schema)
    source_service target_service field_mappings.

End SchemaMatching.

(* ===================================================================== *)
(** ** The orchestrator: phases and batches (src/app/orchestrator.py) *)
(* ===================================================================== *)

Module Pipeline.

(** The key under which the records of an entity are held:
    [f"{service}_{entity}"]. *)
Definition data_key (service entity : string) : string :=
  service ++ "_" ++ entity.

(** [parts = key.split("_")], then [parts[0]] and ["_".join(parts[1:])]. *)
Definition split_key (key : string) : string * string :=
  let parts := Str.split "_" key in
  (hd "" parts, Str.join "_" (tl parts)).

(** The counters of a [MigrationStep], and the failed records it lists
    with their errors. *)
Record MigrationStep : Type := mk_MigrationStep {
  step_entity : string;
  records_processed : Z;
  records_succeeded : Z;
  records_failed : Z;
  step_errors : list (pyval * list ValidationError)
}.

Definition new_step (entity : string) : MigrationStep :=
  mk_MigrationStep entity 0 0 0 [].

Section WithRuntime.
Context {rt : PyRuntime}.

(** The record after [if schema: record.validation_errors.extend(...)]. *)
Definition checked (schema : option EntitySchema) (record : TransformedRecord)
  : TransformedRecord :=
  match schema with
  | Some s => Records.extend_errors record (Validator.validate_record record s false)
  | None => record
  end.

(** The body of the loop of [_run_validation] over the records of a key. *)
Definition validation_step (schema : option EntitySchema)
  (acc : list TransformedRecord * MigrationStep) (record : TransformedRecord)
  : list TransformedRecord * MigrationStep :=
  let '(valid_records, step) := acc in
  let record := checked schema record in
  if Records.is_valid record then
    ((valid_records ++ [record])%list,
     mk_MigrationStep (step_entity step) (records_processed step + 1)
       (records_succeeded step + 1) (records_failed step) (step_errors step))
  else
    (valid_records,
     mk_MigrationStep (step_entity step) (records_processed step + 1)
       (records_succeeded step) (records_failed step + 1)
       (step_errors step ++ [(tr_id record, tr_validation_errors record)])%list).

Definition validate_records (schema : option EntitySchema) (entity : string)
  (records : list TransformedRecord) : list TransformedRecord * MigrationStep :=
  fold_left (validation_step schema) records ([], new_step entity).

(** [_run_validation]: every key of the transformed data is replaced by
    its valid records, and one step is added per key. *)
Definition _run_validation (registry : Registry.SchemaRegistry)
  (transformed_data : dict (list TransformedRecord))
  : dict (list TransformedRecord) * list MigrationStep :=
  fold_left (fun acc kv =>
               let '(target_service, target_entity) := split_key (fst kv) in
               let schema :=
                 Registry.get_entity_schema registry target_service target_entity in
               let '(valid_records, step) :=
                 validate_records schema target_entity (snd kv) in
               (Dict.set (fst acc) (fst kv) valid_records, (snd acc ++ [step])%list))
            transformed_data (transformed_data, []).

End WithRuntime.

(** [range(start, stop, step)] for a positive [step]; [fuel] bounds the
    number of elements. *)
Fixpoint range_up (fuel : nat) (start stop step : Z) : list Z :=
  match fuel with
  | O => []
  | S fuel =>
      if (start <? stop)%Z then start :: range_up fuel (start + step)%Z stop step
      else []
  end.

(** [l[i:j]] for [0 <= i <= j] *)
Definition slice {A} (l : list A) (i j : Z) : list A :=
  firstn (Z.to_nat (j - i)) (skipn (Z.to_nat i) l).

(** [_batch_iterator], as the list of the batches it yields.  A step of
    zero makes [range] raise; a negative one gives an empty range. *)
Definition _batch_iterator {A} (records : list A) (batch_size : Z) : result (list (list A)) :=
  if (batch_size =? 0)%Z then Raise ValueError
  else if (batch_size <? 0)%Z then Ok []
  else
    let n := Z.of_nat (List.length records) in
    Ok (map (fun i => slice records i (i + batch_size)%Z)
            (range_up (List.length records) 0%Z n batch_size)).

End Pipeline.

(* ===================================================================== *)
(** ** Statements about nested writes and the transformed payload *)
(* ===================================================================== *)

(** A path segment that is read as a key of an object, not as an index
    into an array held under a key. *)
Definition plain_segment (part : string) : Prop :=
  Transformer.array_match part = None.

(** No field of the payload holds a null. *)
Definition no_null_field (d : pydict) : Prop :=
  forall key, Dict.get d key <> Some VNone.

(** The operators that return a value on every input and under every
    configuration. *)
Definition never_raises (name : string) : bool :=
  existsb (String.eqb name)
    [ "direct"; "boolean_to_enum"; "to_metadata"; "default"; "iso_to_unix";
      "unix_to_iso" ].

(** The operators that print their input, outside any [try], and do
    nothing else that can fail. *)
Definition prints_input (name : string) : bool :=
  existsb (String.eqb name)
    [ "prefix_add"; "split_name"; "uppercase"; "lowercase"; "country_code";
      "clean_phone" ].

(** The characters [clean_phone] keeps. *)
Definition phone_char (c : ascii) : bool :=
  Str.is_digit c || Ascii.eqb c "+"%char.

(* ===================================================================== *)
(** ** Statements about batches *)
(* ===================================================================== *)

(** Every batch is full, but the last, which is not empty. *)
Fixpoint full_but_last {A} (size : nat) (batches : list (list A)) : Prop :=
  match batches with
  | [] => True
  | [last] => (0 < List.length last <= size)%nat
  | b :: rest => List.length b = size /\ full_but_last size rest
  end.

(* ===================================================================== *)
(** ** Statements about deduplication *)
(* ===================================================================== *)

(** The key field deduplication reads for an entity. *)
Definition dedup_key_field (config : Orchestrator.MigrationConfig) (entity : string)
  : string :=
  match Dict.get (Orchestrator.deduplication config) entity with
  | Some f => f
  | None => "email"
  end.


(* ===================================================================== *)
(** ** Statements about transformed records and their validation *)
(* ===================================================================== *)

(** An error [transform_record] records when a field mapping fails: a
    transform error of severity [error] on the target field of one of
    the field mappings. *)
Definition transform_failure (fms : list FieldMapping) (e : ValidationError) : Prop :=
  ve_error_type e = "transform" /\ ve_severity e = "error"
  /\ In (ve_field e) (map fm_target_field fms).

Section ValidationStatements.
Context {rt : PyRuntime}.

(** An error strict validation adds: severity [error], on a field path
    of the record. *)
Definition unknown_field_report (record : TransformedRecord) (e : ValidationError) : Prop :=
  ve_error_type e = "validation" /\ ve_severity e = "error"
  /\ In (ve_field e) (Validator._get_all_field_paths (tr_data record) "").

(** An entry of the dictionary [validate_batch] returns: the errors,
    not none, of a record of the batch. *)
Definition reported_in (records : list TransformedRecord) (schema : EntitySchema)
  (kv : pyval * list ValidationError) : Prop :=
  snd kv <> []
  /\ exists record, In record records
                    /\ snd kv = Validator.validate_record record schema false.

(** The records the validation loop counts as failed, as they are when
    it has added the errors of the schema. *)
Definition failed_records (schema : option EntitySchema) (records : list TransformedRecord)
  : list TransformedRecord :=
  filter (fun r => negb (Records.is_valid r)) (map (Pipeline.checked schema) records).

End ValidationStatements.

(* ===================================================================== *)
(** ** Statements about field names and inferred schemas *)
(* ===================================================================== *)

(** A field name in lower case without its underscores and dashes. *)
Definition name_core (name : string) : string :=
  Str.filter_chars (fun c => negb (Ascii.eqb "-"%char c))
    (Str.filter_chars (fun c => negb (Ascii.eqb "_"%char c)) (Str.lower name)).

(** A field mapping made by name: a direct copy, with no condition and
    no default, between fields of the two schemas whose normalized
    names agree. *)
Definition name_matched (source_schema target_schema : EntitySchema) (fm : FieldMapping)
  : Prop :=
  exists source_field,
    fm = SchemaMatching.auto_matched source_field (fm_target_field fm)
    /\ In source_field (Dict.keys (es_fields source_schema))
    /\ In (fm_target_field fm) (Dict.keys (es_fields target_schema))
    /\ SchemaMatching._normalize_field_name source_field
       = SchemaMatching._normalize_field_name (fm_target_field fm).

(** A value [_analyze_record] does not descend into: no object, and no
    list that starts with an object. *)
Definition flat_value (v : pyval) : bool :=
  match v with
  | VDict _ => false
  | VList (VDict _ :: _) => false
  | _ => true
  end.

(** The type names one sample value contributes to its field. *)
Definition sample_types (v : pyval) : list string :=
  if Py.is_none v then [] else [SchemaInference._get_python_type v].

(* ===================================================================== *)
(** ** Statements about what deduplication keeps *)
(* ===================================================================== *)

Section DeduplicationStatements.
Context {rt : PyRuntime}.

(** The key deduplication files a record under: its lower-cased key
    value, or its id when the key value is not true as a condition. *)
Definition own_key (key_field : string) (record : TransformedRecord) : option pyval :=
  let key_value := Py.get (tr_data record) key_field in
  if negb (Py.truthy key_value) then
    if Orchestrator.hashable (tr_id record) then Some (tr_id record) else None
  else Some (VStr (Str.lower (Py.str key_value))).

(** Every record sits under its own key, and no key repeats an earlier
    one. *)
Inductive slots (key_field : string) : Orchestrator.seen_map -> Prop :=
| slots_nil : slots key_field []
| slots_snoc : forall seen k r,
    slots key_field seen ->
    own_key key_field r = Some k ->
    Orchestrator.seen_get seen k = None ->
    slots key_field (seen ++ [(k, r)])%list.

(** A value that is no object: nothing can share it and write into it. *)
Definition scalar (v : pyval) : bool :=
  match v with
  | VList _ | VDict _ => false
  | _ => true
  end.

(** What identifies a source record, and what an error says. *)
Definition source_of (r : SourceRecord) : string * string :=
  (sr_source_service r, sr_source_entity r).

Definition report_of (e : ValidationError) : string * message * string * string :=
  (ve_field e, ve_message e, ve_error_type e, ve_severity e).

(** [original] is the record [kept] was made from.  The merge writes
    into the [meta_data] object of the record it keeps, and other
    fields of the payload, the source records and the errors may hold
    that same object; so the two records are compared in what cannot be
    it: the target, the warnings, the id when it is no object, where
    the source records come from, what the errors say, which fields the
    payload has outside [meta_data], and the value of each of them that
    held no object. *)
Definition made_from (kept original : TransformedRecord) : Prop :=
  tr_target_service kept = tr_target_service original
  /\ tr_target_entity kept = tr_target_entity original
  /\ tr_warnings kept = tr_warnings original
  /\ (scalar (tr_id original) = true -> tr_id kept = tr_id original)
  /\ map source_of (tr_source_records kept) = map source_of (tr_source_records original)
  /\ map report_of (tr_validation_errors kept)
     = map report_of (tr_validation_errors original)
  /\ forall key, key <> "meta_data" ->
        (Dict.get (tr_data kept) key = None <-> Dict.get (tr_data original) key = None)
        /\ forall v, scalar v = true ->
                     Dict.get (tr_data original) key = Some v ->
                     Dict.get (tr_data kept) key = Some v.

(** The entities of [after] are those of [before], each with the
    records deduplication keeps for it. *)
Definition deduplicated (config : Orchestrator.MigrationConfig)
  (before after : dict (list TransformedRecord)) : Prop :=
  Forall2 (fun b a => fst a = fst b
                      /\ Orchestrator.dedup_entity config (fst b) (snd b) = Ok (snd a))
          before after.

End DeduplicationStatements.

(* ===================================================================== *)
(** ** More concrete inputs *)
(* ===================================================================== *)

Module Cases.

(** A mapping whose second field mapping has an unknown transform and
    writes under a field the first one has filled with a string. *)
Definition failing_mapping : EntityMapping :=
  Examples.mapping_of [Examples.direct "name" "contact"; Examples.unknown_under_string].

(** What [transform_record] makes of the Stripe customer under it. *)
Definition failed_record : TransformedRecord :=
  mk_TransformedRecord (VStr "stripe_cus_1") "chargebee" "customer"
    [("contact", VStr "Jane Doe")] [Examples.stripe_jane]
    [Transformer.transform_error Examples.unknown_under_string TypeError]
    [Transformer.unknown_transform_warning "frobnicate"].

(** A record without payload, and one that has the fields the Chargebee
    customer schema requires. *)
Definition empty_record : TransformedRecord :=
  mk_TransformedRecord (VStr "c2") "chargebee" "customer" [] [] [] [].

Definition complete_record : TransformedRecord :=
  mk_TransformedRecord (VStr "c3") "chargebee" "customer"
    [("first_name", VStr "Jane"); ("email", VStr "jane@x.com")] [] [] [].

Definition stripe_customer_schema : EntitySchema :=
  mk_EntitySchema "customer"
    [("name", Examples.plain "name" false); ("email", Examples.plain "email" true)] "id".

Definition chargebee_customer_schema : EntitySchema :=
  mk_EntitySchema "customer"
    [("first_name", Examples.plain "first_name" true);
     ("email", Examples.plain "email" true);
     ("phone", Examples.plain "phone" false)] "id".

(** The payloads of two services: the first lacks the address, the
    second has it, and a plan with a name. *)
Definition payloads : dict pydict :=
  [("salesforce", [("name", VStr "Jane Doe")]);
   ("stripe", [("email", VStr "jane@x.com"); ("plan", VDict [("name", VStr "pro")])])].

(** Two closed tiers. *)
Definition closed_tiers : list pyval :=
  [VDict [("up_to", VInt 10); ("unit_amount", VInt 100)];
   VDict [("up_to", VInt 20); ("unit_amount", VInt 50)]].

End Cases.


(* ===================================================================== *)
(** * Properties *)
(* ===================================================================== *)

(** ** Field type validation: booleans *)

Section TypeValidation.
Context {rt : PyRuntime}.

(** C10.  In field type validation a boolean is rejected, with a type
    error, for a field declared integer, decimal or currency, and is
    accepted, with no error, for a field declared timestamp. *)
Theorem validate_type_boolean :
  forall (field_name : string) (b : bool),
    Validator._validate_type field_name (VBool b) INTEGER
      = Some (Validator.type_error field_name (VBool b) INTEGER)
    /\ Validator._validate_type field_name (VBool b) DECIMAL
      = Some (Validator.type_error field_name (VBool b) DECIMAL)
    /\ Validator._validate_type field_name (VBool b) CURRENCY
      = Some (Validator.type_error field_name (VBool b) CURRENCY)
    /\ Validator._validate_type field_name (VBool b) TIMESTAMP = None
    /\ ve_error_type (Validator.type_error field_name (VBool b) INTEGER) = "type"
    /\ ve_severity (Validator.type_error field_name (VBool b) INTEGER) = "error".
Proof.
  intros field_name b.
  unfold Validator._validate_type, Validator.type_checks.
  repeat split; reflexivity.
Qed.

End TypeValidation.

(** ** Unknown fields of a record *)

Section UnknownFields.
Context {rt : PyRuntime}.

(** Without [strict] the unknown fields are not looked at. *)
Lemma validate_record_not_strict :
  forall record schema,
    Validator.validate_record record schema false
      = Validator.schema_field_errors record schema.
Proof. reflexivity. Qed.

(** X15.  With [strict] every field path of the record whose first
    segment the schema does not know, outside [meta_data], is reported,
    with severity [error]. *)
Lemma validate_record_strict_reports :
  forall record schema field,
    In field (Validator._get_all_field_paths (tr_data record) "") ->
    Dict.contains (es_fields schema) (hd "" (Str.split "." field)) = false ->
    Str.startswith field "meta_data" = false ->
    In (Validator.unknown_field_error field true)
       (Validator.validate_record record schema true)
    /\ ve_severity (Validator.unknown_field_error field true) = "error".
Proof.
  intros record schema field Hin Hroot Hmeta.
  split; [| reflexivity].
  unfold Validator.validate_record.
  apply in_or_app. right.
  apply in_flat_map. exists field. split; [exact Hin |].
  rewrite Hroot, Hmeta. simpl. left. reflexivity.
Qed.

(** C2.  On a record with the field [nickname], unknown to the schema
    and outside [meta_data], [validate_record] without [strict] reports
    nothing, where a warning is documented; with [strict] it reports
    the field with severity [error]. *)
Theorem validate_record_unknown_field_unreported :
  Validator.validate_record Examples.record_with_extra Examples.customer_schema false = []
  /\ Validator.validate_record Examples.record_with_extra Examples.customer_schema true
     = [Validator.unknown_field_error "nickname" true]
  /\ ve_severity (Validator.unknown_field_error "nickname" true) = "error"
  /\ In "nickname" (Validator._get_all_field_paths (tr_data Examples.record_with_extra) "").
Proof.
  repeat split; try reflexivity.
  simpl. right. left. reflexivity.
Qed.

End UnknownFields.

(** ** Mapping validation: required target fields *)

Section MappingValidation.

Lemma not_existsb_eqb_iff :
  forall (x : string) (l : list string),
    negb (existsb (String.eqb x) l) = true <-> ~ In x l.
Proof.
  intros x l. rewrite negb_true_iff. split.
  - intros H Hin.
    assert (existsb (String.eqb x) l = true) as E.
    { apply existsb_exists. exists x. split; [exact Hin | apply String.eqb_refl]. }
    congruence.
  - intros H. destruct (existsb (String.eqb x) l) eqn:E; [| reflexivity].
    apply existsb_exists in E. destruct E as [y [Hy Exy]].
    apply String.eqb_eq in Exy. subst y. contradiction.
Qed.

Lemma unmapped_required_iff :
  forall mapping f fd,
    Registry.unmapped_required mapping (f, fd) = true
    <-> fd_required fd = true /\ ~ Registry.mapped mapping f.
Proof.
  intros mapping f fd. unfold Registry.unmapped_required, Registry.mapped. simpl.
  rewrite andb_true_iff, not_existsb_eqb_iff. reflexivity.
Qed.

Lemma filter_nothing {A : Type} :
  forall (p : A -> bool) (l : list A),
    (forall x, In x l -> p x = false) -> filter p l = [].
Proof.
  intros p l. induction l as [| x l IH]; intros H; [reflexivity |].
  simpl. rewrite (H x (or_introl eq_refl)). apply IH.
  intros y Hy. apply H. right. exact Hy.
Qed.

Lemma in_dict_key {V : Type} :
  forall (d : dict V) k v, In (k, v) d -> In k (Dict.keys d).
Proof.
  intros d k v H. unfold Dict.keys. apply in_map_iff. exists (k, v). auto.
Qed.

(** In a dictionary, a test that one key alone passes selects one entry. *)
Lemma filter_single {V : Type} :
  forall (p : string * V -> bool) (d : dict V) (k : string) (v : V),
    NoDup (Dict.keys d) ->
    In (k, v) d ->
    p (k, v) = true ->
    (forall k' v', In (k', v') d -> p (k', v') = true -> k' = k) ->
    filter p d = [(k, v)].
Proof.
  intros p d k v. induction d as [| [k0 v0] d IH]; intros Hnd Hin Hp Huniq.
  - contradiction.
  - simpl in Hnd. inversion Hnd as [| ? ? Hnotin Hnd']; subst.
    simpl. destruct Hin as [Heq | Hin].
    + inversion Heq; subst. rewrite Hp. f_equal.
      apply filter_nothing. intros [k1 v1] H1.
      destruct (p (k1, v1)) eqn:E; [| reflexivity].
      exfalso. apply Hnotin.
      assert (k1 = k) by (apply (Huniq k1 v1); [right; exact H1 | exact E]).
      subst. apply (in_dict_key d k v1). exact H1.
    + destruct (p (k0, v0)) eqn:E.
      * exfalso. apply Hnotin.
        assert (k0 = k) by (apply (Huniq k0 v0); [left; reflexivity | exact E]).
        subst. apply (in_dict_key d k v). exact Hin.
      * apply IH; auto.
        intros k' v' H Hp'. apply (Huniq k' v'); [right; exact H | exact Hp'].
Qed.

(** Selecting entries of a dictionary keeps its keys distinct. *)
Lemma filter_keys_nodup {V : Type} :
  forall (p : string * V -> bool) (d : dict V),
    NoDup (Dict.keys d) -> NoDup (map fst (filter p d)).
Proof.
  intros p d. induction d as [| [k v] d IH]; intros Hnd; simpl.
  - constructor.
  - simpl in Hnd. inversion Hnd as [| ? ? Hnotin Hnd']; subst.
    destruct (p (k, v)); [| apply IH; exact Hnd'].
    simpl. constructor; [| apply IH; exact Hnd'].
    intros Hin. apply Hnotin. apply in_map_iff in Hin.
    destruct Hin as [[k' v'] [Hk Hin]]. simpl in Hk. subst k'.
    apply filter_In in Hin. destruct Hin as [Hin _].
    apply (in_dict_key d k v'). exact Hin.
Qed.

Lemma declared_no_source_error :
  forall ss fm, Registry.source_declared ss fm -> Registry.source_field_errors ss fm = [].
Proof.
  intros ss fm H. unfold Registry.source_declared in H.
  unfold Registry.source_field_errors.
  destruct (fm_source_field fm) as [s |]; [| reflexivity].
  destruct H as [H | [H | H]].
  - subst. reflexivity.
  - rewrite H. rewrite andb_false_r. reflexivity.
  - rewrite H. simpl. destruct (_ && _); reflexivity.
Qed.

Lemma declared_no_target_error :
  forall ts fm, Registry.target_declared ts fm -> Registry.target_field_errors ts fm = [].
Proof.
  intros ts fm H. unfold Registry.target_declared in H.
  unfold Registry.target_field_errors.
  destruct H as [H | [H | H]].
  - rewrite H. reflexivity.
  - rewrite H. simpl. destruct (negb _); reflexivity.
  - rewrite H. rewrite andb_false_r. destruct (negb _); reflexivity.
Qed.

Lemma declared_no_field_errors :
  forall ss ts fms,
    (forall fm, In fm fms -> Registry.source_declared ss fm /\ Registry.target_declared ts fm) ->
    flat_map (fun fm => (Registry.source_field_errors ss fm
                         ++ Registry.target_field_errors ts fm)%list) fms = [].
Proof.
  intros ss ts fms. induction fms as [| fm fms IH]; intros H; [reflexivity |].
  simpl. destruct (H fm (or_introl eq_refl)) as [Hs Ht].
  rewrite (declared_no_source_error _ _ Hs), (declared_no_target_error _ _ Ht).
  simpl. apply IH. intros fm' Hin. apply H. right. exact Hin.
Qed.

(** C6.  When the source and the target schema of a mapping are both
    registered, [validate_mapping] returns, after the errors of the
    field mappings themselves, one error for each required target field
    that no field mapping targets.  In particular, when one required
    target field alone has no field mapping and the fields the mappings
    declare exist in the schemas, the result is exactly one error, and
    it names that field. *)
Theorem validate_mapping_required_targets :
  forall (self : Registry.SchemaRegistry) (mapping : EntityMapping)
         (source_schema target_schema : EntitySchema),
    Registry.get_entity_schema self (em_source_service mapping) (em_source_entity mapping)
      = Some source_schema ->
    Registry.get_entity_schema self (em_target_service mapping) (em_target_entity mapping)
      = Some target_schema ->
    (exists field_errors,
        Registry.validate_mapping self mapping
        = (field_errors
           ++ map Registry.missing_mapping_error
                  (Registry.unmapped_required_fields mapping target_schema))%list
        /\ ((forall fm, In fm (em_field_mappings mapping) ->
                        Registry.source_declared source_schema fm
                        /\ Registry.target_declared target_schema fm) ->
            field_errors = []))
    /\ (forall f,
          In f (Registry.unmapped_required_fields mapping target_schema)
          <-> exists fd, In (f, fd) (es_fields target_schema)
                         /\ fd_required fd = true /\ ~ Registry.mapped mapping f)
    /\ (NoDup (Dict.keys (es_fields target_schema)) ->
        NoDup (Registry.unmapped_required_fields mapping target_schema))
    /\ (forall f fd,
          NoDup (Dict.keys (es_fields target_schema)) ->
          In (f, fd) (es_fields target_schema) ->
          fd_required fd = true ->
          ~ Registry.mapped mapping f ->
          (forall f' fd', In (f', fd') (es_fields target_schema) ->
                          fd_required fd' = true -> ~ Registry.mapped mapping f' -> f' = f) ->
          (forall fm, In fm (em_field_mappings mapping) ->
                      Registry.source_declared source_schema fm
                      /\ Registry.target_declared target_schema fm) ->
          Registry.validate_mapping self mapping
          = ["Required target field has no mapping: " ++ f]).
Proof.
  intros self mapping ss ts Hs Ht.
  assert (Registry.validate_mapping self mapping
          = (flat_map (fun fm => (Registry.source_field_errors ss fm
                                  ++ Registry.target_field_errors ts fm)%list)
                      (em_field_mappings mapping)
             ++ map Registry.missing_mapping_error
                    (Registry.unmapped_required_fields mapping ts))%list) as Hunfold.
  { unfold Registry.validate_mapping. rewrite Hs, Ht. simpl.
    unfold Registry.unmapped_required_fields. rewrite map_map. reflexivity. }
  split; [| split; [| split]].
  - eexists. split; [exact Hunfold |]. apply declared_no_field_errors.
  - intros f. unfold Registry.unmapped_required_fields. rewrite in_map_iff. split.
    + intros [[f' fd] [Hf Hin]]. simpl in Hf. subst f'.
      apply filter_In in Hin. destruct Hin as [Hin Hp].
      apply unmapped_required_iff in Hp. exists fd. tauto.
    + intros [fd [Hin [Hreq Hnm]]]. exists (f, fd). split; [reflexivity |].
      apply filter_In. split; [exact Hin |]. apply unmapped_required_iff. tauto.
  - apply filter_keys_nodup.
  - intros f fd Hnd Hin Hreq Hnm Huniq Hdecl.
    rewrite Hunfold. rewrite (declared_no_field_errors _ _ _ Hdecl). simpl.
    unfold Registry.unmapped_required_fields.
    rewrite (filter_single (Registry.unmapped_required mapping) (es_fields ts) f fd); auto.
    + apply unmapped_required_iff. tauto.
    + intros f' fd' Hin' Hp. apply unmapped_required_iff in Hp.
      destruct Hp as [Hreq' Hnm']. apply (Huniq f' fd'); assumption.
Qed.

End MappingValidation.

(** The mapping [email_only_mapping] against the registered Stripe and
    Chargebee schemas: [first_name] alone is required and unmapped. *)
Lemma validate_mapping_required_targets_witness :
  Registry.get_entity_schema Examples.registry "stripe" "customer"
    = Dict.get (ss_entities Examples.stripe_schema) "customer"
  /\ Registry.get_entity_schema Examples.registry "chargebee" "customer"
    = Dict.get (ss_entities Examples.chargebee_schema) "customer"
  /\ Registry.validate_mapping Examples.registry Examples.email_only_mapping
    = ["Required target field has no mapping: first_name"].
Proof.
  split; [reflexivity | split; [reflexivity |]].
  destruct (validate_mapping_required_targets
              Examples.registry Examples.email_only_mapping
              (mk_EntitySchema "customer"
                 [("name", Examples.plain "name" false);
                  ("email", Examples.plain "email" true)] "id")
              (mk_EntitySchema "customer"
                 [("first_name", Examples.plain "first_name" true);
                  ("email", Examples.plain "email" true);
                  ("phone", Examples.plain "phone" false)] "id")
              eq_refl eq_refl) as [_ [_ [_ H]]].
  apply (H "first_name" (Examples.plain "first_name" true)).
  - simpl. repeat constructor; simpl; intuition discriminate.
  - simpl. left. reflexivity.
  - reflexivity.
  - unfold Registry.mapped. simpl. intros [E | []]. discriminate E.
  - intros f' fd' Hin Hreq Hnm. simpl in Hin.
    destruct Hin as [E | [E | [E | []]]]; inversion E; subst.
    + reflexivity.
    + exfalso. apply Hnm. unfold Registry.mapped. simpl. left. reflexivity.
    + discriminate Hreq.
  - intros fm [E | []]. subst fm. split.
    + unfold Registry.source_declared. simpl. right. left. reflexivity.
    + unfold Registry.target_declared. simpl. right. left. reflexivity.
Defined.

(** ** Dictionaries *)

Section DictFacts.
Context {V : Type}.

Lemma dict_get_set :
  forall (d : dict V) (k k' : string) (v : V),
    Dict.get (Dict.set d k v) k'
    = if String.eqb k' k then Some v else Dict.get d k'.
Proof.
  intros d k k' v. induction d as [| [k0 v0] d IH]; simpl.
  - reflexivity.
  - destruct (String.eqb_spec k k0) as [E | NE]; simpl.
    + subst k0. destruct (String.eqb_spec k' k); reflexivity.
    + rewrite IH. destruct (String.eqb_spec k' k0) as [E' | NE'].
      * subst k0. destruct (String.eqb_spec k' k) as [E'' | _]; [| reflexivity].
        subst. contradiction.
      * reflexivity.
Qed.

Lemma dict_get_absent :
  forall (d : dict V) (k : string), ~ In k (Dict.keys d) -> Dict.get d k = None.
Proof.
  intros d k. induction d as [| [k0 v0] d IH]; simpl; intros H; [reflexivity |].
  destruct (String.eqb_spec k k0) as [E | NE].
  - exfalso. apply H. left. symmetry. exact E.
  - apply IH. intros Hin. apply H. right. exact Hin.
Qed.

(** [d.update(other)]: the keys of [other] win. *)
Lemma dict_get_update :
  forall (other d : dict V) (k : string),
    NoDup (Dict.keys other) ->
    Dict.get (Dict.update d other) k
    = match Dict.get other k with
      | Some v => Some v
      | None => Dict.get d k
      end.
Proof.
  unfold Dict.update.
  induction other as [| [k0 v0] other IH]; intros d k Hnd; simpl.
  - reflexivity.
  - inversion Hnd as [| ? ? Hnotin Hnd']; subst.
    rewrite IH by exact Hnd'. rewrite dict_get_set.
    destruct (String.eqb_spec k k0) as [E | NE].
    + subst k0. rewrite (dict_get_absent other k Hnotin). reflexivity.
    + reflexivity.
Qed.

End DictFacts.

(** ** Deduplication *)

Section Deduplication.
Context {rt : PyRuntime}.

Import Orchestrator.

Lemma eqb_str_right : forall k s, Py.eqb k (VStr s) = true -> k = VStr s.
Proof.
  intros k s H. destruct k; simpl in H; try discriminate H.
  apply String.eqb_eq in H. subst. reflexivity.
Qed.

Lemma eqb_str_left : forall s k, Py.eqb (VStr s) k = true -> k = VStr s.
Proof.
  intros s k H. destruct k; simpl in H; try discriminate H.
  apply String.eqb_eq in H. subst. reflexivity.
Qed.

Lemma eqb_str_refl : forall s, Py.eqb (VStr s) (VStr s) = true.
Proof. intros s. simpl. apply String.eqb_refl. Qed.

Local Arguments Py.eqb : simpl never.

Lemma seen_get_set_same :
  forall seen s r, seen_get (seen_set seen (VStr s) r) (VStr s) = Some r.
Proof.
  intros seen s r. induction seen as [| [k0 r0] seen IH]; simpl.
  - rewrite eqb_str_refl. reflexivity.
  - destruct (Py.eqb (VStr s) k0) eqn:E; simpl; rewrite E; [reflexivity | exact IH].
Qed.

Lemma seen_get_set_other :
  forall seen k r s,
    k <> VStr s ->
    seen_get (seen_set seen k r) (VStr s) = seen_get seen (VStr s).
Proof.
  intros seen k r s Hne. induction seen as [| [k0 r0] seen IH]; simpl.
  - destruct (Py.eqb (VStr s) k) eqn:E; [| reflexivity].
    apply eqb_str_left in E. congruence.
  - destruct (Py.eqb k k0) eqn:E; simpl.
    + destruct (Py.eqb (VStr s) k0) eqn:E'; [| reflexivity].
      apply eqb_str_left in E'. subst k0. apply eqb_str_right in E. congruence.
    + rewrite IH. reflexivity.
Qed.

(** A record of the preferred source, once held under a key, is held
    under it for the rest of the loop. *)
Lemma dedup_step_keeps :
  forall key_field preferred seen record seen' s w,
    seen_get seen (VStr s) = Some w ->
    first_source w = preferred ->
    dedup_step key_field preferred seen record = Ok seen' ->
    seen_get seen' (VStr s) = Some w.
Proof.
  intros key_field preferred seen record seen' s w Hw Hsrc Hstep.
  unfold dedup_step in Hstep.
  destruct (negb (Py.truthy (Py.get (tr_data record) key_field))).
  - destruct (hashable (tr_id record)); [| discriminate Hstep].
    inversion Hstep; subst seen'; clear Hstep.
    destruct (seen_get seen (tr_id record)) eqn:E; [exact Hw |].
    rewrite seen_get_set_other; [exact Hw |].
    intros Heq. rewrite Heq in E. congruence.
  - set (k := Str.lower (Py.str (Py.get (tr_data record) key_field))) in *.
    destruct (seen_get seen (VStr k)) as [existing |] eqn:E.
    + destruct (String.eqb (first_source record) preferred
                && negb (String.eqb (first_source existing) preferred)) eqn:C.
      * destruct (py_update _ _) as [m | e]; simpl in Hstep; [| discriminate Hstep].
        inversion Hstep; subst seen'; clear Hstep.
        rewrite seen_get_set_other; [exact Hw |].
        intros Heq. inversion Heq; subst s.
        rewrite E in Hw. inversion Hw; subst existing.
        apply andb_true_iff in C. destruct C as [_ C].
        rewrite Hsrc, String.eqb_refl in C. discriminate C.
      * inversion Hstep; subst. exact Hw.
    + inversion Hstep; subst seen'; clear Hstep.
      rewrite seen_get_set_other; [exact Hw |].
      intros Heq. inversion Heq; subst s. congruence.
Qed.

Lemma dedup_loop_keeps :
  forall key_field preferred records seen final s w,
    seen_get seen (VStr s) = Some w ->
    first_source w = preferred ->
    dedup_loop key_field preferred records seen = Ok final ->
    seen_get final (VStr s) = Some w.
Proof.
  intros key_field preferred records.
  induction records as [| record rest IH]; intros seen final s w Hw Hsrc Hloop; simpl in Hloop.
  - inversion Hloop; subst. exact Hw.
  - destruct (dedup_step key_field preferred seen record) as [seen' |] eqn:E;
      simpl in Hloop; [| discriminate Hloop].
    apply (IH seen' final s w); auto.
    apply (dedup_step_keeps key_field preferred seen record seen' s w); auto.
Qed.

Lemma seen_get_In :
  forall seen k r, seen_get seen k = Some r -> In r (seen_values seen).
Proof.
  intros seen k r. induction seen as [| [k0 r0] seen IH]; simpl; intros H.
  - discriminate H.
  - destruct (Py.eqb k k0).
    + inversion H; subst. left. reflexivity.
    + right. apply IH. exact H.
Qed.

(** The merge on every input.  When the record held under a dedup key
    does not come from the preferred source and the record now seen
    under the same lower-cased key does, the new record replaces it and
    is kept to the end of the loop, as stated of deduplication; but the
    [meta_data] it ends with is the union of the two in which the keys
    of the replaced record take precedence over its own, the reverse of
    what is stated: [new_meta.update(existing_meta)] has the two
    dictionaries the wrong way round. *)
Lemma dedup_preferred_source_absorbs :
  forall (key_field preferred : string) (seen : seen_map)
         (record existing : TransformedRecord) (new_meta existing_meta : pydict),
    Py.truthy (Py.get (tr_data record) key_field) = true ->
    seen_get seen (VStr (Str.lower (Py.str (Py.get (tr_data record) key_field))))
      = Some existing ->
    first_source record = preferred ->
    first_source existing <> preferred ->
    Py.get_or (tr_data record) "meta_data" (VDict []) = VDict new_meta ->
    Py.get_or (tr_data existing) "meta_data" (VDict []) = VDict existing_meta ->
    NoDup (Dict.keys existing_meta) ->
    exists (merged : pydict) (seen' : seen_map),
      let key := VStr (Str.lower (Py.str (Py.get (tr_data record) key_field))) in
      let winner := with_meta_data record (VDict merged) in
      dedup_step key_field preferred seen record = Ok seen'
      /\ seen_get seen' key = Some winner
      /\ first_source winner = preferred
      /\ Py.get (tr_data winner) "meta_data" = VDict merged
      /\ union_preferring existing_meta new_meta merged
      /\ (forall rest final,
            dedup_loop key_field preferred rest seen' = Ok final ->
            seen_get final key = Some winner /\ In winner (seen_values final)).
Proof.
  intros key_field preferred seen record existing new_meta existing_meta
         Htruthy Hseen Hnew Hold Hnm Hem Hnd.
  exists (Dict.update new_meta existing_meta).
  exists (seen_set seen (VStr (Str.lower (Py.str (Py.get (tr_data record) key_field))))
                   (with_meta_data record (VDict (Dict.update new_meta existing_meta)))).
  cbv zeta.
  assert (first_source (with_meta_data record (VDict (Dict.update new_meta existing_meta)))
          = preferred) as Hwin by exact Hnew.
  split; [| split; [| split; [| split; [| split]]]].
  - unfold dedup_step. rewrite Htruthy. simpl negb. cbv iota.
    rewrite Hseen. rewrite Hnew, String.eqb_refl.
    destruct (String.eqb_spec (first_source existing) preferred) as [E | _];
      [contradiction |].
    simpl andb. cbv iota. rewrite Hnm, Hem. reflexivity.
  - apply seen_get_set_same.
  - exact Hwin.
  - unfold with_meta_data, Py.get. simpl. rewrite dict_get_set. reflexivity.
  - intros key. apply dict_get_update. exact Hnd.
  - intros rest final Hloop.
    assert (seen_get final (VStr (Str.lower (Py.str (Py.get (tr_data record) key_field))))
            = Some (with_meta_data record (VDict (Dict.update new_meta existing_meta)))) as H.
    { eapply dedup_loop_keeps; [| exact Hwin | exact Hloop]. apply seen_get_set_same. }
    split; [exact H | eapply seen_get_In; exact H].
Qed.

End Deduplication.

(** The Stripe customer seen after the Salesforce customer with the same
    address: it replaces it and takes its [tier]. *)
Lemma dedup_preferred_source_absorbs_witness :
  exists (merged : pydict) (seen' : Orchestrator.seen_map),
    Orchestrator.dedup_step (rt := reference_runtime) "email" "stripe"
      [(VStr "jane@x.com", Examples.salesforce_customer)] Examples.stripe_customer
    = Ok seen'
    /\ Orchestrator.seen_get seen' (VStr "jane@x.com")
       = Some (Orchestrator.with_meta_data Examples.stripe_customer (VDict merged))
    /\ union_preferring [("tier", VStr "gold"); ("region", VStr "emea")]
                        [("tier", VStr "silver"); ("plan", VStr "pro")] merged.
Proof.
  destruct (dedup_preferred_source_absorbs (rt := reference_runtime)
              "email" "stripe"
              [(VStr "jane@x.com", Examples.salesforce_customer)]
              Examples.stripe_customer Examples.salesforce_customer
              [("tier", VStr "silver"); ("plan", VStr "pro")]
              [("tier", VStr "gold"); ("region", VStr "emea")])
    as [merged [seen' H]].
  - reflexivity.
  - reflexivity.
  - reflexivity.
  - simpl. discriminate.
  - reflexivity.
  - reflexivity.
  - simpl. repeat constructor; simpl; intuition discriminate.
  - cbv zeta in H. destruct H as [H1 [H2 [_ [_ [H5 _]]]]].
    exists merged, seen'. split; [exact H1 | split; [exact H2 | exact H5]].
Defined.

(** C1.  The code on the failing input, a Salesforce customer followed
    by a Stripe customer with the same address, Stripe being the
    preferred source: the Stripe record is the one kept, as stated, but
    it ends with the [tier] of the Salesforce record it replaced, so its
    [meta_data] is not the union in which the keys of the preferred
    record take precedence. *)
Lemma dedup_loser_keys_overwrite :
  exists (kept : TransformedRecord) (merged : pydict),
    Orchestrator._deduplicate_records (rt := reference_runtime) Examples.dedup_config
      [("customers", [Examples.salesforce_customer; Examples.stripe_customer])]
    = Ok [("customers", [kept])]
    /\ Orchestrator.first_source kept = "stripe"
    /\ Py.get (tr_data kept) "meta_data" = VDict merged
    /\ Dict.get merged "tier" = Some (VStr "gold")
    /\ ~ union_preferring [("tier", VStr "silver"); ("plan", VStr "pro")]
                          [("tier", VStr "gold"); ("region", VStr "emea")] merged.
Proof.
  eexists. eexists.
  split; [vm_compute; reflexivity |].
  split; [reflexivity |].
  split; [reflexivity |].
  split; [reflexivity |].
  intros H. specialize (H "tier"). vm_compute in H. discriminate H.
Qed.

(** ** Resolution of the source value *)

Section SourceResolution.

Import Transformer.

Lemma is_none_false : forall v, Py.is_none v = false <-> v <> VNone.
Proof.
  intros v. destruct v; simpl; split; intros H; try reflexivity; try discriminate;
    try (intros E; discriminate E). contradiction H. reflexivity.
Qed.

Lemma is_none_true : forall v, Py.is_none v = true <-> v = VNone.
Proof.
  intros v. destruct v; simpl; split; intros H; try reflexivity; discriminate.
Qed.

(** The loop over the records returns the first non-absent value. *)
Lemma probe_records_first :
  forall source_records path,
    first_non_absent source_records path (probe_records source_records path).
Proof.
  intros rs path. induction rs as [| r rs IH]; simpl.
  - right. split; [reflexivity |]. intros r [].
  - destruct (Py.is_none (_get_nested_value (VDict (sr_data r)) path)) eqn:E; simpl.
    + apply is_none_true in E.
      destruct IH as [[pre [record [post [Hsplit [Hpre [Hval Hne]]]]]] | [Hv Hall]].
      * left. exists (r :: pre), record, post.
        split; [rewrite Hsplit; reflexivity |].
        split; [| split; assumption].
        intros r' [<- | Hin]; [exact E | apply Hpre; exact Hin].
      * right. split; [exact Hv |].
        intros r' [<- | Hin]; [exact E | apply Hall; exact Hin].
    + apply is_none_false in E. left. exists [], r, rs.
      split; [reflexivity |]. split; [intros r' [] |]. split; [reflexivity | exact E].
Qed.

(** What the combined payload table holds for a service name. *)
Lemma combine_sources_get :
  forall source_records service,
    Dict.get (combine_sources source_records) service = payload_of service source_records.
Proof.
  intros rs service. unfold combine_sources.
  assert (forall acc,
             Dict.get (fold_left (fun combined_data record =>
                                    Dict.set combined_data (sr_source_service record)
                                             (sr_data record)) rs acc) service
             = match payload_of service rs with
               | Some p => Some p
               | None => Dict.get acc service
               end) as H.
  { induction rs as [| r rs IH]; intros acc; simpl; [reflexivity |].
    rewrite IH. destruct (payload_of service rs); [reflexivity |].
    rewrite dict_get_set.
    destruct (String.eqb service (sr_source_service r)); reflexivity. }
  rewrite H. simpl. destruct (payload_of service rs); reflexivity.
Qed.

Lemma existsb_eqb_In :
  forall (x : string) (l : list string), existsb (String.eqb x) l = true <-> In x l.
Proof.
  intros x l. rewrite existsb_exists. split.
  - intros [y [Hy E]]. apply String.eqb_eq in E. subst. exact Hy.
  - intros H. exists x. split; [exact H | apply String.eqb_refl].
Qed.

(** C3, as the code has it.  For a non-empty source path: when the path
    has at least two dot-segments and its first segment, lower-cased,
    is the lower-cased service of a supplied record, the value is
    resolved only within the payload held for that lower-cased name,
    which is the payload of the record carrying it (the last one, if
    several do), along the rest of the path; otherwise the payloads of
    the records are probed in the order supplied and the first
    non-absent value is returned, absent if there is none. *)
Theorem get_source_value_resolution :
  forall (path : string) (source_records : list SourceRecord),
    path <> "" ->
    let parts := Str.split "." path in
    let service := Str.lower (hd "" parts) in
    let services := map (fun r => Str.lower (sr_source_service r)) source_records in
    let value :=
      _get_source_value (Some path) source_records (combine_sources source_records) in
    ((1 < List.length parts)%nat ->
     In service services ->
     forall payload,
       payload_of service source_records = Some payload ->
       value = _get_nested_value (VDict payload) (Str.join "." (tl parts)))
    /\ ((List.length parts <= 1)%nat \/ ~ In service services ->
        value = probe_records source_records path
        /\ first_non_absent source_records path value).
Proof.
  intros path rs Hne parts service services value.
  assert (Str.is_empty path = false) as Hemp.
  { destruct path; [contradiction Hne; reflexivity | reflexivity]. }
  subst value. unfold _get_source_value. rewrite Hemp.
  fold parts. fold service. fold services.
  split.
  - intros Hlen Hin payload Hpay.
    apply Nat.ltb_lt in Hlen. rewrite Hlen.
    apply existsb_eqb_In in Hin. rewrite Hin. simpl.
    rewrite combine_sources_get, Hpay. reflexivity.
  - intros Hother.
    assert ((1 <? List.length parts)%nat && existsb (String.eqb service) services = false)
      as Hcond.
    { destruct Hother as [Hlen | Hnin].
      - apply Nat.ltb_ge in Hlen. rewrite Hlen. reflexivity.
      - destruct (existsb (String.eqb service) services) eqn:E.
        + apply existsb_eqb_In in E. contradiction.
        + apply andb_false_r. }
    rewrite Hcond. split; [reflexivity | apply probe_records_first].
Qed.

End SourceResolution.

Lemma fold_nested_none :
  forall parts, fold_left Transformer.nested_step parts VNone = VNone.
Proof.
  induction parts as [| p parts IH]; simpl; [reflexivity | exact IH].
Qed.

Lemma get_nested_value_empty :
  forall path, Transformer._get_nested_value (VDict []) path = VNone.
Proof.
  intros path. unfold Transformer._get_nested_value, Str.split.
  destruct (Str.split_go "." path 0) as [p ps]. simpl.
  assert (Transformer.nested_step (VDict []) p = VNone) as H.
  { unfold Transformer.nested_step. simpl.
    destruct (Transformer.array_match p) as [[key index] |]; reflexivity. }
  rewrite H. apply fold_nested_none.
Qed.

(** A path prefixed with the service of the first record resolves in
    that record's payload, not in the other record's. *)
Lemma get_source_value_resolution_witness :
  "stripe.email" <> ""
  /\ Transformer._get_source_value (Some "stripe.email")
       [Examples.stripe_with_email; Examples.salesforce_account]
       (Transformer.combine_sources [Examples.stripe_with_email; Examples.salesforce_account])
     = Transformer._get_nested_value (VDict (sr_data Examples.stripe_with_email)) "email"
  /\ first_non_absent [Examples.stripe_empty; Examples.salesforce_account] "email"
       (Transformer._get_source_value (Some "email")
          [Examples.stripe_empty; Examples.salesforce_account]
          (Transformer.combine_sources [Examples.stripe_empty; Examples.salesforce_account])).
Proof.
  split; [discriminate |]. split.
  - pose proof (get_source_value_resolution "stripe.email"
                  [Examples.stripe_with_email; Examples.salesforce_account]) as H.
    cbv zeta in H. destruct H as [H _]; [discriminate |].
    apply H.
    + simpl. lia.
    + simpl. left. reflexivity.
    + reflexivity.
  - pose proof (get_source_value_resolution "email"
                  [Examples.stripe_empty; Examples.salesforce_account]) as H.
    cbv zeta in H. destruct H as [_ H]; [discriminate |].
    apply H. left. simpl. lia.
Defined.

(** C3 as stated fails: the one-segment path [stripe] names the service
    of the first record, whose payload has no value at any path, and
    the value returned is read from the Salesforce payload. *)
Lemma get_source_value_single_segment :
  Str.lower (hd "" (Str.split "." "stripe")) = Str.lower (sr_source_service Examples.stripe_empty)
  /\ Transformer._get_source_value (Some "stripe")
       [Examples.stripe_empty; Examples.salesforce_account]
       (Transformer.combine_sources [Examples.stripe_empty; Examples.salesforce_account])
     = VInt 7
  /\ Transformer._get_nested_value (VDict (sr_data Examples.salesforce_account)) "stripe"
     = VInt 7
  /\ (forall path,
        Transformer._get_nested_value (VDict (sr_data Examples.stripe_empty)) path = VNone).
Proof.
  split; [reflexivity |]. split; [reflexivity |]. split; [reflexivity |].
  intros path. apply get_nested_value_empty.
Qed.

(** The service prefix is matched without regard to case, but the
    payload is looked up under the lower-cased name: a record whose
    service name has a capital is matched and then not found. *)
Lemma get_source_value_capitalised_service :
  Transformer._get_source_value (Some "stripe.email") [Examples.capitalised_stripe]
    (Transformer.combine_sources [Examples.capitalised_stripe]) = VNone
  /\ Transformer._get_source_value (Some "Stripe.email") [Examples.capitalised_stripe]
    (Transformer.combine_sources [Examples.capitalised_stripe]) = VNone
  /\ Transformer._get_nested_value (VDict (sr_data Examples.capitalised_stripe)) "email"
     = VStr "jane@stripe.com".
Proof. repeat split; reflexivity. Qed.

(** ** Tier mapping *)

Section TierMapping.
Context {rt : PyRuntime}.

Import Transformer.

(** The default field mapping copies [up_to], when the tier has the
    key, over [ending_unit], and leaves [starting_unit] alone. *)
Lemma copy_default_fields :
  forall (t mapped : pydict),
    exists mapped',
      copy_mapped_fields [("up_to", VStr "ending_unit"); ("unit_amount", VStr "price")]
                         t mapped = Ok mapped'
      /\ Py.get mapped' "starting_unit" = Py.get mapped "starting_unit"
      /\ Py.get mapped' "ending_unit"
         = match Dict.get t "up_to" with
           | Some v => v
           | None => Py.get mapped "ending_unit"
           end.
Proof.
  intros t mapped. unfold Py.get. simpl.
  destruct (Dict.get t "up_to") as [u |]; destruct (Dict.get t "unit_amount") as [p |];
    simpl; eexists; (split; [reflexivity |]); repeat rewrite dict_get_set; simpl;
    split; reflexivity.
Qed.

Lemma tier_loop_cons :
  forall t rest fields null_up_to starting_unit,
    tier_loop (VDict t :: rest) (VDict fields) null_up_to starting_unit
    = (do mapped_tier <-
         copy_mapped_fields fields t
           (Dict.set [("starting_unit", starting_unit)] "ending_unit"
              (if Py.is_none (Py.get t "up_to") then null_up_to else Py.get t "up_to")) ;;
       do next <- Py.add_one (Py.por (Py.get t "up_to") (VInt 0)) ;;
       do bands <- tier_loop rest (VDict fields) null_up_to next ;;
       Ok (VDict mapped_tier :: bands)).
Proof. reflexivity. Qed.

(** One turn of the loop on a tier with an integer [up_to]. *)
Lemma tier_step_closed :
  forall t up_to null_up_to start,
    Dict.get t "up_to" = Some (VInt up_to) ->
    exists mapped,
      (forall rest,
          tier_loop (VDict t :: rest) default_tier_field_mapping null_up_to (VInt start)
          = (do bands <- tier_loop rest default_tier_field_mapping null_up_to
                                   (VInt (up_to + 1)) ;;
             Ok (VDict mapped :: bands)))
      /\ Py.get mapped "starting_unit" = VInt start
      /\ Py.get mapped "ending_unit" = VInt up_to.
Proof.
  intros t u null_up_to start Hu.
  assert (Py.get t "up_to" = VInt u) as Hget by (unfold Py.get; rewrite Hu; reflexivity).
  destruct (copy_default_fields t
              (Dict.set [("starting_unit", VInt start)] "ending_unit"
                 (if Py.is_none (Py.get t "up_to") then null_up_to else Py.get t "up_to")))
    as [mapped [Hcopy [Hs He]]].
  exists mapped. split; [| split].
  - intros rest. unfold default_tier_field_mapping. rewrite tier_loop_cons.
    rewrite Hcopy. cbn [bind]. rewrite Hget.
    assert (Py.add_one (Py.por (VInt u) (VInt 0)) = Ok (VInt (u + 1))) as Hnext.
    { unfold Py.por. simpl. destruct (u =? 0)%Z eqn:E; simpl; [| reflexivity].
      apply Z.eqb_eq in E. subst. reflexivity. }
    rewrite Hnext. reflexivity.
  - rewrite Hs. unfold Py.get. rewrite dict_get_set. reflexivity.
  - rewrite He, Hu. reflexivity.
Qed.

(** The turn on a last tier without the key [up_to]. *)
Lemma tier_step_open :
  forall t null_up_to start,
    Dict.get t "up_to" = None ->
    exists mapped,
      tier_loop [VDict t] default_tier_field_mapping null_up_to (VInt start)
      = Ok [VDict mapped]
      /\ Py.get mapped "starting_unit" = VInt start
      /\ Py.get mapped "ending_unit" = null_up_to.
Proof.
  intros t null_up_to start Hopen.
  assert (Py.get t "up_to" = VNone) as Hget by (unfold Py.get; rewrite Hopen; reflexivity).
  destruct (copy_default_fields t
              (Dict.set [("starting_unit", VInt start)] "ending_unit"
                 (if Py.is_none (Py.get t "up_to") then null_up_to else Py.get t "up_to")))
    as [mapped [Hcopy [Hs He]]].
  exists mapped. split; [| split].
  - unfold default_tier_field_mapping. rewrite tier_loop_cons.
    rewrite Hcopy. cbn [bind]. rewrite Hget. reflexivity.
  - rewrite Hs. unfold Py.get. rewrite dict_get_set. reflexivity.
  - rewrite He, Hopen, Hget. unfold Py.get. rewrite dict_get_set. reflexivity.
Qed.

Lemma tier_loop_closed :
  forall (tiers : list pyval) (null_up_to : pyval) (start : Z),
    Forall closed_tier tiers ->
    exists bands,
      tier_loop tiers default_tier_field_mapping null_up_to (VInt start) = Ok bands
      /\ List.length bands = List.length tiers
      /\ contiguous_from start bands.
Proof.
  induction tiers as [| tier tiers IH]; intros null_up_to start Hall.
  - exists []. simpl. auto.
  - inversion Hall as [| ? ? [t [u [Ht Hu]]] Hrest]; subst.
    destruct (IH null_up_to (u + 1)%Z Hrest) as [bands [Hloop [Hlen Hcont]]].
    destruct (tier_step_closed t u null_up_to start Hu) as [mapped [Hstep [Hs He]]].
    rewrite Hstep, Hloop. cbn [bind].
    eexists. split; [reflexivity |]. split; [simpl; rewrite Hlen; reflexivity |].
    simpl. exists mapped. split; [reflexivity |]. split; [exact Hs |].
    right. exists u. split; [exact He | exact Hcont].
Qed.

(** X12.  With the default field mapping, tiers with integer [up_to]
    give bands that start at 1 and are contiguous; and a last tier that
    lacks the key [up_to] gets the configured sentinel. *)
Lemma tier_mapping_contiguous :
  forall (tiers : list pyval) (config : pydict) (data : dict pydict) (ctx : pydict),
    Dict.get config "field_mapping" = None ->
    Forall closed_tier tiers ->
    (exists bands,
        _transform_tier_mapping (VList tiers) config data ctx = Ok (VList bands)
        /\ List.length bands = List.length tiers
        /\ contiguous_from 1 bands)
    /\ (forall last,
          open_tier last ->
          exists bands b,
            _transform_tier_mapping (VList (tiers ++ [last])) config data ctx
            = Ok (VList (bands ++ [VDict b]))
            /\ List.length bands = List.length tiers
            /\ contiguous_from 1 (bands ++ [VDict b])
            /\ Py.get b "ending_unit" = Py.get_or config "null_up_to" (VStr "inf")).
Proof.
  intros tiers config data ctx Hcfg Hall.
  unfold _transform_tier_mapping, Py.get_or. rewrite Hcfg.
  set (null_up_to := match Dict.get config "null_up_to" with
                     | Some v => v
                     | None => VStr "inf"
                     end).
  split.
  - destruct (tier_loop_closed tiers null_up_to 1 Hall) as [bands [Hloop [Hlen Hc]]].
    rewrite Hloop. simpl. exists bands. auto.
  - intros last [t [Hlast Hopen]]. subst last.
    (* the loop over tiers, then the open tier *)
    assert (forall ts start,
               Forall closed_tier ts ->
               exists bands b,
                 tier_loop (ts ++ [VDict t]) default_tier_field_mapping null_up_to (VInt start)
                 = Ok (bands ++ [VDict b])%list
                 /\ List.length bands = List.length ts
                 /\ contiguous_from start (bands ++ [VDict b])
                 /\ Py.get b "ending_unit" = null_up_to) as Hgen.
    { induction ts as [| tier ts IH]; intros start Hts.
      - destruct (tier_step_open t null_up_to start Hopen) as [mapped [Hstep [Hs He]]].
        simpl app. rewrite Hstep.
        exists [], mapped. split; [reflexivity |]. split; [reflexivity |].
        split; [| exact He].
        simpl. exists mapped. split; [reflexivity |].
        split; [exact Hs | left; reflexivity].
      - inversion Hts as [| ? ? [t0 [u [Ht0 Hu]]] Hrest]; subst.
        destruct (IH (u + 1)%Z Hrest) as [bands [b [Hloop [Hlen [Hc Hend]]]]].
        destruct (tier_step_closed t0 u null_up_to start Hu) as [mapped [Hstep [Hs He]]].
        simpl app. rewrite Hstep, Hloop. cbn [bind].
        exists (VDict mapped :: bands), b.
        split; [reflexivity |]. split; [simpl; rewrite Hlen; reflexivity |].
        split; [| exact Hend].
        simpl. exists mapped. split; [reflexivity |]. split; [exact Hs |].
        right. exists u. split; [exact He | exact Hc]. }
    destruct (Hgen tiers 1%Z Hall) as [bands [b [Hloop [Hlen [Hc Hend]]]]].
    rewrite Hloop. simpl. exists bands, b. auto.
Qed.

(** C4.  On Stripe-shaped tiers, whose last tier has [up_to] null, the
    default configuration yields contiguous bands starting at 1, but
    the last band's [ending_unit] is null: the sentinel is written and
    then overwritten by the copy of [up_to].  With the key left out of
    the last tier the sentinel stays. *)
Theorem tier_mapping_null_up_to_overwritten :
  exists first_band last_band,
    _transform_tier_mapping Examples.stripe_tiers [] [] []
    = Ok (VList [VDict first_band; VDict last_band])
    /\ Py.get first_band "starting_unit" = VInt 1
    /\ Py.get first_band "ending_unit" = VInt 10
    /\ Py.get last_band "starting_unit" = VInt 11
    /\ Py.get last_band "ending_unit" = VNone
    /\ Py.get_or [] "null_up_to" (VStr "inf") = VStr "inf"
    /\ exists first_band' last_band',
         _transform_tier_mapping Examples.tiers_without_key [] [] []
         = Ok (VList [VDict first_band'; VDict last_band'])
         /\ Py.get last_band' "ending_unit" = VStr "inf".
Proof.
  eexists. eexists. split; [vm_compute; reflexivity |].
  repeat (split; [reflexivity |]).
  eexists. eexists. split; [vm_compute; reflexivity | reflexivity].
Qed.

End TierMapping.

(** ** The target id *)

Section TargetId.
Context {rt : PyRuntime}.

Import Transformer.

Lemma id_from_mappings_none :
  forall fms source_records,
    (forall fm, In fm fms -> id_candidate source_records fm = false) ->
    id_from_mappings fms source_records = None.
Proof.
  induction fms as [| fm fms IH]; intros rs H; simpl; [reflexivity |].
  pose proof (H fm (or_introl eq_refl)) as Hfm. unfold id_candidate in Hfm.
  destruct (String.eqb (fm_target_field fm) "id"); simpl in Hfm.
  - rewrite Hfm. apply IH. intros fm' Hin. apply H. right. exact Hin.
  - apply IH. intros fm' Hin. apply H. right. exact Hin.
Qed.

Lemma id_from_mappings_first :
  forall pre fm post source_records,
    (forall fm', In fm' pre -> id_candidate source_records fm' = false) ->
    id_candidate source_records fm = true ->
    id_from_mappings (pre ++ fm :: post) source_records
    = Some (match Dict.get _builtin_transforms (fm_transform fm) with
            | Some transform_func =>
                transform_func (_get_source_value (fm_source_field fm) source_records [])
                               (fm_transform_config fm) [] []
            | None =>
                Ok (VStr (Py.str (_get_source_value (fm_source_field fm) source_records [])))
            end).
Proof.
  induction pre as [| fm0 pre IH]; intros fm post rs Hpre Hfm.
  - simpl app. unfold id_candidate in Hfm. apply andb_true_iff in Hfm.
    destruct Hfm as [Ht Hv]. cbn [id_from_mappings]. rewrite Ht, Hv.
    destruct (Dict.get _builtin_transforms (fm_transform fm)); reflexivity.
  - simpl app. cbn [id_from_mappings].
    pose proof (Hpre fm0 (or_introl eq_refl)) as H0. unfold id_candidate in H0.
    destruct (String.eqb (fm_target_field fm0) "id"); simpl in H0.
    + rewrite H0. apply IH; [| exact Hfm]. intros fm' Hin. apply Hpre. right. exact Hin.
    + apply IH; [| exact Hfm]. intros fm' Hin. apply Hpre. right. exact Hin.
Qed.

Lemma get_source_value_unprefixed :
  forall path source_records combined_data,
    service_prefixed source_records path = false ->
    _get_source_value path source_records combined_data
    = _get_source_value path source_records [].
Proof.
  intros [path |] rs cd H; [| reflexivity].
  unfold _get_source_value. unfold service_prefixed in H.
  destruct (Str.is_empty path); [reflexivity |].
  cbv zeta in H |- *. rewrite H. reflexivity.
Qed.

(** C5, as the code has it.  If the mapping has a field mapping that
    targets [id] and whose resolved source value is true as a
    condition, the id of the transformed record is the result of the
    first such mapping's transform on that value; if it has none, the
    id is the first source record's service and id joined by an
    underscore.  This is stated where the derivation of the id does
    what the loop over the field mappings does: the source paths of the
    mappings that target [id] carry no service prefix, the transform is
    a built-in operator that no registered transform overrides, and it
    returns the same result with and without the payloads and the
    context; and for plain inputs. *)
Theorem generate_target_id_derivation :
  forall (self : TransformEngine) (source_records : list SourceRecord)
         (mapping : EntityMapping) (target_service target_entity : string)
         (context : pydict),
    Forall (fun r => plain_source r = true) source_records ->
    Py.plain (VDict context) = true ->
    (forall fm, In fm (em_field_mappings mapping) -> fm_target_field fm = "id" ->
                plain_mapping fm = true
                /\ service_prefixed source_records (fm_source_field fm) = false) ->
    let combined_data := combine_sources source_records in
    let resolved := fun fm =>
      _get_source_value (fm_source_field fm) source_records combined_data in
    (forall pre fm post transform_func id,
        em_field_mappings mapping = (pre ++ fm :: post)%list ->
        (forall fm', In fm' pre -> fm_target_field fm' = "id" ->
                     Py.truthy (resolved fm') = false) ->
        fm_target_field fm = "id" ->
        Py.truthy (resolved fm) = true ->
        Dict.get (_custom_transforms self) (fm_transform fm) = None ->
        Dict.get _builtin_transforms (fm_transform fm) = Some transform_func ->
        transform_func (resolved fm) (fm_transform_config fm) combined_data context = Ok id ->
        transform_func (resolved fm) (fm_transform_config fm) [] [] = Ok id ->
        exists record,
          transform_record self source_records mapping target_service target_entity context
          = Ok record
          /\ tr_id record = id)
    /\ ((forall fm, In fm (em_field_mappings mapping) -> fm_target_field fm = "id" ->
                    Py.truthy (resolved fm) = false) ->
        forall first rest,
          source_records = first :: rest ->
          exists record,
            transform_record self source_records mapping target_service target_entity context
            = Ok record
            /\ tr_id record = VStr (sr_source_service first ++ "_" ++ Py.str (sr_id first))).
Proof.
  intros self rs mapping ts te context _ _ Hplain combined_data resolved.
  assert (forall fm, In fm (em_field_mappings mapping) -> fm_target_field fm = "id" ->
                     _get_source_value (fm_source_field fm) rs [] = resolved fm) as Hsame.
  { intros fm Hin Hid. destruct (Hplain fm Hin Hid) as [_ Hun].
    symmetry. apply get_source_value_unprefixed. exact Hun. }
  assert (forall id, _generate_target_id rs mapping = Ok id ->
                     exists record,
                       transform_record self rs mapping ts te context = Ok record
                       /\ tr_id record = id) as Hrecord.
  { intros id Hid. unfold transform_record. rewrite Hid. cbn [bind].
    eexists. split; reflexivity. }
  split.
  - intros pre fm post f id Hsplit Hpre Htarget Htruthy _ Hbuiltin _ Hid.
    apply Hrecord. unfold _generate_target_id. rewrite Hsplit.
    assert (In fm (em_field_mappings mapping)) as Hin
        by (rewrite Hsplit; apply in_or_app; right; left; reflexivity).
    rewrite (id_from_mappings_first pre fm post rs).
    + rewrite Hbuiltin, (Hsame fm Hin Htarget). exact Hid.
    + intros fm' Hin'. unfold id_candidate.
      destruct (String.eqb_spec (fm_target_field fm') "id") as [E | NE]; [| reflexivity].
      assert (In fm' (em_field_mappings mapping)) as Hin''
          by (rewrite Hsplit; apply in_or_app; left; exact Hin').
      rewrite (Hsame fm' Hin'' E). exact (Hpre fm' Hin' E).
    + unfold id_candidate. rewrite Htarget, (Hsame fm Hin Htarget), Htruthy. reflexivity.
  - intros Hnone first rest Hrs.
    apply Hrecord. unfold _generate_target_id.
    rewrite (id_from_mappings_none (em_field_mappings mapping) rs).
    + rewrite Hrs. reflexivity.
    + intros fm Hin. unfold id_candidate.
      destruct (String.eqb_spec (fm_target_field fm) "id") as [E | NE]; [| reflexivity].
      rewrite (Hsame fm Hin E). exact (Hnone fm Hin E).
Qed.

End TargetId.

(** A mapping whose [id] is the customer's id with a prefix, and one
    without a field mapping that targets [id]. *)
Lemma generate_target_id_derivation_witness :
  (exists record,
      Transformer.transform_record (rt := reference_runtime) Examples.engine
        [Examples.stripe_jane]
        (Examples.mapping_of [Examples.direct "email" "email"; Examples.prefixed_id])
        "chargebee" "customer" [] = Ok record
      /\ tr_id record = VStr "cb_cus_1")
  /\ (exists record,
        Transformer.transform_record (rt := reference_runtime) Examples.engine
          [Examples.stripe_jane] (Examples.mapping_of [Examples.direct "email" "email"])
          "chargebee" "customer" [] = Ok record
        /\ tr_id record = VStr "stripe_cus_1").
Proof.
  split.
  - destruct (generate_target_id_derivation (rt := reference_runtime) Examples.engine
                [Examples.stripe_jane]
                (Examples.mapping_of [Examples.direct "email" "email"; Examples.prefixed_id])
                "chargebee" "customer" [])
      as [H _].
    + repeat constructor.
    + reflexivity.
    + intros fm [E | [E | []]] Hid; subst fm; [discriminate Hid |].
      split; vm_compute; reflexivity.
    + apply (H [Examples.direct "email" "email"] Examples.prefixed_id []
               (Transformer._transform_prefix_add (rt := reference_runtime))
               (VStr "cb_cus_1")).
      * reflexivity.
      * intros fm' [E | []] Hid. subst fm'. discriminate Hid.
      * reflexivity.
      * reflexivity.
      * reflexivity.
      * reflexivity.
      * reflexivity.
      * reflexivity.
  - destruct (generate_target_id_derivation (rt := reference_runtime) Examples.engine
                [Examples.stripe_jane]
                (Examples.mapping_of [Examples.direct "email" "email"])
                "chargebee" "customer" [])
      as [_ H].
    + repeat constructor.
    + reflexivity.
    + intros fm [E | []] Hid. subst fm. discriminate Hid.
    + refine (H _ Examples.stripe_jane [] eq_refl).
      intros fm [E | []] Hid. subst fm. discriminate Hid.
Defined.

(** C5 as stated fails: the mapping has a field mapping that targets
    [id]; its source value is absent, its transform applied to that
    value gives the configured default, and the id is synthesized from
    the source record all the same. *)
Lemma generate_target_id_absent_source :
  In Examples.defaulted_id (em_field_mappings (Examples.mapping_of [Examples.defaulted_id]))
  /\ fm_target_field Examples.defaulted_id = "id"
  /\ Transformer._get_source_value (fm_source_field Examples.defaulted_id)
       [Examples.stripe_jane] (Transformer.combine_sources [Examples.stripe_jane]) = VNone
  /\ Transformer._transform_default VNone (fm_transform_config Examples.defaulted_id) [] []
     = Ok (VStr "fallback-id")
  /\ Transformer._generate_target_id (rt := reference_runtime) [Examples.stripe_jane]
       (Examples.mapping_of [Examples.defaulted_id])
     = Ok (VStr "stripe_cus_1").
Proof.
  split; [left; reflexivity |]. repeat split; reflexivity.
Qed.

(** ** Nested writes *)

Section NestedWriteFacts.

Lemma py_get_set_same :
  forall (d : pydict) k v, Py.get (Dict.set d k v) k = v.
Proof.
  intros d k v. unfold Py.get. rewrite dict_get_set, String.eqb_refl. reflexivity.
Qed.

Lemma nested_step_plain :
  forall d part,
    plain_segment part ->
    Transformer.nested_step (VDict d) part = Py.get d part.
Proof.
  intros d part Hp. unfold Transformer.nested_step. simpl Py.is_none. cbv iota.
  unfold plain_segment in Hp. rewrite Hp. reflexivity.
Qed.

Lemma set_nested_parts_step :
  forall part next rest current value,
    Transformer.set_nested_parts (part :: next :: rest) current value
    = match Dict.get current part with
      | None =>
          do sub <- Transformer.set_nested_parts (next :: rest) [] value ;;
          Ok (Dict.set current part (VDict sub))
      | Some (VDict sub) =>
          do sub' <- Transformer.set_nested_parts (next :: rest) sub value ;;
          Ok (Dict.set current part (VDict sub'))
      | Some _ => Raise TypeError
      end.
Proof. reflexivity. Qed.

Lemma set_nested_parts_read :
  forall parts current value d,
    parts <> [] ->
    Forall plain_segment parts ->
    Transformer.set_nested_parts parts current value = Ok d ->
    fold_left Transformer.nested_step parts (VDict d) = value.
Proof.
  induction parts as [| part rest IH]; intros current value d Hne Hplain Hset.
  - contradiction.
  - inversion Hplain as [| ? ? Hpart Hrest]; subst.
    destruct rest as [| next rest].
    + simpl in Hset. injection Hset as <-. simpl.
      rewrite (nested_step_plain _ _ Hpart). apply py_get_set_same.
    + assert (forall sub0 sub,
                 Transformer.set_nested_parts (next :: rest) sub0 value = Ok sub ->
                 fold_left Transformer.nested_step (part :: next :: rest)
                   (VDict (Dict.set current part (VDict sub))) = value) as Hstep.
      { intros sub0 sub Hsub.
        change (fold_left Transformer.nested_step (next :: rest)
                  (Transformer.nested_step (VDict (Dict.set current part (VDict sub))) part)
                = value).
        rewrite (nested_step_plain _ _ Hpart), py_get_set_same.
        apply (IH sub0 value sub); [intro Hnil; discriminate Hnil | exact Hrest | exact Hsub]. }
      rewrite set_nested_parts_step in Hset.
      destruct (Dict.get current part) as [[| | | | | | sub0] |] eqn:Hget;
        try discriminate Hset.
      * destruct (Transformer.set_nested_parts (next :: rest) sub0 value) as [sub |] eqn:Hsub;
          cbn [bind] in Hset; [| discriminate Hset].
        injection Hset as <-. exact (Hstep _ _ Hsub).
      * destruct (Transformer.set_nested_parts (next :: rest) [] value) as [sub |] eqn:Hsub;
          cbn [bind] in Hset; [| discriminate Hset].
        injection Hset as <-. exact (Hstep _ _ Hsub).
Qed.

Lemma set_nested_parts_other :
  forall parts current value d key,
    Transformer.set_nested_parts parts current value = Ok d ->
    key <> hd "" parts ->
    Dict.get d key = Dict.get current key.
Proof.
  intros parts current value d key Hset Hkey.
  destruct parts as [| part rest]; [simpl in Hset; congruence |].
  simpl hd in Hkey.
  assert (forall v, Dict.get (Dict.set current part v) key = Dict.get current key) as Hother.
  { intros v. rewrite dict_get_set.
    destruct (String.eqb_spec key part); [contradiction | reflexivity]. }
  destruct rest as [| next rest].
  - simpl in Hset. injection Hset as <-. apply Hother.
  - rewrite set_nested_parts_step in Hset.
    destruct (Dict.get current part) as [[| | | | | | sub0] |];
      try discriminate Hset;
      match type of Hset with
      | bind ?r _ = _ => destruct r; cbn [bind] in Hset; [| discriminate Hset]
      end;
      injection Hset as <-; apply Hother.
Qed.

Lemma split_cons : forall sep s, exists p ps, Str.split sep s = p :: ps.
Proof.
  intros sep s. unfold Str.split. destruct (Str.split_go sep s 0) as [p ps].
  exists p, ps. reflexivity.
Qed.

End NestedWriteFacts.

(** ** Unknown transform names *)

Section UnknownTransform.
Context {rt : PyRuntime}.

Import Transformer.






End UnknownTransform.



(** ** Operators on an absent input *)

Section AbsentInput.
Context {rt : PyRuntime}.

Import Transformer.

(** The first value found by [find] is the first that is not null. *)
Lemma find_first_non_null :
  forall candidates,
    first_non_null candidates
      (match find (fun v => negb (Py.is_none v)) candidates with
       | Some v => v
       | None => VNone
       end).
Proof.
  induction candidates as [| x rest IH]; simpl.
  - right. split; [reflexivity | constructor].
  - destruct (Py.is_none x) eqn:Ex; simpl.
    + apply is_none_true in Ex. subst x.
      destruct IH as [[pre [post [E [Hpre Hne]]]] | [E Hall]].
      * left. exists (VNone :: pre), post. rewrite E at 1.
        split; [reflexivity |]. split; [constructor; [reflexivity | exact Hpre] | exact Hne].
      * right. split; [exact E | constructor; [reflexivity | exact Hall]].
    + apply is_none_false in Ex. left. exists [], rest.
      split; [reflexivity |]. split; [constructor | exact Ex].
Qed.

Lemma first_non_null_app_none :
  forall l1 l2 v,
    first_non_null l1 VNone -> first_non_null l2 v -> first_non_null (l1 ++ l2)%list v.
Proof.
  intros l1 l2 v [[pre [post [_ [_ Hne]]]] | [_ Hall1]] H2; [contradiction Hne; reflexivity |].
  destruct H2 as [[pre [post [E [Hpre Hne]]]] | [E Hall2]].
  - left. exists (l1 ++ pre)%list, post. rewrite E, app_assoc.
    split; [reflexivity |]. split; [| exact Hne].
    apply Forall_app. split; assumption.
  - right. split; [exact E |]. apply Forall_app. split; assumption.
Qed.

Lemma first_non_null_app_found :
  forall l1 l2 v,
    first_non_null l1 v -> v <> VNone -> first_non_null (l1 ++ l2)%list v.
Proof.
  intros l1 l2 v [[pre [post [E [Hpre Hne]]]] | [E _]] Hv; [| contradiction].
  left. exists pre, (post ++ l2)%list. rewrite E, <- app_assoc.
  split; [reflexivity |]. split; assumption.
Qed.

(** The loop over the payloads finds the first value that is not null. *)
Lemma first_in_services_lookup :
  forall data path,
    exists found,
      first_in_services data (VStr path) = Ok found
      /\ first_non_null (lookups data path) found.
Proof.
  intros data path. unfold first_in_services, lookups.
  destruct (Dict.values data) as [| payload payloads] eqn:E.
  - exists VNone. split; [reflexivity |]. right. split; [reflexivity | constructor].
  - eexists. split; [reflexivity |]. apply find_first_non_null.
Qed.

Lemma strings_of :
  forall l, Forall is_str l -> exists fields, l = map VStr fields.
Proof.
  induction l as [| x l IH]; intros Hall.
  - exists []. reflexivity.
  - inversion Hall as [| ? ? [s Hs] Hrest]; subst.
    destruct (IH Hrest) as [fields E]. exists (s :: fields). rewrite E. reflexivity.
Qed.

Lemma dicts_of :
  forall l, Forall is_dict l -> exists rules, l = map VDict rules.
Proof.
  induction l as [| x l IH]; intros Hall.
  - exists []. reflexivity.
  - inversion Hall as [| ? ? [d Hd] Hrest]; subst.
    destruct (IH Hrest) as [rules E]. exists (d :: rules). rewrite E. reflexivity.
Qed.

Lemma map_VStr_inj : forall a b, map VStr a = map VStr b -> a = b.
Proof.
  induction a as [| x a IH]; intros [| y b] E; try discriminate E; [reflexivity |].
  simpl in E. injection E as -> E. rewrite (IH b E). reflexivity.
Qed.

Lemma map_VDict_inj : forall a b, map VDict a = map VDict b -> a = b.
Proof.
  induction a as [| x a IH]; intros [| y b] E; try discriminate E; [reflexivity |].
  simpl in E. injection E as -> E. rewrite (IH b E). reflexivity.
Qed.

(** The loop of [coalesce_fields]: fields in order, payloads in order
    for each. *)
Lemma first_of_fields_lookup :
  forall fields data,
    exists v,
      first_of_fields (map VStr fields) data = Ok v
      /\ first_non_null (flat_map (lookups data) fields) v.
Proof.
  induction fields as [| field fields IH]; intros data; simpl.
  - exists VNone. split; [reflexivity |]. right. split; [reflexivity | constructor].
  - destruct (first_in_services_lookup data field) as [found [Hrun Hfound]].
    rewrite Hrun. cbn [bind].
    destruct (Py.is_none found) eqn:Ef.
    + apply is_none_true in Ef. subst found.
      destruct (IH data) as [v [Hv Hspec]]. exists v. split; [exact Hv |].
      apply first_non_null_app_none; assumption.
    + apply is_none_false in Ef. exists found. split; [reflexivity |].
      apply first_non_null_app_found; assumption.
Qed.

(** One rule of [conditional] on an absent input. *)
Lemma conditional_rules_step :
  forall rule rules data,
    conditional_rules (VDict rule :: rules) VNone data
    = match rule_answer rule data with
      | Some answer => Ok answer
      | None => conditional_rules rules VNone data
      end.
Proof.
  intros rule rules data. unfold rule_answer, Py.get.
  cbn [conditional_rules str_in bind subscript_str attr_get Py.str Py.repr].
  unfold Dict.contains, Py.get.
  destruct (Dict.get rule "value") as [cv |]; cbn [bind andb].
  - destruct (String.eqb "None" (Py.str cv)); [reflexivity |].
    destruct (Dict.get rule "if") as [c |]; cbn [bind andb].
    + destruct (_evaluate_condition_val c data); [reflexivity |].
      destruct (Dict.get rule "default"); reflexivity.
    + destruct (Dict.get rule "default"); reflexivity.
  - destruct (Dict.get rule "if") as [c |]; cbn [bind andb].
    + destruct (_evaluate_condition_val c data); [reflexivity |].
      destruct (Dict.get rule "default"); reflexivity.
    + destruct (Dict.get rule "default"); reflexivity.
Qed.

Lemma conditional_rules_answer :
  forall rules data,
    exists v,
      conditional_rules (map VDict rules) VNone data = Ok v
      /\ first_answer rules data v.
Proof.
  induction rules as [| rule rules IH]; intros data.
  - exists VNone. split; [reflexivity |]. right. split; [reflexivity | constructor].
  - cbn [map]. rewrite conditional_rules_step.
    destruct (rule_answer rule data) as [answer |] eqn:Ea.
    + exists answer. split; [reflexivity |]. left. exists [], rule, rules.
      split; [reflexivity |]. split; [constructor | exact Ea].
    + destruct (IH data) as [v [Hv Hspec]]. exists v. split; [exact Hv |].
      destruct Hspec as [[pre [r [post [E [Hpre Hr]]]]] | [E Hall]].
      * left. exists (rule :: pre), r, post. rewrite E.
        split; [reflexivity |]. split; [constructor; assumption | exact Hr].
      * right. split; [exact E | constructor; assumption].
Qed.

(** The loop of [compile_metadata] and [merge]: every key whose path
    finds a value gets it. *)
Lemma gather_lookup :
  forall fields data acc,
    Forall (fun kv => is_str (snd kv)) fields ->
    NoDup (Dict.keys fields) ->
    exists r,
      gather fields data acc = Ok r
      /\ forall key,
           match Dict.get fields key with
           | Some (VStr path) =>
               exists found,
                 first_non_null (lookups data path) found
                 /\ Dict.get r key = if Py.is_none found then Dict.get acc key else Some found
           | _ => Dict.get r key = Dict.get acc key
           end.
Proof.
  induction fields as [| [k path] fields IH]; intros data acc Hall Hnd.
  - exists acc. split; [reflexivity |]. intros key. reflexivity.
  - inversion Hall as [| ? ? [p Hp] Hrest]; subst. simpl in Hp. subst path.
    inversion Hnd as [| ? ? Hnotin Hnd']; subst.
    cbn [gather].
    destruct (first_in_services_lookup data p) as [found [Hrun Hfound]].
    rewrite Hrun. cbn [bind].
    destruct (IH data (if Py.is_none found then acc else Dict.set acc k found) Hrest Hnd')
      as [r [Hr Hspec]].
    exists r. split; [exact Hr |].
    intros key. cbn [Dict.get]. specialize (Hspec key).
    destruct (String.eqb_spec key k) as [E | NE].
    + subst key. rewrite (dict_get_absent fields k Hnotin) in Hspec.
      exists found. split; [exact Hfound |]. rewrite Hspec.
      destruct (Py.is_none found); [reflexivity |].
      rewrite dict_get_set, String.eqb_refl. reflexivity.
    + assert (Dict.get (if Py.is_none found then acc else Dict.set acc k found) key
              = Dict.get acc key) as Hacc.
      { destruct (Py.is_none found); [reflexivity |]. rewrite dict_get_set.
        destruct (String.eqb_spec key k); [contradiction | reflexivity]. }
      destruct (Dict.get fields key) as [[| | | | path | |] |];
        try (rewrite Hspec; exact Hacc).
      destruct Hspec as [found' [Hfound' Hget]]. exists found'.
      split; [exact Hfound' |]. rewrite Hget.
      destruct (Py.is_none found'); [exact Hacc | reflexivity].
Qed.

(** C8, as the code has it.  Every built-in operator applied to an
    absent input returns normally, for every configuration of the
    expected shape and plain payloads, whatever the context.  The
    result is absent for the operators that pass an absent value
    through, the configured default for [enum_map] and [default], the
    configured false label for [boolean_to_enum].  For [coalesce] it is
    the first value the payloads hold at the fallback field, with the
    suffix appended to its text if one is configured, and absent if
    there is none or no fallback field is named; for [coalesce_fields]
    the first value the payloads hold at one of the fallback fields,
    field by field, absent if there is none; for [conditional] what the
    first rule that answers says, absent if none does; for
    [compile_metadata] the object of the values found at the source
    fields, absent if none is found. *)
Theorem builtin_transforms_absent_input :
  forall (name : string) (transform_func : transform_fn)
         (config : pydict) (data : dict pydict) (ctx : pydict),
    Dict.get _builtin_transforms name = Some transform_func ->
    config_well_formed config ->
    plain_payloads data ->
    exists v,
      transform_func VNone config data ctx = Ok v
      /\ (preserves_absent name = true -> v = VNone)
      /\ (name = "enum_map" -> v = Py.get config "default")
      /\ (name = "default" -> v = Py.get config "value")
      /\ (name = "boolean_to_enum" ->
          v = Py.por (Py.get config "false_value") (Py.get config "false"))
      /\ (name = "coalesce" ->
          (Py.truthy (Py.get config "fallback_field") = false -> v = VNone)
          /\ forall path,
               Py.get config "fallback_field" = VStr path -> path <> "" ->
               exists found,
                 first_non_null (lookups data path) found
                 /\ v = if Py.is_none found then VNone
                        else
                          let suffix := Py.get_or config "fallback_suffix" (VStr "") in
                          if Py.truthy suffix
                          then VStr (Py.str found ++ Py.str suffix)
                          else found)
      /\ (name = "coalesce_fields" ->
          forall fields,
            Py.get_or config "fallback_fields" (VList []) = VList (map VStr fields) ->
            first_non_null (flat_map (lookups data) fields) v)
      /\ (name = "conditional" ->
          forall rules,
            Py.get_or config "conditions" (VList []) = VList (map VDict rules) ->
            first_answer rules data v)
      /\ (name = "compile_metadata" ->
          forall fields,
            Py.get_or config "source_fields" (VDict []) = VDict fields ->
            exists r,
              v = match r with [] => VNone | _ => VDict r end
              /\ forall key,
                   match Dict.get fields key with
                   | Some (VStr path) =>
                       exists found,
                         first_non_null (lookups data path) found
                         /\ Dict.get r key = if Py.is_none found then None else Some found
                   | _ => Dict.get r key = None
                   end).
Proof.
  intros name f config data ctx Hget [_ [Hfield [Hfields [Hrules Hsources]]]] _.
  unfold _builtin_transforms in Hget. cbn [Dict.get] in Hget.
  repeat match type of Hget with
         | (if String.eqb name ?s then _ else _) = _ =>
             destruct (String.eqb_spec name s) as [E | _];
             [ subst name; inversion Hget; subst f; clear Hget | ]
         end;
    try discriminate Hget;
    try (exists VNone; split; [reflexivity |];
         repeat split; intros; try reflexivity; discriminate).
  - (* enum_map *)
    eexists. split; [reflexivity |]. repeat split; intros; try reflexivity; discriminate.
  - (* boolean_to_enum *)
    eexists. split; [reflexivity |]. repeat split; intros; try reflexivity; discriminate.
  - (* default *)
    eexists. split; [reflexivity |]. repeat split; intros; try reflexivity; discriminate.
  - (* coalesce *)
    unfold _transform_coalesce. simpl negb. cbv iota.
    destruct (Py.truthy (Py.get config "fallback_field")) eqn:Et.
    + destruct (Hfield eq_refl) as [path Hpath]. rewrite Hpath.
      destruct (first_in_services_lookup data path) as [found [Hrun Hfound]].
      rewrite Hrun. cbn [bind].
      exists (if Py.is_none found then VNone
              else if Py.truthy (Py.get_or config "fallback_suffix" (VStr ""))
                   then VStr (Py.str found
                              ++ Py.str (Py.get_or config "fallback_suffix" (VStr "")))
                   else found).
      split; [destruct (Py.is_none found); reflexivity |].
      do 4 (split; [intros; discriminate |]).
      split; [| repeat split; intros; discriminate].
      intros _. split; [intros H; discriminate H |].
      intros path' E Hne. injection E as <-.
      exists found. split; [exact Hfound | reflexivity].
    + exists VNone. split; [reflexivity |].
      do 4 (split; [intros; discriminate |]).
      split; [| repeat split; intros; discriminate].
      intros _. split; [reflexivity |].
      intros path E Hne. rewrite E in Et. simpl in Et.
      destruct path; [contradiction Hne; reflexivity | discriminate Et].
  - (* coalesce_fields *)
    unfold _transform_coalesce_fields. simpl negb. cbv iota.
    assert (exists fields,
               Py.get_or config "fallback_fields" (VList []) = VList (map VStr fields))
      as [fields Hcfg].
    { unfold Py.get_or. destruct (Dict.get config "fallback_fields") as [v |] eqn:E.
      - destruct (Hfields v eq_refl) as [l [-> Hall]].
        destruct (strings_of l Hall) as [fields ->]. exists fields. reflexivity.
      - exists []. reflexivity. }
    rewrite Hcfg. cbn [iterate bind].
    destruct (first_of_fields_lookup fields data) as [v [Hv Hspec]].
    exists v. split; [exact Hv |].
    do 5 (split; [intros; discriminate |]).
    split; [| repeat split; intros; discriminate].
    intros _ fields' E. injection E as E. apply map_VStr_inj in E. subst fields'.
    exact Hspec.
  - (* conditional *)
    unfold _transform_conditional.
    assert (exists rules,
               Py.get_or config "conditions" (VList []) = VList (map VDict rules))
      as [rules Hcfg].
    { unfold Py.get_or. destruct (Dict.get config "conditions") as [v |] eqn:E.
      - destruct (Hrules v eq_refl) as [l [-> Hall]].
        destruct (dicts_of l Hall) as [rules ->]. exists rules. reflexivity.
      - exists []. reflexivity. }
    rewrite Hcfg. cbn [iterate bind].
    destruct (conditional_rules_answer rules data) as [v [Hv Hspec]].
    exists v. split; [exact Hv |].
    do 6 (split; [intros; discriminate |]).
    split; [| intros; discriminate].
    intros _ rules' E. injection E as E. apply map_VDict_inj in E. subst rules'.
    exact Hspec.
  - (* compile_metadata *)
    unfold _transform_compile_metadata.
    assert (exists fields,
               Py.get_or config "source_fields" (VDict []) = VDict fields
               /\ Forall (fun kv => is_str (snd kv)) fields
               /\ NoDup (Dict.keys fields))
      as [fields [Hcfg [Hall Hnd]]].
    { unfold Py.get_or. destruct (Dict.get config "source_fields") as [v |] eqn:E.
      - destruct (Hsources v eq_refl) as [d [-> [Hall Hnd]]]. exists d. auto.
      - exists []. split; [reflexivity |]. split; constructor. }
    rewrite Hcfg. cbn [items bind].
    destruct (gather_lookup fields data [] Hall Hnd) as [r [Hr Hspec]].
    rewrite Hr. cbn [bind].
    eexists. split; [reflexivity |].
    do 7 (split; [intros; discriminate |]).
    intros _ fields' E. injection E as <-.
    exists r. split; [reflexivity |]. exact Hspec.
Qed.

End AbsentInput.

(** [coalesce] on an absent input finds the address in the payload,
    [conditional] gives what its first rule says of an absent input,
    and [compile_metadata] collects the plan. *)
Lemma builtin_transforms_absent_input_witness :
  (exists v,
      Transformer._transform_coalesce (rt := reference_runtime) VNone
        [("fallback_field", VStr "email")] Cases.payloads [] = Ok v
      /\ exists found,
           first_non_null (lookups Cases.payloads "email") found
           /\ v = if Py.is_none found then VNone else found)
  /\ (exists v,
        Transformer._transform_conditional (rt := reference_runtime) VNone
          [("conditions", VList [VDict [("value", VNone); ("result", VStr "unknown")]])]
          Cases.payloads [] = Ok v
        /\ first_answer (rt := reference_runtime)
             [[("value", VNone); ("result", VStr "unknown")]] Cases.payloads v)
  /\ (exists v,
        Transformer._transform_compile_metadata VNone
          [("source_fields", VDict [("plan", VStr "plan.name")])] Cases.payloads [] = Ok v
        /\ exists r,
             v = match r with [] => VNone | _ => VDict r end
             /\ exists found,
                  first_non_null (lookups Cases.payloads "plan.name") found
                  /\ Dict.get r "plan" = if Py.is_none found then None else Some found).
Proof.
  assert (plain_payloads Cases.payloads) as Hdata by (repeat constructor).
  assert (forall config,
             Transformer.plain_config config = true ->
             Py.truthy (Py.get config "fallback_field") = true
             \/ Dict.get config "fallback_field" = None ->
             (Py.truthy (Py.get config "fallback_field") = true ->
              is_str (Py.get config "fallback_field")) ->
             Dict.get config "fallback_fields" = None ->
             (forall v, Dict.get config "conditions" = Some v ->
                        exists l, v = VList l /\ Forall is_dict l) ->
             (forall v, Dict.get config "source_fields" = Some v ->
                        exists d, v = VDict d /\ Forall (fun kv => is_str (snd kv)) d
                                  /\ NoDup (Dict.keys d)) ->
             config_well_formed config) as Hwf.
  { intros config H1 _ H2 H3 H4 H5. split; [exact H1 |]. split; [exact H2 |].
    split; [intros v E; rewrite H3 in E; discriminate E |]. split; assumption. }
  split; [| split].
  - destruct (builtin_transforms_absent_input (rt := reference_runtime)
                "coalesce" (Transformer._transform_coalesce (rt := reference_runtime))
                [("fallback_field", VStr "email")] Cases.payloads [] eq_refl)
      as [v [Hv [_ [_ [_ [_ [Hc _]]]]]]].
    + apply Hwf; try reflexivity.
      * left. reflexivity.
      * intros _. exists "email". reflexivity.
      * intros v E. discriminate E.
      * intros v E. discriminate E.
    + exact Hdata.
    + exists v. split; [exact Hv |].
      destruct (Hc eq_refl) as [_ H]. apply (H "email"); [reflexivity | discriminate].
  - destruct (builtin_transforms_absent_input (rt := reference_runtime)
                "conditional" (Transformer._transform_conditional (rt := reference_runtime))
                [("conditions", VList [VDict [("value", VNone); ("result", VStr "unknown")]])]
                Cases.payloads [] eq_refl)
      as [v [Hv [_ [_ [_ [_ [_ [_ [Hc _]]]]]]]]].
    + apply Hwf; try reflexivity.
      * right. reflexivity.
      * intros H. discriminate H.
      * intros v E. injection E as <-. eexists. split; [reflexivity |].
        repeat constructor. eexists. reflexivity.
      * intros v E. discriminate E.
    + exact Hdata.
    + exists v. split; [exact Hv |].
      apply (Hc eq_refl [[("value", VNone); ("result", VStr "unknown")]]). reflexivity.
  - destruct (builtin_transforms_absent_input (rt := reference_runtime)
                "compile_metadata"
                Transformer._transform_compile_metadata
                [("source_fields", VDict [("plan", VStr "plan.name")])]
                Cases.payloads [] eq_refl)
      as [v [Hv [_ [_ [_ [_ [_ [_ [_ Hc]]]]]]]]].
    + apply Hwf; try reflexivity.
      * right. reflexivity.
      * intros H. discriminate H.
      * intros v E. discriminate E.
      * intros v E. injection E as <-. eexists. split; [reflexivity |].
        split; [repeat constructor; eexists; reflexivity |].
        repeat constructor. intros [].
    + exact Hdata.
    + exists v. split; [exact Hv |].
      destruct (Hc eq_refl [("plan", VStr "plan.name")] eq_refl) as [r [Hr Hkeys]].
      exists r. split; [exact Hr |]. exact (Hkeys "plan").
Defined.

(** C8 as stated fails: on an absent input, [compile_metadata] raises
    when [source_fields] is a list, and [coalesce] raises when
    [fallback_field] is a number and there is a payload to look in. *)
Lemma builtin_transform_raises_on_absent_input :
  (exists f,
      Dict.get (Transformer._builtin_transforms (rt := reference_runtime)) "compile_metadata"
      = Some f
      /\ f VNone [("source_fields", VList [VStr "email"])] [] [] = Raise AttributeError)
  /\ (exists f,
        Dict.get (Transformer._builtin_transforms (rt := reference_runtime)) "coalesce"
        = Some f
        /\ f VNone [("fallback_field", VInt 5)]
             [("stripe", [("email", VStr "jane@x.com")])] []
           = Raise AttributeError).
Proof.
  split; eexists; (split; [reflexivity |]); reflexivity.
Qed.

(** ** The epoch-seconds and ISO-datetime conversions *)

Section RoundTrip.
Context {rt : PyRuntime}.

Import Transformer.
Import Datetime.

Open Scope Z_scope.

(** Linear arithmetic with quotients and remainders by constants. *)
Ltac div_lia := Z.to_euclidean_division_equations; lia.

(** *** The calendar *)

Lemma month_day_checked :
  forall leap n, 0 <= n < 365 -> month_day_check leap n = true.
Proof.
  intros leap n Hn.
  assert (forallb (fun k => month_day_check leap (Z.of_nat k)) (seq 0 365) = true) as H.
  { destruct leap; vm_compute; reflexivity. }
  rewrite forallb_forall in H.
  specialize (H (Z.to_nat n)). rewrite Z2Nat.id in H by lia.
  apply H. apply in_seq. lia.
Qed.

Lemma month_day_correct :
  forall leap n m d,
    0 <= n < 365 ->
    month_day leap n = (m, d) ->
    1 <= m <= 12 /\ 1 <= d <= days_in_month_of leap m
    /\ days_before_month_of leap m + d = n + 1.
Proof.
  intros leap n m d Hn Hmd.
  pose proof (month_day_checked leap n Hn) as H.
  unfold month_day_check in H. rewrite Hmd in H.
  repeat (apply andb_true_iff in H; destruct H as [H ?]).
  repeat match goal with
         | H : (_ <=? _) = true |- _ => apply Z.leb_le in H
         | H : (_ =? _) = true |- _ => apply Z.eqb_eq in H
         end.
  lia.
Qed.

Lemma is_leap_true :
  forall y, is_leap y = true <-> (y mod 4 = 0 /\ (y mod 100 <> 0 \/ y mod 400 = 0)).
Proof.
  intros y. unfold is_leap.
  rewrite andb_true_iff, orb_true_iff, negb_true_iff, !Z.eqb_eq, Z.eqb_neq. reflexivity.
Qed.

Lemma ord2ymd_correct :
  forall ordinal y m d,
    1 <= ordinal <= max_ordinal ->
    ord2ymd ordinal = (y, m, d) ->
    1 <= y <= 9999 /\ 1 <= m <= 12 /\ 1 <= d <= days_in_month y m
    /\ ymd2ord y m d = ordinal.
Proof.
  intros ordinal y m d Hr H. unfold max_ordinal in Hr.
  unfold ord2ymd, DI400Y, DI100Y, DI4Y in H. cbv zeta in H.
  remember (ordinal - 1) as n eqn:En.
  remember (n / 146097) as n400 eqn:E400.
  remember (n mod 146097) as r1 eqn:Er1.
  remember (r1 / 36524) as n100 eqn:E100.
  remember (r1 mod 36524) as r2 eqn:Er2.
  remember (r2 / 1461) as n4 eqn:E4.
  remember (r2 mod 1461) as r3 eqn:Er3.
  remember (r3 / 365) as n1 eqn:E1.
  remember (r3 mod 365) as r4 eqn:Er4.
  assert (n = 146097 * n400 + r1 /\ 0 <= r1 < 146097
          /\ r1 = 36524 * n100 + r2 /\ 0 <= r2 < 36524
          /\ r2 = 1461 * n4 + r3 /\ 0 <= r3 < 1461
          /\ r3 = 365 * n1 + r4 /\ 0 <= r4 < 365) as Hdiv.
  { subst n400 r1 n100 r2 n4 r3 n1 r4.
    repeat split;
      try (apply Z.div_mod; lia);
      try (apply Z.mod_pos_bound; lia). }
  clear E400 Er1 E100 Er2 E4 Er3 E1 Er4.
  destruct Hdiv as [H1 [B1 [H2 [B2 [H3 [B3 [H4 B4]]]]]]].
  destruct ((n1 =? 4) || (n100 =? 4)) eqn:Esp.
  - inversion H; subst y m d; clear H.
    assert (is_leap (n400 * 400 + 1 + n100 * 100 + n4 * 4 + n1 - 1) = true) as Hleap.
    { apply is_leap_true.
      apply orb_true_iff in Esp. rewrite !Z.eqb_eq in Esp.
      div_lia. }
    unfold ymd2ord, days_before_year, days_before_month, days_in_month,
           days_before_month_of, days_in_month_of.
    rewrite Hleap. simpl.
    apply orb_true_iff in Esp. rewrite !Z.eqb_eq in Esp.
    div_lia.
  - apply orb_false_iff in Esp. rewrite !Z.eqb_neq in Esp. destruct Esp as [Hn1 Hn100].
    set (leap := (n1 =? 3) && (negb (n4 =? 24) || (n100 =? 3))) in *.
    destruct (month_day leap r4) as [mm dd] eqn:Emd.
    inversion H; subst y m d; clear H.
    destruct (month_day_correct leap r4 mm dd B4 Emd) as [Hm [Hd Hsum]].
    assert (is_leap (n400 * 400 + 1 + n100 * 100 + n4 * 4 + n1) = leap) as Hleap.
    { destruct leap eqn:El; subst leap.
      - apply is_leap_true.
        apply andb_true_iff in El. destruct El as [El1 El2].
        apply orb_true_iff in El2. rewrite negb_true_iff, Z.eqb_neq, !Z.eqb_eq in *.
        div_lia.
      - apply not_true_is_false. intros Hl. apply is_leap_true in Hl.
        apply andb_false_iff in El.
        rewrite orb_false_iff, negb_false_iff, !Z.eqb_neq, Z.eqb_eq in El.
        div_lia. }
    unfold ymd2ord, days_before_year, days_before_month, days_in_month.
    rewrite Hleap.
    div_lia.
Qed.


(** *** Integers as floats *)

Lemma digits2_pos_lower : forall p, 2 ^ (Zpos (digits2_pos p) - 1) <= Zpos p.
Proof.
  induction p as [p IH | p IH |]; simpl digits2_pos.
  - rewrite Pos2Z.inj_succ. replace (Z.succ (Zpos (digits2_pos p)) - 1)
      with (Z.succ (Zpos (digits2_pos p) - 1)) by lia.
    rewrite Z.pow_succ_r by lia. lia.
  - rewrite Pos2Z.inj_succ. replace (Z.succ (Zpos (digits2_pos p)) - 1)
      with (Z.succ (Zpos (digits2_pos p) - 1)) by lia.
    rewrite Z.pow_succ_r by lia. lia.
  - simpl. lia.
Qed.

Lemma digits2_pos_bound :
  forall p, Zpos p < 2 ^ 53 -> Zpos (digits2_pos p) <= 53.
Proof.
  intros p H. pose proof (digits2_pos_lower p) as L.
  destruct (Z_le_gt_dec (Zpos (digits2_pos p)) 53) as [Hle | Hgt]; [exact Hle |].
  exfalso.
  assert (2 ^ 53 <= 2 ^ (Zpos (digits2_pos p) - 1)) by (apply Z.pow_le_mono_r; lia).
  lia.
Qed.

Lemma digits2_pos_iter :
  forall k p, digits2_pos (Pos.iter xO p k) = (digits2_pos p + k)%positive.
Proof.
  induction k as [| k IH] using Pos.peano_ind; intros p.
  - simpl. lia.
  - rewrite Pos.iter_succ. simpl digits2_pos. rewrite IH. lia.
Qed.

Lemma Zpos_iter :
  forall k p, Zpos (Pos.iter xO p k) = Zpos p * 2 ^ Zpos k.
Proof.
  induction k as [| k IH] using Pos.peano_ind; intros p.
  - simpl. lia.
  - rewrite Pos.iter_succ. rewrite Pos2Z.inj_xO, IH.
    rewrite Pos2Z.inj_succ, Z.pow_succ_r by lia. lia.
Qed.

Lemma binary_round_aux_exact :
  forall mz ez,
    Zpos (digits2_pos mz) = 53 -> -1074 <= ez <= 971 ->
    binary_round_aux Py.prec Py.emax false (Zpos mz) ez loc_Exact = S754_finite false mz ez.
Proof.
  intros mz ez Hd He.
  assert (fexp Py.prec Py.emax (Zdigits2 (Zpos mz) + ez) - ez = 0) as H0.
  { unfold fexp, emin, Zdigits2, Py.prec, Py.emax. rewrite Hd. lia. }
  unfold binary_round_aux, shr_fexp. rewrite H0. simpl shr.
  cbn [shr_record_of_loc shr_m loc_of_shr_record round_nearest_even].
  rewrite H0. simpl shr. cbn [shr_record_of_loc shr_m].
  unfold Py.prec, Py.emax.
  destruct (ez <=? 1024 - 53) eqn:E; [reflexivity |].
  apply Z.leb_gt in E. lia.
Qed.

(** [float(n)] is exact below 2^53. *)
Lemma float_of_Z_exact :
  forall p, Zpos p < 2 ^ 53 ->
    exists m e,
      Py.float_of_Z (Zpos p) = S754_finite false m e
      /\ e <= 0 /\ Zpos m = Zpos p * 2 ^ (- e).
Proof.
  intros p Hp.
  pose proof (digits2_pos_bound p Hp) as Hd.
  unfold Py.float_of_Z, binary_normalize, binary_round, shl_align.
  assert (fexp Py.prec Py.emax (Zpos (digits2_pos p) + 0) = Zpos (digits2_pos p) - 53) as Hf.
  { unfold fexp, emin, Py.prec, Py.emax. lia. }
  rewrite Hf.
  destruct (Zpos (digits2_pos p) - 53 - 0) as [| k | k] eqn:Ek.
  - exists p, 0. split; [| split; [lia | simpl; lia]].
    apply binary_round_aux_exact; lia.
  - lia.
  - exists (Pos.iter xO p k), (Zpos (digits2_pos p) - 53).
    split; [| split; [lia |]].
    + apply binary_round_aux_exact; [| lia].
      rewrite digits2_pos_iter. lia.
    + rewrite Zpos_iter. f_equal. f_equal. lia.
Qed.

Lemma int_of_float_of_Z :
  forall t, 0 <= t < 2 ^ 53 -> Py.int_of_float (Py.float_of_Z t) = Ok t.
Proof.
  intros t Ht. destruct t as [| p | p]; [reflexivity | | lia].
  destruct (float_of_Z_exact p) as [m [e [Hf [He Hm]]]]; [lia |].
  rewrite Hf. unfold Py.int_of_float, Py.signed.
  destruct (0 <=? e) eqn:E.
  - apply Z.leb_le in E. assert (e = 0) by lia. subst e. simpl in Hm. f_equal. simpl. lia.
  - rewrite Hm. rewrite Z.div_mul; [reflexivity |].
    apply Z.pow_nonzero; lia.
Qed.

Lemma modf_float_of_Z :
  forall t, 0 <= t < 2 ^ 53 ->
    Datetime.modf (Py.float_of_Z t) = Some (t, S754_zero false).
Proof.
  intros t Ht. destruct t as [| p | p]; [reflexivity | | lia].
  destruct (float_of_Z_exact p) as [m [e [Hf [He Hm]]]]; [lia |].
  rewrite Hf. unfold Datetime.modf, Py.signed.
  destruct (0 <=? e) eqn:E.
  - apply Z.leb_le in E. assert (e = 0) by lia. subst e. simpl in Hm.
    do 2 f_equal. simpl. lia.
  - rewrite Hm. rewrite Z.div_mul by (apply Z.pow_nonzero; lia).
    rewrite Z.mod_mul by (apply Z.pow_nonzero; lia). reflexivity.
Qed.

Lemma float_of_Z_finite :
  forall t, 0 <= t < 2 ^ 53 ->
    Py.float_of_Z t = S754_zero false \/ exists m e, Py.float_of_Z t = S754_finite false m e.
Proof.
  intros t Ht. destruct t as [| p | p]; [left; reflexivity | | lia].
  destruct (float_of_Z_exact p) as [m [e [Hf _]]]; [lia |]. right. eauto.
Qed.


(** *** Printing and parsing *)

Lemma digit_char_ok :
  forall d, 0 <= d <= 9 ->
    Str.is_digit (Str.digit_char d) = true /\ Str.digit_val (Str.digit_char d) = d.
Proof.
  intros d Hd.
  assert (d = 0 \/ d = 1 \/ d = 2 \/ d = 3 \/ d = 4 \/ d = 5 \/ d = 6 \/ d = 7
          \/ d = 8 \/ d = 9) as H by lia.
  repeat (destruct H as [H | H]; [subst d; split; reflexivity |]).
  subst d; split; reflexivity.
Qed.

Lemma read_digit :
  forall k acc d rest,
    0 <= d <= 9 ->
    read_digits (S k) acc (String (Str.digit_char d) rest)
    = read_digits k (10 * acc + d) rest.
Proof.
  intros k acc d rest Hd. destruct (digit_char_ok d Hd) as [H1 H2].
  cbn [read_digits]. rewrite H1, H2. reflexivity.
Qed.

Lemma read_fmt2 :
  forall n rest, 0 <= n <= 99 ->
    read_digits 2 0 (Str.fmt2 n ++ rest)%string = Some (n, rest).
Proof.
  intros n rest Hn. unfold Str.fmt2. cbn [append].
  rewrite !read_digit by (div_lia).
  cbn [read_digits]. do 2 f_equal. div_lia.
Qed.

Lemma read_fmt4 :
  forall n rest, 0 <= n <= 9999 ->
    read_digits 4 0 (Str.fmt4 n ++ rest)%string = Some (n, rest).
Proof.
  intros n rest Hn. unfold Str.fmt4. cbn [append].
  rewrite !read_digit by (div_lia).
  cbn [read_digits]. do 2 f_equal. div_lia.
Qed.

Lemma parse_isoformat_isoformat :
  forall y m d hh mm ss,
    1 <= y <= 9999 -> 1 <= m <= 12 -> 1 <= d <= days_in_month y m ->
    0 <= hh < 24 -> 0 <= mm < 60 -> 0 <= ss < 60 ->
    parse_isoformat (isoformat (mk_datetime y m d hh mm ss 0))
    = Some (mk_datetime y m d hh mm ss 0).
Proof.
  intros y m d hh mm ss Hy Hm Hd Hhh Hmm Hss.
  assert (d <= 31) as Hd31.
  { unfold days_in_month, days_in_month_of in Hd.
    destruct (m =? 2); [destruct (is_leap y); lia |].
    destruct ((m =? 4) || (m =? 6) || (m =? 9) || (m =? 11)); lia. }
  unfold isoformat, parse_isoformat. cbn [dt_year dt_month dt_day dt_hour dt_minute
                                       dt_second dt_microsecond].
  rewrite read_fmt4 by lia. cbn [append expect Ascii.eqb Bool.eqb].
  rewrite read_fmt2 by lia. cbn [append expect Ascii.eqb Bool.eqb].
  rewrite read_fmt2 by lia. cbn [append expect Ascii.eqb Bool.eqb].
  rewrite read_fmt2 by lia. cbn [append expect Ascii.eqb Bool.eqb].
  rewrite read_fmt2 by lia. cbn [append expect Ascii.eqb Bool.eqb].
  rewrite read_fmt2 by lia.
  assert (valid_fields y m d hh mm ss = true) as Hv.
  { unfold valid_fields.
    repeat (apply andb_true_iff; split);
      try (apply Z.leb_le; lia); try (apply Z.ltb_lt; lia). }
  rewrite Hv. reflexivity.
Qed.

(** *** The round trip *)


Lemma fadd_zero_r :
  forall t, 0 <= t < 2 ^ 53 ->
    Py.fadd (Py.float_of_Z t) (S754_zero false) = Py.float_of_Z t.
Proof.
  intros t Ht. destruct (float_of_Z_finite t Ht) as [H | [m [e H]]]; rewrite H; reflexivity.
Qed.

Lemma to_float_int :
  forall t, 0 <= t < 2 ^ 53 -> Py.to_float (VInt t) = Ok (Py.float_of_Z t).
Proof.
  intros t Ht. unfold Py.to_float.
  destruct (float_of_Z_finite t Ht) as [H | [m [e H]]]; rewrite H; reflexivity.
Qed.

Lemma fromtimestamp_int :
  forall t, 0 <= t < 2 ^ 53 ->
    fromtimestamp (Py.float_of_Z t) = of_epoch_seconds t 0.
Proof.
  intros t Ht. unfold fromtimestamp. rewrite (modf_float_of_Z t Ht).
  replace (Py.fmul (S754_zero false) (Py.float_of_Z 1000000)) with (S754_zero false)
    by (vm_compute; reflexivity).
  reflexivity.
Qed.

Lemma local_in_range :
  forall u,
    -172800 <= u + utc_offset < 253402300800 -> local u = Some (u + utc_offset).
Proof.
  intros u H. unfold local. cbv zeta.
  assert ((1 <=? (u + utc_offset) / 86400 + epoch_ordinal)
          && ((u + utc_offset) / 86400 + epoch_ordinal <=? max_ordinal) = true) as Hb.
  { unfold epoch_ordinal, max_ordinal.
    apply andb_true_iff. split; apply Z.leb_le; div_lia. }
  rewrite Hb. reflexivity.
Qed.

(** C9, as the code has it.  In a local time zone with a fixed UTC
    offset, for every integer [t >= 0] whose local time falls before
    the year 10000, and still does when the offset is added once more,
    [iso_to_unix] of [unix_to_iso] of [t] is [t].  The second bound is
    that of [timestamp], which asks for the local time at the printed
    time read as UTC; east of UTC it is the stricter one. *)
Theorem unix_iso_round_trip :
  forall (t : Z) (config config' : pydict) (data data' : dict pydict) (ctx ctx' : pydict),
    0 <= t ->
    -86400 < utc_offset < 86400 ->
    t + utc_offset < 253402300800 ->
    t + 2 * utc_offset < 253402300800 ->
    exists s,
      _transform_unix_to_iso (VInt t) config data ctx = Ok (VStr s)
      /\ _transform_iso_to_unix (VStr s) config' data' ctx' = Ok (VInt t).
Proof.
  intros t config config' data data' ctx ctx' Ht Hoff Hmax Hmax2.
  assert (0 <= t < 2 ^ 53) as Hexact.
  { split; [exact Ht |]. change (2 ^ 53) with 9007199254740992. lia. }
  unfold _transform_unix_to_iso. simpl Py.is_none. cbv iota.
  rewrite (to_float_int t Hexact), (fromtimestamp_int t Hexact).
  unfold of_epoch_seconds.
  set (loc := t + utc_offset).
  assert (1 <= loc / 86400 + epoch_ordinal <= max_ordinal) as Hord.
  { unfold epoch_ordinal, max_ordinal. subst loc.
    div_lia. }
  assert ((1 <=? loc / 86400 + epoch_ordinal) && (loc / 86400 + epoch_ordinal <=? max_ordinal)
          = true) as Hb.
  { apply andb_true_iff. split; apply Z.leb_le; lia. }
  rewrite Hb.
  destruct (ord2ymd (loc / 86400 + epoch_ordinal)) as [[y m] d] eqn:Eymd.
  destruct (ord2ymd_correct _ y m d Hord Eymd) as [Hy [Hm [Hd Hymd]]].
  set (rem := loc mod 86400).
  assert (0 <= rem < 86400) as Hrem by (subst rem; apply Z.mod_pos_bound; lia).
  rewrite (local_in_range (t - max_fold_seconds))
    by (unfold max_fold_seconds; lia).
  eexists. split; [reflexivity |].
  unfold _transform_iso_to_unix, parse_timestamp. cbn [Py.str].
  rewrite parse_isoformat_isoformat;
    try assumption; try (div_lia).
  unfold timestamp. cbn [dt_year dt_month dt_day dt_hour dt_minute dt_second dt_microsecond].
  rewrite Hymd.
  replace ((loc / 86400 + epoch_ordinal - epoch_ordinal) * 86400
           + rem / 3600 * 3600 + rem mod 3600 / 60 * 60 + rem mod 60)
    with loc
    by (subst rem; div_lia).
  rewrite (local_in_range loc) by (subst loc; lia).
  replace (loc - (loc + utc_offset - loc)) with t by (subst loc; lia).
  rewrite (local_in_range t) by (fold loc; lia).
  rewrite (local_in_range (t - max_fold_seconds))
    by (unfold max_fold_seconds; lia).
  replace (Py.fdiv (Py.float_of_Z 0) (Py.float_of_Z 1000000)) with (S754_zero false)
    by (vm_compute; reflexivity).
  rewrite (fadd_zero_r t Hexact).
  unfold int_or_none. rewrite (int_of_float_of_Z t Hexact). reflexivity.
Qed.

(** X13.  Past the year 9999 [unix_to_iso] gives an absent result: a
    timestamp that falls, in local time, on or after the first second
    of the year 10000 is not formatted. *)
Lemma unix_to_iso_out_of_range :
  forall (t : Z) (config : pydict) (data : dict pydict) (ctx : pydict),
    0 <= t < 2 ^ 53 ->
    253402300800 <= t + utc_offset ->
    _transform_unix_to_iso (VInt t) config data ctx = Ok VNone.
Proof.
  intros t config data ctx Hexact Hbig.
  unfold _transform_unix_to_iso. simpl Py.is_none. cbv iota.
  rewrite (to_float_int t Hexact), (fromtimestamp_int t Hexact).
  unfold of_epoch_seconds.
  assert ((1 <=? (t + utc_offset) / 86400 + epoch_ordinal)
          && ((t + utc_offset) / 86400 + epoch_ordinal <=? max_ordinal) = false) as Hb.
  { apply andb_false_iff. right. apply Z.leb_gt.
    unfold epoch_ordinal, max_ordinal. div_lia. }
  rewrite Hb. reflexivity.
Qed.

End RoundTrip.

(** The round trip of 1700000000 in UTC. *)
Lemma unix_iso_round_trip_witness :
  exists s,
    Transformer._transform_unix_to_iso (rt := reference_runtime) (VInt 1700000000) [] [] []
    = Ok (VStr s)
    /\ Transformer._transform_iso_to_unix (rt := reference_runtime) (VStr s) [] [] []
       = Ok (VInt 1700000000).
Proof.
  apply (unix_iso_round_trip (rt := reference_runtime) 1700000000 [] [] [] [] [] []).
  - lia.
  - simpl. lia.
  - simpl. lia.
  - simpl. lia.
Defined.

(** C9 as stated fails.  253402387200 seconds after the epoch the year
    is 10000 in every time zone, [unix_to_iso] gives an absent result,
    and so does [iso_to_unix] of it.  And east of UTC the round trip
    ends before [unix_to_iso] does: one hour east, the last second of
    the year 9999 in local time is printed, and [iso_to_unix] of what
    is printed is absent, because [timestamp] asks for the local time
    one hour later still, in the year 10000. *)
Lemma unix_iso_round_trip_year_10000 :
  ((0 <= 253402387200)%Z
   /\ Transformer._transform_unix_to_iso (rt := reference_runtime)
        (VInt 253402387200) [] [] [] = Ok VNone
   /\ Transformer._transform_iso_to_unix (rt := reference_runtime) VNone [] [] [] = Ok VNone
   /\ @Ok pyval VNone <> Ok (VInt 253402387200))
  /\ ((0 <= 253402297199)%Z
      /\ Transformer._transform_unix_to_iso (rt := runtime_east)
           (VInt 253402297199) [] [] [] = Ok (VStr "9999-12-31T23:59:59")
      /\ Transformer._transform_iso_to_unix (rt := runtime_east)
           (VStr "9999-12-31T23:59:59") [] [] [] = Ok VNone
      /\ @Ok pyval VNone <> Ok (VInt 253402297199)).
Proof.
  split.
  - split; [lia |]. split; [vm_compute; reflexivity |].
    split; [reflexivity | discriminate].
  - split; [lia |]. split; [vm_compute; reflexivity |].
    split; [vm_compute; reflexivity | discriminate].
Qed.

(** One hour earlier the round trip still holds one hour east of UTC. *)
Lemma unix_iso_round_trip_east_of_utc :
  Transformer._transform_unix_to_iso (rt := runtime_east)
    (VInt 253402293599) [] [] [] = Ok (VStr "9999-12-31T22:59:59")
  /\ Transformer._transform_iso_to_unix (rt := runtime_east)
       (VStr "9999-12-31T22:59:59") [] [] [] = Ok (VInt 253402293599).
Proof.
  split; vm_compute; reflexivity.
Qed.

(* ===================================================================== *)
(** * Further properties of the code *)
(* ===================================================================== *)

(** ** Nested writes and what [transform_record] returns *)

Section NestedWrites.

(** X1.  A value written at a dotted path in ASCII whose segments are
    plain keys is read back at that path.  And a write that goes into
    no object the payload already holds, because the path has a single
    segment or its first segment is no field of the payload yet, leaves
    every top-level field other than that segment as it was. *)
Theorem set_nested_value_read_back :
  forall (data data' : pydict) (path : string) (value : pyval),
    Str.is_ascii path = true ->
    Forall plain_segment (Str.split "." path) ->
    Transformer._set_nested_value data path value = Ok data' ->
    Transformer._get_nested_value (VDict data') path = value
    /\ (List.length (Str.split "." path) = 1%nat
        \/ Dict.get data (hd "" (Str.split "." path)) = None ->
        forall key, key <> hd "" (Str.split "." path) ->
                    Dict.get data' key = Dict.get data key).
Proof.
  intros data data' path value _ Hplain Hset.
  unfold Transformer._set_nested_value in Hset. unfold Transformer._get_nested_value.
  split.
  - apply (set_nested_parts_read _ data); [| exact Hplain | exact Hset].
    destruct (split_cons "." path) as [p [ps E]]. rewrite E. discriminate.
  - intros _ key Hkey. exact (set_nested_parts_other _ _ _ _ _ Hset Hkey).
Qed.

Lemma set_nested_parts_fresh :
  forall parts value, exists d, Transformer.set_nested_parts parts [] value = Ok d.
Proof.
  induction parts as [| part rest IH]; intros value.
  - exists []. reflexivity.
  - destruct rest as [| next rest].
    + eexists. reflexivity.
    + destruct (IH value) as [sub Hsub].
      rewrite set_nested_parts_step. cbn [Dict.get]. rewrite Hsub.
      eexists. reflexivity.
Qed.

(** X2.  A nested write fails only with a TypeError, and only when the
    path has several segments and the first of them is already a field
    of the payload; in particular no write into an empty payload fails. *)
Theorem set_nested_value_failure :
  forall (data : pydict) (path : string) (value : pyval) (e : exn),
    Transformer._set_nested_value data path value = Raise e ->
    e = TypeError
    /\ (1 < List.length (Str.split "." path))%nat
    /\ exists held, Dict.get data (hd "" (Str.split "." path)) = Some held.
Proof.
  intros data path value e. unfold Transformer._set_nested_value.
  generalize (Str.split "." path) as parts. intros parts.
  revert data e.
  induction parts as [| part rest IH]; intros data e Hset; [discriminate Hset |].
  destruct rest as [| next rest]; [discriminate Hset |].
  rewrite set_nested_parts_step in Hset.
  assert (forall sub (k : pydict -> result pydict),
             bind (Transformer.set_nested_parts (next :: rest) sub value) k = Raise e ->
             (forall d, exists d', k d = Ok d') ->
             e = TypeError) as Hinner.
  { intros sub k Hb Hk.
    destruct (Transformer.set_nested_parts (next :: rest) sub value) as [d |e'] eqn:Hsub;
      cbn [bind] in Hb.
    - destruct (Hk d) as [d' Hd']. congruence.
    - injection Hb as ->. exact (proj1 (IH sub e Hsub)). }
  simpl hd. simpl List.length.
  destruct (Dict.get data part) as [held |] eqn:Hget.
  - split; [| split; [lia | exists held; reflexivity]].
    destruct held; try (injection Hset as <-; reflexivity).
    apply (Hinner _ _ Hset). intros d0. eexists. reflexivity.
  - exfalso.
    destruct (set_nested_parts_fresh (next :: rest) value) as [sub Hsub].
    rewrite Hsub in Hset. discriminate Hset.
Qed.

End NestedWrites.

Lemma set_nested_value_read_back_witness :
  Transformer._get_nested_value
    (VDict [("name", VStr "Jane"); ("address", VDict [("city", VStr "Paris")])])
    "address.city" = VStr "Paris"
  /\ (List.length (Str.split "." "address.city") = 1%nat
      \/ Dict.get [("name", VStr "Jane")] (hd "" (Str.split "." "address.city")) = None ->
      forall key, key <> hd "" (Str.split "." "address.city") ->
        Dict.get [("name", VStr "Jane"); ("address", VDict [("city", VStr "Paris")])] key
        = Dict.get [("name", VStr "Jane")] key).
Proof.
  apply (set_nested_value_read_back [("name", VStr "Jane")]).
  - reflexivity.
  - repeat constructor.
  - reflexivity.
Defined.

Lemma set_nested_value_failure_witness :
  TypeError = TypeError
  /\ (1 < List.length (Str.split "." "name.first"))%nat
  /\ exists held, Dict.get [("name", VStr "Jane")] (hd "" (Str.split "." "name.first"))
                  = Some held.
Proof.
  apply (set_nested_value_failure [("name", VStr "Jane")] "name.first" (VStr "J")).
  reflexivity.
Defined.

Section TransformedPayload.
Context {rt : PyRuntime}.

Lemma store_outcome :
  forall p fm v,
    Transformer.warnings (Transformer.store p fm v) = Transformer.warnings p
    /\ ((Transformer.errors (Transformer.store p fm v) = Transformer.errors p
         /\ (Transformer.target_data (Transformer.store p fm v) = Transformer.target_data p
             \/ exists w, w <> VNone
                  /\ Transformer._set_nested_value (Transformer.target_data p)
                       (fm_target_field fm) w
                     = Ok (Transformer.target_data (Transformer.store p fm v))))
        \/ (Transformer.target_data (Transformer.store p fm v) = Transformer.target_data p
            /\ exists e, Transformer.errors (Transformer.store p fm v)
                         = (Transformer.errors p ++ [Transformer.transform_error fm e])%list)).
Proof.
  intros p fm v. unfold Transformer.store.
  set (w := if Py.is_none v && negb (Py.is_none (fm_default_value fm))
            then fm_default_value fm else v).
  destruct (Py.is_none w) eqn:Hw; simpl negb; cbv iota.
  - split; [reflexivity |]. left. split; [reflexivity | left; reflexivity].
  - destruct (Transformer._set_nested_value (Transformer.target_data p)
                (fm_target_field fm) w) as [d | e] eqn:Hset; simpl.
    + split; [reflexivity |]. left. split; [reflexivity |]. right.
      exists w. split; [| exact Hset]. apply is_none_false. exact Hw.
    + split; [reflexivity |]. right. split; [reflexivity |]. exists e. reflexivity.
Qed.


Lemma apply_field_mapping_outcome :
  forall self source_records combined_data context p fm,
    let p' := Transformer.apply_field_mapping self source_records combined_data context p fm in
    (Transformer.warnings p' = Transformer.warnings p
     \/ Transformer.warnings p'
        = (Transformer.warnings p
           ++ [Transformer.unknown_transform_warning (fm_transform fm)])%list)
    /\ ((Transformer.errors p' = Transformer.errors p
         /\ (Transformer.target_data p' = Transformer.target_data p
             \/ exists w, w <> VNone
                  /\ Transformer._set_nested_value (Transformer.target_data p)
                       (fm_target_field fm) w
                     = Ok (Transformer.target_data p')))
        \/ (Transformer.target_data p' = Transformer.target_data p
            /\ exists e, Transformer.errors p'
                         = (Transformer.errors p ++ [Transformer.transform_error fm e])%list)).
Proof.
  intros self source_records combined_data context p fm.
  unfold Transformer.apply_field_mapping.
  assert (forall e,
             let p' := Transformer.record_error p fm e in
             (Transformer.warnings p' = Transformer.warnings p
              \/ Transformer.warnings p'
                 = (Transformer.warnings p
                    ++ [Transformer.unknown_transform_warning (fm_transform fm)])%list)
             /\ ((Transformer.errors p' = Transformer.errors p
                  /\ (Transformer.target_data p' = Transformer.target_data p
                      \/ exists w, w <> VNone
                           /\ Transformer._set_nested_value (Transformer.target_data p)
                                (fm_target_field fm) w
                              = Ok (Transformer.target_data p')))
                 \/ (Transformer.target_data p' = Transformer.target_data p
                     /\ exists e, Transformer.errors p'
                                  = (Transformer.errors p
                                     ++ [Transformer.transform_error fm e])%list))) as Hfail.
  { intros e. simpl. split; [left; reflexivity |]. right.
    split; [reflexivity | exists e; reflexivity]. }
  destruct (Transformer.condition_holds fm combined_data); simpl negb; cbv iota.
  2: { simpl. split; [left; reflexivity |]. left. split; [reflexivity | left; reflexivity]. }
  destruct (Transformer.resolve_transform self fm) as [[transform_func |] | e].
  - destruct (transform_func _ _ _ _) as [v | e]; [| apply Hfail].
    destruct (store_outcome p fm v) as [Hw Hrest].
    simpl. split; [left; exact Hw | exact Hrest].
  - match goal with
    | |- context [Transformer.store ?q fm ?v] =>
        destruct (store_outcome q fm v) as [Hw Hrest]
    end.
    simpl in Hw, Hrest |- *. split; [right; exact Hw | exact Hrest].
  - apply Hfail.
Qed.

Lemma set_nested_parts_no_null :
  forall parts current value d,
    Transformer.set_nested_parts parts current value = Ok d ->
    value <> VNone ->
    no_null_field current ->
    no_null_field d.
Proof.
  intros parts current value d Hset Hvalue Hcurrent key.
  assert (forall v, v <> VNone ->
                    Dict.get (Dict.set current (hd "" parts) v) key <> Some VNone) as Hwrite.
  { intros v Hv. rewrite dict_get_set.
    destruct (String.eqb key (hd "" parts)); [congruence | apply Hcurrent]. }
  destruct parts as [| part [| next rest]].
  - simpl in Hset. injection Hset as <-. apply Hcurrent.
  - simpl in Hset. injection Hset as <-. apply (Hwrite value Hvalue).
  - rewrite set_nested_parts_step in Hset.
    destruct (Dict.get current part) as [[| | | | | | sub0] |];
      try discriminate Hset;
      match type of Hset with
      | bind ?r _ = _ => destruct r; cbn [bind] in Hset; [| discriminate Hset]
      end;
      injection Hset as <-; apply Hwrite; discriminate.
Qed.

Lemma set_nested_parts_fields :
  forall parts current value d key,
    Transformer.set_nested_parts parts current value = Ok d ->
    Dict.get d key <> None ->
    Dict.get current key <> None \/ key = hd "" parts.
Proof.
  intros parts current value d key Hset Hkey.
  destruct (String.eqb_spec key (hd "" parts)) as [E | NE]; [right; exact E |].
  left. rewrite <- (set_nested_parts_other _ _ _ _ _ Hset NE). exact Hkey.
Qed.

Lemma fold_field_mappings_outcome :
  forall self source_records combined_data context all fms p,
    incl fms all ->
    let p' := fold_left (Transformer.apply_field_mapping self source_records
                           combined_data context) fms p in
    (List.length (Transformer.errors p')
     <= List.length (Transformer.errors p) + List.length fms)%nat
    /\ (List.length (Transformer.warnings p')
        <= List.length (Transformer.warnings p) + List.length fms)%nat
    /\ (Forall (transform_failure all) (Transformer.errors p) ->
        Forall (transform_failure all) (Transformer.errors p'))
    /\ (no_null_field (Transformer.target_data p) ->
        no_null_field (Transformer.target_data p'))
    /\ (forall key,
          Dict.get (Transformer.target_data p') key <> None ->
          Dict.get (Transformer.target_data p) key <> None
          \/ exists fm, In fm all /\ key = hd "" (Str.split "." (fm_target_field fm))).
Proof.
  intros self source_records combined_data context all fms.
  induction fms as [| fm fms IH]; intros p Hincl; simpl.
  - repeat split; try lia; auto.
  - assert (In fm all) as Hfm by (apply Hincl; left; reflexivity).
    assert (incl fms all) as Hrest by (intros x Hx; apply Hincl; right; exact Hx).
    destruct (apply_field_mapping_outcome self source_records combined_data context p fm)
      as [Hw He].
    set (q := Transformer.apply_field_mapping self source_records combined_data
                context p fm) in *.
    destruct (IH q Hrest) as [IHe [IHw [IHf [IHn IHk]]]].
    assert (List.length (Transformer.errors q) <= S (List.length (Transformer.errors p)))%nat
      as Hle.
    { destruct He as [[-> _] | [_ [e ->]]]; [lia |]. rewrite length_app. simpl. lia. }
    assert (List.length (Transformer.warnings q)
            <= S (List.length (Transformer.warnings p)))%nat as Hlw.
    { destruct Hw as [-> | ->]; [lia |]. rewrite length_app. simpl. lia. }
    split; [lia |]. split; [lia |].
    split; [| split].
    + intros Hp. apply IHf.
      destruct He as [[-> _] | [_ [e ->]]]; [exact Hp |].
      apply Forall_app. split; [exact Hp |].
      constructor; [| constructor].
      repeat split. simpl. apply in_map. exact Hfm.
    + intros Hp. apply IHn.
      destruct He as [[_ [-> | [w [Hw' Hset]]]] | [-> _]]; try exact Hp.
      exact (set_nested_parts_no_null _ _ _ _ Hset Hw' Hp).
    + intros key Hkey.
      destruct (IHk key Hkey) as [Hq | Hex]; [| right; exact Hex].
      destruct He as [[_ [E | [w [Hw' Hset]]]] | [E _]];
        try (left; rewrite <- E; exact Hq).
      destruct (set_nested_parts_fields _ _ _ _ _ Hset Hq) as [Hp | Hk];
        [left; exact Hp |].
      right. exists fm. split; [exact Hfm | exact Hk].
Qed.

(** X3.  [transform_record] records at most one error and at most one
    warning per field mapping; every error it records is a transform
    error of severity [error] on the target field of one of the
    mappings, so the record it returns is valid exactly when no field
    mapping failed. *)
Theorem transform_record_accounting :
  forall (self : Transformer.TransformEngine) (source_records : list SourceRecord)
         (mapping : EntityMapping) (target_service target_entity : string)
         (context : pydict) (record : TransformedRecord),
    Transformer.transform_record self source_records mapping target_service
      target_entity context = Ok record ->
    (List.length (tr_validation_errors record)
     <= List.length (em_field_mappings mapping))%nat
    /\ (List.length (tr_warnings record) <= List.length (em_field_mappings mapping))%nat
    /\ Forall (transform_failure (em_field_mappings mapping)) (tr_validation_errors record)
    /\ (Records.is_valid record = true <-> tr_validation_errors record = []).
Proof.
  intros self source_records mapping target_service target_entity context record Hrun.
  unfold Transformer.transform_record in Hrun.
  destruct (Transformer._generate_target_id source_records mapping) as [target_id | e];
    cbn [bind] in Hrun; [| discriminate Hrun].
  injection Hrun as <-. cbn [tr_validation_errors tr_warnings].
  destruct (fold_field_mappings_outcome self source_records
              (Transformer.combine_sources source_records) context
              (em_field_mappings mapping) (em_field_mappings mapping)
              (Transformer.mk_progress [] [] []) (incl_refl _))
    as [He [Hw [Hf _]]].
  cbn [Transformer.errors Transformer.warnings List.length] in He, Hw, Hf.
  split; [lia |]. split; [lia |].
  specialize (Hf (Forall_nil _)).
  split; [exact Hf |].
  unfold Records.is_valid. cbn [tr_validation_errors].
  destruct (Transformer.errors _) as [| e es]; [split; reflexivity |].
  inversion Hf as [| ? ? [_ [Hsev _]] _]; subst.
  simpl. rewrite Hsev. simpl. split; discriminate.
Qed.

(** X4.  The payload [transform_record] returns is sparse: none of its
    fields holds null, and each of its fields is the first segment of
    the target path of one of the field mappings. *)
Theorem transform_record_sparse :
  forall (self : Transformer.TransformEngine) (source_records : list SourceRecord)
         (mapping : EntityMapping) (target_service target_entity : string)
         (context : pydict) (record : TransformedRecord),
    Transformer.transform_record self source_records mapping target_service
      target_entity context = Ok record ->
    no_null_field (tr_data record)
    /\ forall key,
         Dict.get (tr_data record) key <> None ->
         exists fm, In fm (em_field_mappings mapping)
                    /\ key = hd "" (Str.split "." (fm_target_field fm)).
Proof.
  intros self source_records mapping target_service target_entity context record Hrun.
  unfold Transformer.transform_record in Hrun.
  destruct (Transformer._generate_target_id source_records mapping) as [target_id | e];
    cbn [bind] in Hrun; [| discriminate Hrun].
  injection Hrun as <-. cbn [tr_data].
  destruct (fold_field_mappings_outcome self source_records
              (Transformer.combine_sources source_records) context
              (em_field_mappings mapping) (em_field_mappings mapping)
              (Transformer.mk_progress [] [] []) (incl_refl _))
    as [_ [_ [_ [Hn Hk]]]].
  cbn [Transformer.target_data] in Hn, Hk.
  split.
  - apply Hn. intros key. simpl. discriminate.
  - intros key Hkey. destruct (Hk key Hkey) as [Hempty | Hex]; [| exact Hex].
    simpl in Hempty. contradiction.
Qed.

Lemma transform_record_invalid :
  forall self source_records mapping target_service target_entity context record,
    Transformer.transform_record self source_records mapping target_service
      target_entity context = Ok record ->
    tr_validation_errors record <> [] ->
    Records.is_valid record = false.
Proof.
  intros self source_records mapping target_service target_entity context record Hrun Hne.
  unfold Transformer.transform_record in Hrun.
  destruct (Transformer._generate_target_id source_records mapping) as [target_id | e];
    cbn [bind] in Hrun; [| discriminate Hrun].
  injection Hrun as <-. cbn [tr_validation_errors] in Hne.
  destruct (fold_field_mappings_outcome self source_records
              (Transformer.combine_sources source_records) context
              (em_field_mappings mapping) (em_field_mappings mapping)
              (Transformer.mk_progress [] [] []) (incl_refl _))
    as [_ [_ [Hf _]]].
  specialize (Hf (Forall_nil _)).
  unfold Records.is_valid. cbn [tr_validation_errors].
  destruct (Transformer.errors _) as [| e es]; [contradiction |].
  inversion Hf as [| ? ? [_ [Hsev _]] _]; subst.
  simpl. rewrite Hsev. reflexivity.
Qed.

(** X5.  A function registered under the name of a built-in operator
    takes its place in the loop over the field mappings: a field
    mapping with that name, whose condition holds, is run through the
    registered function.  The target id is not affected: it is derived
    as it is without the registration. *)
Theorem registered_transform_shadows_builtin :
  forall (self : Transformer.TransformEngine) (name : string)
         (func : Transformer.transform_fn) (source_records : list SourceRecord)
         (mapping : EntityMapping) (target_service target_entity : string)
         (context : pydict) (combined_data : dict pydict)
         (p : Transformer.progress) (fm : FieldMapping),
    fm_transform fm = name ->
    Transformer.condition_holds fm combined_data = true ->
    Transformer.apply_field_mapping (Transformer.register_transform self name func)
      source_records combined_data context p fm
    = match func (Transformer._get_source_value (fm_source_field fm) source_records
                    combined_data)
                 (fm_transform_config fm) combined_data context with
      | Ok transformed_value => Transformer.store p fm transformed_value
      | Raise e => Transformer.record_error p fm e
      end
    /\ (do record <- Transformer.transform_record
                       (Transformer.register_transform self name func)
                       source_records mapping target_service target_entity context ;;
        Ok (tr_id record))
       = (do record <- Transformer.transform_record self source_records mapping
                         target_service target_entity context ;;
          Ok (tr_id record)).
Proof.
  intros self name func source_records mapping target_service target_entity context
         combined_data p fm Hname Hcond.
  split.
  - unfold Transformer.apply_field_mapping. rewrite Hcond. cbn [negb].
    unfold Transformer.resolve_transform, Transformer.register_transform.
    cbn [Transformer._custom_transforms].
    rewrite Hname, dict_get_set, String.eqb_refl. reflexivity.
  - unfold Transformer.transform_record.
    destruct (Transformer._generate_target_id source_records mapping); reflexivity.
Qed.

End TransformedPayload.

Lemma transform_record_accounting_witness :
  (List.length (tr_validation_errors Cases.failed_record)
   <= List.length (em_field_mappings Cases.failing_mapping))%nat
  /\ (List.length (tr_warnings Cases.failed_record)
      <= List.length (em_field_mappings Cases.failing_mapping))%nat
  /\ Forall (transform_failure (em_field_mappings Cases.failing_mapping))
            (tr_validation_errors Cases.failed_record)
  /\ (Records.is_valid Cases.failed_record = true
      <-> tr_validation_errors Cases.failed_record = []).
Proof.
  apply (transform_record_accounting (rt := reference_runtime) Examples.engine
           [Examples.stripe_jane] Cases.failing_mapping "chargebee" "customer" []).
  vm_compute. reflexivity.
Defined.

Lemma transform_record_sparse_witness :
  no_null_field (tr_data Cases.failed_record)
  /\ forall key,
       Dict.get (tr_data Cases.failed_record) key <> None ->
       exists fm, In fm (em_field_mappings Cases.failing_mapping)
                  /\ key = hd "" (Str.split "." (fm_target_field fm)).
Proof.
  apply (transform_record_sparse (rt := reference_runtime) Examples.engine
           [Examples.stripe_jane] Cases.failing_mapping "chargebee" "customer" []).
  vm_compute. reflexivity.
Defined.

Lemma registered_transform_shadows_builtin_witness :
  Transformer.apply_field_mapping (rt := reference_runtime)
    (Transformer.register_transform Examples.engine "uppercase"
       (fun value config data ctx => Ok (VStr "registered")))
    [Examples.stripe_jane] [] [] (Transformer.mk_progress [] [] [])
    (mk_FieldMapping (Some "name") "name" "uppercase" [] false VNone None)
  = Transformer.store (Transformer.mk_progress [] [] [])
      (mk_FieldMapping (Some "name") "name" "uppercase" [] false VNone None)
      (VStr "registered")
  /\ (do record <- Transformer.transform_record (rt := reference_runtime)
                     (Transformer.register_transform Examples.engine "uppercase"
                        (fun value config data ctx => Ok (VStr "registered")))
                     [Examples.stripe_jane] (Examples.mapping_of [Examples.prefixed_id])
                     "chargebee" "customer" [] ;;
      Ok (tr_id record))
     = (do record <- Transformer.transform_record (rt := reference_runtime)
                       Examples.engine [Examples.stripe_jane]
                       (Examples.mapping_of [Examples.prefixed_id])
                       "chargebee" "customer" [] ;;
        Ok (tr_id record)).
Proof.
  apply (registered_transform_shadows_builtin (rt := reference_runtime) Examples.engine
           "uppercase" (fun value config data ctx => Ok (VStr "registered"))
           [Examples.stripe_jane] (Examples.mapping_of [Examples.prefixed_id])
           "chargebee" "customer" [] [] (Transformer.mk_progress [] [] [])
           (mk_FieldMapping (Some "name") "name" "uppercase" [] false VNone None)).
  - reflexivity.
  - reflexivity.
Defined.

(** ** Operators on text *)

Section StringFacts.

Lemma startswith_app : forall p s, Str.startswith (p ++ s) p = true.
Proof.
  unfold Str.startswith. induction p as [| c p IH]; intros s; simpl.
  - destruct s; reflexivity.
  - destruct (ascii_dec c c) as [_ | NE]; [apply IH | contradiction].
Qed.

Lemma drop_app : forall p s, Str.drop (String.length p) (p ++ s) = s.
Proof. induction p as [| c p IH]; intros s; simpl; [reflexivity | apply IH]. Qed.

Lemma startswith_drop :
  forall p s, Str.startswith s p = true -> p ++ Str.drop (String.length p) s = s.
Proof.
  unfold Str.startswith. induction p as [| c p IH]; intros s H; simpl.
  - reflexivity.
  - destruct s as [| d s]; simpl in H; [discriminate H |].
    destruct (ascii_dec c d) as [E | NE]; [| discriminate H].
    subst d. rewrite (IH s H). reflexivity.
Qed.

Lemma take_length : forall n s, (String.length (Str.take n s) <= n)%nat.
Proof.
  induction n as [| n IH]; intros s; simpl; [lia |].
  destruct s as [| c s]; simpl; [lia |]. specialize (IH s). lia.
Qed.

Lemma take_prefix : forall n s, Str.startswith s (Str.take n s) = true.
Proof.
  unfold Str.startswith. induction n as [| n IH]; intros s; simpl;
    [destruct s; reflexivity |].
  destruct s as [| c s]; simpl; [reflexivity |].
  destruct (ascii_dec c c) as [_ | NE]; [apply IH | contradiction].
Qed.

Lemma take_all : forall n s, (String.length s <= n)%nat -> Str.take n s = s.
Proof.
  induction n as [| n IH]; intros s H.
  - destruct s; [reflexivity | simpl in H; lia].
  - destruct s as [| c s]; simpl; [reflexivity |].
    rewrite IH; [reflexivity | simpl in H; lia].
Qed.

Lemma lower_char_idem : forall c, Str.lower_char (Str.lower_char c) = Str.lower_char c.
Proof. intros c. destruct c as [[] [] [] [] [] [] [] []]; reflexivity. Qed.

Lemma upper_char_idem : forall c, Str.upper_char (Str.upper_char c) = Str.upper_char c.
Proof. intros c. destruct c as [[] [] [] [] [] [] [] []]; reflexivity. Qed.

Lemma lower_upper_char : forall c, Str.lower_char (Str.upper_char c) = Str.lower_char c.
Proof. intros c. destruct c as [[] [] [] [] [] [] [] []]; reflexivity. Qed.

Lemma map_chars_map_chars :
  forall f g h s, (forall c, f (g c) = h c) ->
                  Str.map_chars f (Str.map_chars g s) = Str.map_chars h s.
Proof.
  intros f g h s H. induction s as [| c s IH]; simpl; [reflexivity |].
  rewrite H, IH. reflexivity.
Qed.

Lemma all_chars_filter : forall p s, Str.all_chars p (Str.filter_chars p s) = true.
Proof.
  intros p s. induction s as [| c s IH]; simpl; [reflexivity |].
  destruct (p c) eqn:E; simpl; [rewrite E; exact IH | exact IH].
Qed.

Lemma filter_all_chars :
  forall p s, Str.all_chars p s = true -> Str.filter_chars p s = s.
Proof.
  intros p s. induction s as [| c s IH]; simpl; intros H; [reflexivity |].
  apply andb_true_iff in H. destruct H as [Hc Hs]. rewrite Hc, (IH Hs). reflexivity.
Qed.

Lemma startswith_char :
  forall sep c s, Str.startswith (String c s) (String sep EmptyString) = Ascii.eqb sep c.
Proof.
  intros sep c s. unfold Str.startswith. simpl.
  destruct (ascii_dec sep c) as [E | NE].
  - subst c. rewrite Ascii.eqb_refl. destruct s; reflexivity.
  - destruct (Ascii.eqb_spec sep c); [contradiction | reflexivity].
Qed.

Lemma split_once_space :
  forall s,
    match Str.split_once " " s with
    | Some (a, b) => s = a ++ " " ++ b /\ Str.mem_char " "%char a = false
    | None => Str.mem_char " "%char s = false
    end.
Proof.
  induction s as [| c s IH]; [reflexivity |].
  cbn [Str.split_once]. rewrite (startswith_char " "%char c s).
  destruct (Ascii.eqb_spec " "%char c) as [E | NE].
  - subst c. simpl. split; reflexivity.
  - destruct (Str.split_once " " s) as [[a b] |].
    + destruct IH as [IH1 IH2]. split.
      * rewrite IH1 at 1. reflexivity.
      * cbn [Str.mem_char]. rewrite IH2. apply Ascii.eqb_neq in NE. rewrite NE. reflexivity.
    + cbn [Str.mem_char]. rewrite IH. apply Ascii.eqb_neq in NE. rewrite NE. reflexivity.
Qed.

End StringFacts.

Section Operators.
Context {rt : PyRuntime}.
Import Transformer.

(** X6.  Stripping the prefix that [prefix_add] has added gives the
    text of the value back: the two operators, under one configuration
    that names the prefix and no replacement, are inverse to each other. *)
Theorem prefix_add_then_strip :
  forall (value : pyval) (prefix : string) (config : pydict)
         (data : dict pydict) (ctx : pydict),
    value <> VNone ->
    Dict.get config "prefix" = Some (VStr prefix) ->
    Dict.get config "new_prefix" = None ->
    _transform_prefix_add value config data ctx = Ok (VStr (prefix ++ Py.str value))
    /\ _transform_prefix_strip (VStr (prefix ++ Py.str value)) config data ctx
       = Ok (VStr (Py.str value)).
Proof.
  intros value prefix config data ctx Hvalue Hprefix Hnew.
  unfold _transform_prefix_add, _transform_prefix_strip, Py.get_or.
  rewrite Hprefix, Hnew.
  apply is_none_false in Hvalue. rewrite Hvalue. simpl Py.is_none. cbv iota.
  split; [reflexivity |].
  simpl. rewrite startswith_app, drop_app. reflexivity.
Qed.

(** X7.  On a value whose text is in ASCII the case operators are
    idempotent, and lower-casing after upper-casing is lower-casing. *)
Theorem case_operators_idempotent :
  forall (value : pyval) (config config' : pydict) (data data' : dict pydict)
         (ctx ctx' : pydict),
    Str.is_ascii (Py.str value) = true ->
    (do out <- _transform_lowercase value config data ctx ;;
     _transform_lowercase out config' data' ctx')
    = _transform_lowercase value config data ctx
    /\ (do out <- _transform_uppercase value config data ctx ;;
        _transform_uppercase out config' data' ctx')
       = _transform_uppercase value config data ctx
    /\ (do out <- _transform_uppercase value config data ctx ;;
        _transform_lowercase out config' data' ctx')
       = _transform_lowercase value config data ctx.
Proof.
  intros value config config' data data' ctx ctx' _.
  unfold _transform_lowercase, _transform_uppercase.
  destruct (Py.is_none value); cbn [bind Py.is_none Py.str];
    [repeat split |].
  unfold Str.lower, Str.upper.
  rewrite (map_chars_map_chars _ _ _ _ lower_char_idem),
          (map_chars_map_chars _ _ _ _ upper_char_idem),
          (map_chars_map_chars _ _ _ _ lower_upper_char).
  repeat split.
Qed.

(** X8.  [split_name] cuts a name at its first space: the first part
    has no space, and the first part, a space and the last part make up
    the name again; a name without a space is its own first part and
    has no last part. *)
Theorem split_name_parts :
  forall (value : pyval) (data : dict pydict) (ctx : pydict),
    Py.truthy value = true ->
    exists first,
      _transform_split_name value [("part", VStr "first")] data ctx = Ok (VStr first)
      /\ Str.mem_char " "%char first = false
      /\ ((_transform_split_name value [("part", VStr "last")] data ctx = Ok VNone
           /\ Py.str value = first)
          \/ exists last,
               _transform_split_name value [("part", VStr "last")] data ctx
               = Ok (VStr last)
               /\ Py.str value = first ++ " " ++ last).
Proof.
  intros value data ctx Htruthy.
  unfold _transform_split_name. rewrite Htruthy. simpl negb. cbv iota.
  unfold Py.get_or. cbn [Dict.get String.eqb Ascii.eqb Bool.eqb].
  cbn [Py.eqb String.eqb Ascii.eqb Bool.eqb].
  unfold Str.split1.
  generalize (split_once_space (Py.str value)).
  destruct (Str.split_once " " (Py.str value)) as [[a b] |].
  - intros [Hs Ha]. exists a. split; [reflexivity |]. split; [exact Ha |].
    right. exists b. split; [reflexivity | exact Hs].
  - intros Hs. exists (Py.str value). split; [reflexivity |]. split; [exact Hs |].
    left. split; reflexivity.
Qed.

(** X9.  [truncate] with a non-negative [max_length] returns a prefix
    of the text of the value, at most [max_length] characters long, and
    the whole text when it fits. *)
Theorem truncate_bound :
  forall (value : pyval) (max_length : Z) (config : pydict)
         (data : dict pydict) (ctx : pydict),
    value <> VNone ->
    Py.get_or config "max_length" (VInt 255) = VInt max_length ->
    (0 <= max_length)%Z ->
    exists s,
      _transform_truncate value config data ctx = Ok (VStr s)
      /\ (Z.of_nat (String.length s) <= max_length)%Z
      /\ Str.startswith (Py.str value) s = true
      /\ ((Z.of_nat (String.length (Py.str value)) <= max_length)%Z -> s = Py.str value).
Proof.
  intros value n config data ctx Hvalue Hcfg Hn.
  unfold _transform_truncate. apply is_none_false in Hvalue. rewrite Hvalue, Hcfg.
  unfold slice_to. cbn [bind].
  destruct (Z.leb_spec 0 n) as [_ | Hneg]; [| lia].
  eexists. split; [reflexivity |].
  split; [| split].
  - pose proof (take_length (Z.to_nat n) (Py.str value)). lia.
  - apply take_prefix.
  - intros Hfits. apply take_all. lia.
Qed.

(** X10.  What [clean_phone] returns is absent or a non-empty text of
    digits and plus signs, and cleaning it again changes nothing. *)
Theorem clean_phone_shape :
  forall (value out : pyval) (config config' : pydict) (data data' : dict pydict)
         (ctx ctx' : pydict),
    _transform_clean_phone value config data ctx = Ok out ->
    (out = VNone
     \/ exists phone, out = VStr phone /\ phone <> ""
                      /\ Str.all_chars phone_char phone = true)
    /\ _transform_clean_phone out config' data' ctx' = Ok out.
Proof.
  intros value out config config' data data' ctx ctx' Hrun.
  unfold _transform_clean_phone in Hrun.
  destruct (Py.is_none value); [injection Hrun as <-; split; [left |]; reflexivity |].
  fold phone_char in Hrun.
  set (digits := Str.filter_chars phone_char (Py.str value)) in Hrun.
  assert (Str.all_chars phone_char digits = true) as Hdigits by apply all_chars_filter.
  set (phone := if negb (Str.is_empty digits) && negb (Str.startswith digits "+")
                   && (10 <? String.length digits)%nat
                then "+" ++ digits else digits) in Hrun.
  assert (Str.all_chars phone_char phone = true) as Hphone.
  { unfold phone. destruct (_ && _ && _); [simpl; exact Hdigits | exact Hdigits]. }
  assert (negb (Str.is_empty phone) && negb (Str.startswith phone "+")
          && (10 <? String.length phone)%nat = false) as Hstable.
  { unfold phone.
    destruct (negb (Str.is_empty digits) && negb (Str.startswith digits "+")
              && (10 <? String.length digits)%nat) eqn:E; [| exact E].
    rewrite (startswith_app "+" digits). cbn [negb].
    rewrite andb_false_r. reflexivity. }
  destruct (Str.is_empty phone) eqn:Hempty; injection Hrun as <-.
  - split; [left |]; reflexivity.
  - split.
    + right. exists phone. split; [reflexivity |]. split; [| exact Hphone].
      intros E. rewrite E in Hempty. discriminate Hempty.
    + unfold _transform_clean_phone. cbn [Py.is_none Py.str]. fold phone_char.
      rewrite (filter_all_chars _ _ Hphone), Hempty, Hstable. cbv iota. rewrite Hempty. reflexivity.
Qed.

(** X11.  Six of the built-in operators return a value on every input,
    under every configuration, whatever the payloads and the context:
    they never raise.  Six more, which print their input, return a
    value on every plain input, the configured prefix being plain too. *)
Theorem builtin_transforms_total :
  forall (name : string) (transform_func : transform_fn) (value : pyval)
         (config : pydict) (data : dict pydict) (ctx : pydict),
    Dict.get _builtin_transforms name = Some transform_func ->
    never_raises name = true
    \/ (prints_input name = true
        /\ Py.plain value = true
        /\ Py.plain (Py.get_or config "prefix" (VStr "")) = true) ->
    exists out, transform_func value config data ctx = Ok out.
Proof.
  intros name f value config data ctx Hget Hnever.
  assert (never_raises name || prints_input name = true) as Hlisted.
  { destruct Hnever as [H | [H _]]; rewrite H; [reflexivity | apply orb_true_r]. }
  clear Hnever. rename Hlisted into Hnever.
  unfold _builtin_transforms in Hget. cbn [Dict.get] in Hget.
  repeat match type of Hget with
         | (if String.eqb name ?s then _ else _) = _ =>
             destruct (String.eqb_spec name s) as [E | _];
             [ subst name; inversion Hget; subst f; clear Hget | ]
         end;
    try discriminate Hget; try discriminate Hnever; clear Hnever.
  - eexists. reflexivity.
  - unfold _transform_prefix_add. destruct (Py.is_none value); eexists; reflexivity.
  - unfold _transform_split_name.
    destruct (negb (Py.truthy value)); [eexists; reflexivity |].
    destruct (Py.eqb _ (VStr "first")); [eexists; reflexivity |].
    destruct (Py.eqb _ (VStr "last")); eexists; reflexivity.
  - unfold _transform_uppercase. destruct (Py.is_none value); eexists; reflexivity.
  - unfold _transform_lowercase. destruct (Py.is_none value); eexists; reflexivity.
  - unfold _transform_boolean_to_enum.
    destruct (Py.is_none value); [eexists; reflexivity |].
    destruct value; eexists; reflexivity.
  - eexists. reflexivity.
  - unfold _transform_default. destruct (Py.is_none value); eexists; reflexivity.
  - unfold _transform_iso_to_unix.
    destruct value; try (eexists; reflexivity);
      destruct (parse_timestamp _); eexists; reflexivity.
  - unfold _transform_unix_to_iso.
    destruct (Py.is_none value); [eexists; reflexivity |].
    destruct (Py.to_float value); [| eexists; reflexivity].
    destruct (Datetime.fromtimestamp _); eexists; reflexivity.
  - unfold _transform_country_code.
    destruct (Py.is_none value); [eexists; reflexivity |].
    destruct (_ =? 2)%nat; eexists; reflexivity.
  - unfold _transform_clean_phone. destruct (Py.is_none value); eexists; reflexivity.
Qed.

End Operators.

Lemma prefix_add_then_strip_witness :
  Transformer._transform_prefix_add (rt := reference_runtime) (VStr "1042")
    [("prefix", VStr "cus_")] [] []
  = Ok (VStr ("cus_" ++ Py.str (rt := reference_runtime) (VStr "1042")))
  /\ Transformer._transform_prefix_strip (rt := reference_runtime)
       (VStr ("cus_" ++ Py.str (rt := reference_runtime) (VStr "1042")))
       [("prefix", VStr "cus_")] [] []
     = Ok (VStr (Py.str (rt := reference_runtime) (VStr "1042"))).
Proof.
  apply (prefix_add_then_strip (rt := reference_runtime) (VStr "1042") "cus_"
           [("prefix", VStr "cus_")] [] []).
  - discriminate.
  - reflexivity.
  - reflexivity.
Defined.

Lemma case_operators_idempotent_witness :
  (do out <- Transformer._transform_lowercase (rt := reference_runtime)
               (VStr "Jane Doe") [] [] [] ;;
   Transformer._transform_lowercase (rt := reference_runtime) out [] [] [])
  = Ok (VStr "jane doe")
  /\ (do out <- Transformer._transform_uppercase (rt := reference_runtime)
                  (VStr "Jane Doe") [] [] [] ;;
      Transformer._transform_uppercase (rt := reference_runtime) out [] [] [])
     = Ok (VStr "JANE DOE")
  /\ (do out <- Transformer._transform_uppercase (rt := reference_runtime)
                  (VStr "Jane Doe") [] [] [] ;;
      Transformer._transform_lowercase (rt := reference_runtime) out [] [] [])
     = Ok (VStr "jane doe").
Proof.
  apply (case_operators_idempotent (rt := reference_runtime) (VStr "Jane Doe")
           [] [] [] [] [] []).
  reflexivity.
Defined.

Lemma split_name_parts_witness :
  exists first,
    Transformer._transform_split_name (rt := reference_runtime) (VStr "Jane van Doe")
      [("part", VStr "first")] [] [] = Ok (VStr first)
    /\ Str.mem_char " "%char first = false
    /\ ((Transformer._transform_split_name (rt := reference_runtime) (VStr "Jane van Doe")
           [("part", VStr "last")] [] [] = Ok VNone
         /\ Py.str (rt := reference_runtime) (VStr "Jane van Doe") = first)
        \/ exists last,
             Transformer._transform_split_name (rt := reference_runtime)
               (VStr "Jane van Doe") [("part", VStr "last")] [] [] = Ok (VStr last)
             /\ Py.str (rt := reference_runtime) (VStr "Jane van Doe")
                = first ++ " " ++ last).
Proof.
  apply (split_name_parts (rt := reference_runtime) (VStr "Jane van Doe") [] []).
  reflexivity.
Defined.

Lemma truncate_bound_witness :
  exists s,
    Transformer._transform_truncate (rt := reference_runtime) (VStr "Jane Doe")
      [("max_length", VInt 4)] [] [] = Ok (VStr s)
    /\ (Z.of_nat (String.length s) <= 4)%Z
    /\ Str.startswith (Py.str (rt := reference_runtime) (VStr "Jane Doe")) s = true
    /\ ((Z.of_nat (String.length (Py.str (rt := reference_runtime) (VStr "Jane Doe")))
         <= 4)%Z ->
        s = Py.str (rt := reference_runtime) (VStr "Jane Doe")).
Proof.
  apply (truncate_bound (rt := reference_runtime) (VStr "Jane Doe") 4
           [("max_length", VInt 4)] [] []).
  - discriminate.
  - reflexivity.
  - lia.
Defined.

Lemma clean_phone_shape_witness :
  (VStr "+15551234567" = VNone
   \/ exists phone, VStr "+15551234567" = VStr phone /\ phone <> ""
                    /\ Str.all_chars phone_char phone = true)
  /\ Transformer._transform_clean_phone (rt := reference_runtime)
       (VStr "+15551234567") [] [] [] = Ok (VStr "+15551234567").
Proof.
  apply (clean_phone_shape (rt := reference_runtime) (VStr "1 (555) 123-4567")
           (VStr "+15551234567") [] [] [] [] [] []).
  reflexivity.
Defined.

Lemma builtin_transforms_total_witness :
  (exists out,
      Transformer._transform_country_code (rt := reference_runtime)
        (VList [VInt 1]) [("part", VInt 3)] [] [] = Ok out)
  /\ (exists out,
        Transformer._transform_boolean_to_enum
          (VList [VInt 1]) [("true", VList [])] [] [] = Ok out).
Proof.
  split.
  - apply (builtin_transforms_total (rt := reference_runtime) "country_code"
             (Transformer._transform_country_code (rt := reference_runtime))
             (VList [VInt 1]) [("part", VInt 3)] [] []).
    + reflexivity.
    + right. repeat split; vm_compute; reflexivity.
  - apply (builtin_transforms_total (rt := reference_runtime) "boolean_to_enum"
             Transformer._transform_boolean_to_enum
             (VList [VInt 1]) [("true", VList [])] [] []).
    + reflexivity.
    + left. reflexivity.
Defined.

(** ** Validation of records and batches *)

Section Validation.
Context {rt : PyRuntime}.

(** X14.  Strict validation reports what plain validation reports,
    followed by errors of severity [error] on field paths of the record
    that the schema does not know; a record that has no error under
    strict validation is therefore valid. *)
Theorem validate_record_strict_extends :
  forall (record : TransformedRecord) (schema : EntitySchema),
    exists unknown,
      Validator.validate_record record schema true
      = (Validator.validate_record record schema false ++ unknown)%list
      /\ Forall (unknown_field_report record) unknown
      /\ (Validator.has_error (Validator.validate_record record schema true) = false ->
          Validator.is_valid record schema = true).
Proof.
  intros record schema. unfold Validator.validate_record.
  eexists. split; [reflexivity |]. split.
  - apply Forall_forall. intros e He.
    apply in_flat_map in He. destruct He as [field [Hfield He]].
    destruct (negb _ && negb _); [| contradiction].
    destruct He as [<- | []]. repeat split. exact Hfield.
  - intros Hnone. unfold Validator.is_valid, Validator.validate_record, Validator.has_error in *.
    rewrite existsb_app in Hnone. apply orb_false_iff in Hnone.
    destruct Hnone as [-> _]. reflexivity.
Qed.

Lemma validate_field_required :
  forall field_name field_def,
    fd_required field_def = true ->
    Validator._validate_field field_name VNone field_def
    = [Validator.required_error field_name].
Proof.
  intros field_name [name type required max_length enum_values properties items_] Hreq.
  simpl in Hreq. subst required. reflexivity.
Qed.

(** X16.  A record in which a required field of the schema is absent
    or null gets the error [required] for that field, in both modes,
    and is not valid. *)
Theorem missing_required_field_invalid :
  forall (record : TransformedRecord) (schema : EntitySchema) (field : string)
         (field_def : FieldDefinition) (strict : bool),
    In (field, field_def) (es_fields schema) ->
    fd_required field_def = true ->
    Validator._get_nested_value (tr_data record) field = VNone ->
    In (Validator.required_error field) (Validator.validate_record record schema strict)
    /\ Validator.is_valid record schema = false.
Proof.
  intros record schema field field_def strict Hin Hreq Habsent.
  assert (In (Validator.required_error field)
             (Validator.validate_record record schema false)) as Hplain.
  { unfold Validator.validate_record. apply in_flat_map.
    exists (field, field_def). split; [exact Hin |].
    cbn [fst snd]. rewrite Habsent, (validate_field_required _ _ Hreq).
    left. reflexivity. }
  split.
  - destruct strict; [| exact Hplain].
    unfold Validator.validate_record in Hplain |- *.
    apply in_or_app. left. exact Hplain.
  - unfold Validator.is_valid, Validator.has_error.
    apply negb_false_iff. apply existsb_exists.
    exists (Validator.required_error field). split; [exact Hplain | reflexivity].
Qed.

Lemma id_set_length :
  forall {V} (d : BatchValidator.by_id V) k v,
    (List.length d <= List.length (BatchValidator.id_set d k v) <= S (List.length d))%nat.
Proof.
  intros V d k v. induction d as [| [k' v'] d IH]; simpl; [lia |].
  destruct (Py.eqb k k'); simpl; lia.
Qed.

Lemma id_set_values :
  forall {V} (P : V -> Prop) (d : BatchValidator.by_id V) k v,
    Forall (fun kv => P (snd kv)) d -> P v ->
    Forall (fun kv => P (snd kv)) (BatchValidator.id_set d k v).
Proof.
  intros V P d k v Hd Hv. induction d as [| [k' v'] d IH]; simpl.
  - constructor; [exact Hv | constructor].
  - inversion Hd as [| ? ? Hhead Htail]; subst.
    destruct (Py.eqb k k'); constructor; auto.
Qed.

Lemma id_set_not_empty :
  forall {V} (d : BatchValidator.by_id V) k v, BatchValidator.id_set d k v <> [].
Proof.
  intros V [| [k' v'] d] k v; simpl; [discriminate |].
  destruct (Py.eqb k k'); discriminate.
Qed.

Lemma reported_in_more :
  forall record records schema kv,
    reported_in records schema kv -> reported_in (record :: records) schema kv.
Proof.
  intros record records schema kv [Hne [r [Hr He]]].
  split; [exact Hne |]. exists r. split; [right; exact Hr | exact He].
Qed.

Lemma validate_batch_from_spec :
  forall records schema stop acc all_errors,
    BatchValidator.validate_batch_from records schema stop acc = Ok all_errors ->
    (List.length acc <= List.length all_errors)%nat
    /\ (stop = true -> List.length all_errors <= S (List.length acc))%nat
    /\ (List.length all_errors <= List.length acc + List.length records)%nat
    /\ (all_errors = [] ->
        forall record, In record records ->
                       Validator.validate_record record schema false = [])
    /\ ((forall record, In record records ->
                        Validator.validate_record record schema false = []) ->
        all_errors = acc).
Proof.
  induction records as [| record rest IH]; intros schema stop acc all_errors Hrun.
  - simpl in Hrun. injection Hrun as <-.
    repeat split; try lia; auto. intros _ record [].
  - cbn [BatchValidator.validate_batch_from] in Hrun.
    destruct (Validator.validate_record record schema false) as [| e es] eqn:Herrors.
    + destruct (IH schema stop acc all_errors Hrun) as [H2 [H3 [H4 [H5 H6]]]].
      split; [exact H2 |]. split; [exact H3 |]. split; [simpl; lia |]. split.
      * intros Hnil r [<- | Hr]; [exact Herrors | exact (H5 Hnil r Hr)].
      * intros Hclean. apply H6. intros r Hr. apply Hclean. right. exact Hr.
    + destruct (Orchestrator.hashable (tr_id record)); [| discriminate Hrun].
      pose proof (id_set_length acc (tr_id record) (e :: es)) as Hlen.
      pose proof (id_set_not_empty acc (tr_id record) (e :: es)) as Hne.
      assert (all_errors <> []) as Hall.
      { destruct stop.
        - injection Hrun as <-. exact Hne.
        - destruct (IH _ _ _ _ Hrun) as [H2 _].
          intros ->. simpl in H2.
          destruct (BatchValidator.id_set acc (tr_id record) (e :: es));
            [contradiction | simpl in H2; lia]. }
      assert (~ (forall r, In r (record :: rest) ->
                           Validator.validate_record r schema false = [])) as Hdirty.
      { intros Hclean. specialize (Hclean record (or_introl eq_refl)).
        rewrite Herrors in Hclean. discriminate Hclean. }
      assert ((List.length acc <= List.length all_errors)%nat
              /\ (stop = true -> List.length all_errors <= S (List.length acc))%nat
              /\ (List.length all_errors
                  <= List.length acc + List.length (record :: rest))%nat) as Hcount.
      { destruct stop.
        - injection Hrun as <-. simpl. repeat split; try lia.
        - destruct (IH _ _ _ _ Hrun) as [H2 [_ [H4 _]]].
          simpl. repeat split; try lia; try discriminate. }
      destruct Hcount as [H2 [H3 H4]].
      split; [exact H2 |]. split; [exact H3 |]. split; [exact H4 |]. split.
      * intros Hnil. contradiction.
      * intros Hclean. contradiction.
Qed.

Lemma validate_batch_from_reported :
  forall records schema stop acc all_errors all_records,
    BatchValidator.validate_batch_from records schema stop acc = Ok all_errors ->
    incl records all_records ->
    Forall (reported_in all_records schema) acc ->
    Forall (reported_in all_records schema) all_errors.
Proof.
  induction records as [| record rest IH];
    intros schema stop acc all_errors all_records Hrun Hincl Hacc.
  - simpl in Hrun. injection Hrun as <-. exact Hacc.
  - assert (incl rest all_records) as Hrest by (intros x Hx; apply Hincl; right; exact Hx).
    cbn [BatchValidator.validate_batch_from] in Hrun.
    destruct (Validator.validate_record record schema false) as [| e es] eqn:Herrors.
    + exact (IH _ _ _ _ _ Hrun Hrest Hacc).
    + destruct (Orchestrator.hashable (tr_id record)); [| discriminate Hrun].
      assert (Forall (reported_in all_records schema)
                (BatchValidator.id_set acc (tr_id record) (e :: es))) as Hacc'.
      { clear Hrun IH. induction acc as [| [k' v'] acc IHacc]; simpl.
        - constructor; [| constructor]. split; [discriminate |].
          exists record. split; [apply Hincl; left; reflexivity | symmetry; exact Herrors].
        - inversion Hacc as [| ? ? Hhead Htail]; subst.
          destruct (Py.eqb (tr_id record) k'); constructor; auto.
          split; [discriminate |].
          exists record. split; [apply Hincl; left; reflexivity | symmetry; exact Herrors]. }
      destruct stop; [injection Hrun as <-; exact Hacc' |].
      exact (IH _ _ _ _ _ Hrun Hrest Hacc').
Qed.

(** X17.  The dictionary [validate_batch] returns holds, under each of
    its keys, the errors of a record of the batch that has some; it is
    empty exactly when no record of the batch has an error, it has no
    more entries than the batch has records, and at most one when the
    run stops on the first error. *)
Theorem validate_batch_entries :
  forall (records : list TransformedRecord) (schema : EntitySchema)
         (stop_on_first_error : bool)
         (all_errors : BatchValidator.by_id (list ValidationError)),
    BatchValidator.validate_batch records schema stop_on_first_error = Ok all_errors ->
    Forall (reported_in records schema) all_errors
    /\ (all_errors = [] <->
        forall record, In record records ->
                       Validator.validate_record record schema false = [])
    /\ (List.length all_errors <= List.length records)%nat
    /\ (stop_on_first_error = true -> List.length all_errors <= 1)%nat.
Proof.
  intros records schema stop all_errors Hrun.
  unfold BatchValidator.validate_batch in Hrun.
  destruct (validate_batch_from_spec _ _ _ _ _ Hrun) as [_ [H3 [H4 [H5 H6]]]].
  split; [| split; [split; [exact H5 | exact H6] | split; [exact H4 | exact H3]]].
  exact (validate_batch_from_reported _ _ _ _ _ records Hrun (incl_refl _) (Forall_nil _)).
Qed.

End Validation.

Lemma missing_required_field_invalid_witness :
  In (Validator.required_error "email")
     (Validator.validate_record (rt := reference_runtime) Cases.empty_record
        Examples.customer_schema true)
  /\ Validator.is_valid (rt := reference_runtime) Cases.empty_record
       Examples.customer_schema = false.
Proof.
  apply (missing_required_field_invalid (rt := reference_runtime) Cases.empty_record
           Examples.customer_schema "email" Examples.email_field true).
  - left. reflexivity.
  - reflexivity.
  - reflexivity.
Defined.

Lemma validate_batch_entries_witness :
  Forall (reported_in (rt := reference_runtime)
            [Examples.record_with_extra; Cases.empty_record; Cases.failed_record]
            Examples.customer_schema)
         [(VStr "c2", [Validator.required_error "email"])]
  /\ ([(VStr "c2", [Validator.required_error "email"])] = [] <->
      forall record,
        In record [Examples.record_with_extra; Cases.empty_record; Cases.failed_record] ->
        Validator.validate_record (rt := reference_runtime) record
          Examples.customer_schema false = [])
  /\ (List.length [(VStr "c2", [Validator.required_error "email"])]
      <= List.length [Examples.record_with_extra; Cases.empty_record;
                      Cases.failed_record])%nat
  /\ (true = true ->
      List.length [(VStr "c2", [Validator.required_error "email"])] <= 1)%nat.
Proof.
  apply (validate_batch_entries (rt := reference_runtime)
           [Examples.record_with_extra; Cases.empty_record; Cases.failed_record]
           Examples.customer_schema true).
  reflexivity.
Defined.

(** ** The fields validation errors name *)

Lemma startswith_refl : forall s, Str.startswith s s = true.
Proof.
  unfold Str.startswith. induction s as [| c s IH]; simpl; [reflexivity |].
  destruct (ascii_dec c c) as [_ | NE]; [exact IH | contradiction].
Qed.

Lemma startswith_app_l :
  forall a b s, Str.startswith s (a ++ b) = true -> Str.startswith s a = true.
Proof.
  unfold Str.startswith. induction a as [| c a IH]; intros b s H.
  - destruct s; reflexivity.
  - destruct s as [| d s]; simpl in H |- *; [discriminate H |].
    destruct (ascii_dec c d); [exact (IH b s H) | discriminate H].
Qed.

Section FieldErrors.
Context {rt : PyRuntime}.

Lemma validate_field_names :
  forall field_def field_name value e,
    In e (Validator._validate_field field_name value field_def) ->
    Str.startswith (ve_field e) field_name = true.
Proof.
  fix IH 1.
  intros [name type required max_length enum_values properties items_] field_name value e Hin.
  cbn [Validator._validate_field] in Hin.
  destruct (required && Py.is_none value).
  { destruct Hin as [<- | []]. apply startswith_refl. }
  destruct (Py.is_none value); [contradiction |].
  repeat (apply in_app_or in Hin; destruct Hin as [Hin | Hin]).
  - unfold Validator._validate_type in Hin.
    destruct (negb _); [| contradiction].
    destruct Hin as [<- | []]. apply startswith_refl.
  - unfold Validator.max_length_errors in Hin.
    destruct max_length as [n |]; [| contradiction].
    destruct value; try contradiction.
    destruct (_ && _); [| contradiction].
    destruct Hin as [<- | []]. apply startswith_refl.
  - unfold Validator.enum_errors in Hin.
    destruct enum_values as [[| x xs] |]; try contradiction.
    destruct (negb _); [| contradiction].
    destruct Hin as [<- | []]. apply startswith_refl.
  - destruct properties as [props |]; [| contradiction].
    destruct value; try contradiction.
    destruct (FieldType_eqb type OBJECT); [| contradiction].
    induction props as [| [prop_name prop_def] props IHprops]; [contradiction |].
    apply in_app_or in Hin. destruct Hin as [Hin | Hin].
    + apply (startswith_app_l field_name ("." ++ prop_name)).
      exact (IH prop_def _ _ _ Hin).
    + exact (IHprops Hin).
  - destruct items_ as [item_def |]; [| contradiction].
    destruct value; try contradiction.
    destruct (FieldType_eqb type ARRAY); [| contradiction].
    revert Hin. generalize 0%Z as i.
    induction l as [| item l IHl]; intros i Hin; [contradiction |].
    apply in_app_or in Hin. destruct Hin as [Hin | Hin].
    + apply (startswith_app_l field_name ("[" ++ Str.of_Z i ++ "]")).
      exact (IH item_def _ _ _ Hin).
    + exact (IHl _ Hin).
Qed.

(** X18.  Every error plain validation reports is filed under a field
    of the schema: the path it names starts with the name of the field
    whose definition found it, also when it comes from a property of an
    object or from an element of a list. *)
Theorem validate_record_error_fields :
  forall (record : TransformedRecord) (schema : EntitySchema) (e : ValidationError),
    In e (Validator.validate_record record schema false) ->
    exists field,
      In field (Dict.keys (es_fields schema))
      /\ Str.startswith (ve_field e) field = true.
Proof.
  intros record schema e Hin. unfold Validator.validate_record in Hin.
  apply in_flat_map in Hin. destruct Hin as [[field field_def] [Hfield Hin]].
  cbn [fst snd] in Hin. exists field. split.
  - exact (in_dict_key _ _ _ Hfield).
  - exact (validate_field_names _ _ _ _ Hin).
Qed.

End FieldErrors.

Lemma validate_record_error_fields_witness :
  exists field,
    In field (Dict.keys (es_fields Examples.customer_schema))
    /\ Str.startswith (ve_field (Validator.required_error "email")) field = true.
Proof.
  apply (validate_record_error_fields (rt := reference_runtime) Cases.empty_record
           Examples.customer_schema (Validator.required_error "email")).
  left. reflexivity.
Defined.

(** ** Registry lookup and matching by name *)

Section RegistryLookup.

Lemma lower_upper : forall s, Str.lower (Str.upper s) = Str.lower s.
Proof. intros s. apply map_chars_map_chars. exact lower_upper_char. Qed.

Lemma lower_lower : forall s, Str.lower (Str.lower s) = Str.lower s.
Proof. intros s. apply map_chars_map_chars. exact lower_char_idem. Qed.

(** X19.  For service names in ASCII, a schema is found again under
    its service name in any capitalisation, and registering it changes
    the answer for no service whose name differs from its own beyond
    the case of letters. *)
Theorem register_schema_lookup :
  forall (self : Registry.SchemaRegistry) (schema : ServiceSchema) (service_name : string),
    Str.is_ascii (ss_name schema) = true ->
    Str.is_ascii service_name = true ->
    Registry.get_schema (Registry.register_schema self schema) service_name
    = (if String.eqb (Str.lower service_name) (Str.lower (ss_name schema))
       then Some schema
       else Registry.get_schema self service_name)
    /\ Registry.get_schema (Registry.register_schema self schema) (Str.upper (ss_name schema))
       = Some schema
    /\ Registry.get_schema (Registry.register_schema self schema) (Str.lower (ss_name schema))
       = Some schema.
Proof.
  intros self schema service_name _ _.
  unfold Registry.get_schema, Registry.register_schema. cbn [Registry.schemas].
  rewrite !dict_get_set, lower_upper, lower_lower, String.eqb_refl.
  repeat split.
Qed.

End RegistryLookup.

Lemma register_schema_lookup_witness :
  Registry.get_schema
    (Registry.register_schema (Registry.mk_SchemaRegistry []) (mk_ServiceSchema "Stripe" []))
    "STRIPE"
  = (if String.eqb (Str.lower "STRIPE") (Str.lower "Stripe")
     then Some (mk_ServiceSchema "Stripe" [])
     else Registry.get_schema (Registry.mk_SchemaRegistry []) "STRIPE")
  /\ Registry.get_schema
       (Registry.register_schema (Registry.mk_SchemaRegistry []) (mk_ServiceSchema "Stripe" []))
       (Str.upper "Stripe")
     = Some (mk_ServiceSchema "Stripe" [])
  /\ Registry.get_schema
       (Registry.register_schema (Registry.mk_SchemaRegistry []) (mk_ServiceSchema "Stripe" []))
       (Str.lower "Stripe")
     = Some (mk_ServiceSchema "Stripe" []).
Proof.
  apply (register_schema_lookup (Registry.mk_SchemaRegistry []) (mk_ServiceSchema "Stripe" [])
           "STRIPE").
  - reflexivity.
  - reflexivity.
Defined.

Section Normalisation.

Lemma split_go_char :
  forall ch c r,
    Str.split_go (String ch EmptyString) (String c r) 0
    = if Ascii.eqb ch c
      then (EmptyString,
            let '(p, ps) := Str.split_go (String ch EmptyString) r 0 in p :: ps)
      else let '(p, ps) := Str.split_go (String ch EmptyString) r 0 in (String c p, ps).
Proof.
  intros ch c r. cbn [Str.split_go]. rewrite startswith_char. reflexivity.
Qed.

Lemma join_empty_cons :
  forall c p ps, Str.join "" (String c p :: ps) = String c (Str.join "" (p :: ps)).
Proof. intros c p [| q ps]; reflexivity. Qed.

Lemma replace_char_empty :
  forall ch s,
    Str.replace (String ch EmptyString) "" s
    = Str.filter_chars (fun c => negb (Ascii.eqb ch c)) s.
Proof.
  intros ch s. unfold Str.replace, Str.split.
  induction s as [| c r IH]; [reflexivity |].
  rewrite split_go_char. cbn [Str.filter_chars].
  destruct (Str.split_go (String ch EmptyString) r 0) as [p ps].
  destruct (Ascii.eqb ch c); cbn [negb].
  - rewrite <- IH. reflexivity.
  - rewrite join_empty_cons, IH. reflexivity.
Qed.

Lemma normalize_by_core :
  forall name,
    SchemaMatching._normalize_field_name name
    = match Dict.get SchemaMatching.variations (name_core name) with
      | Some v => v
      | None => name_core name
      end.
Proof.
  intros name. unfold SchemaMatching._normalize_field_name.
  rewrite !replace_char_empty. reflexivity.
Qed.

Lemma map_chars_app :
  forall f a b, Str.map_chars f (a ++ b) = Str.map_chars f a ++ Str.map_chars f b.
Proof. intros f a b. induction a as [| c a IH]; simpl; [| rewrite IH]; reflexivity. Qed.

Lemma filter_chars_app :
  forall p a b, Str.filter_chars p (a ++ b) = Str.filter_chars p a ++ Str.filter_chars p b.
Proof.
  intros p a b. induction a as [| c a IH]; simpl; [reflexivity |].
  rewrite IH. destruct (p c); reflexivity.
Qed.

Lemma name_core_app : forall a b, name_core (a ++ b) = name_core a ++ name_core b.
Proof.
  intros a b. unfold name_core, Str.lower.
  rewrite map_chars_app, !filter_chars_app. reflexivity.
Qed.

(** X20.  Field names in ASCII are matched up to the case of letters
    and to underscores and dashes: changing the case of a name, or
    putting an underscore or a dash anywhere into it, does not change
    what [_normalize_field_name] returns. *)
Theorem normalize_field_name_insensitive :
  forall (name before after : string),
    Str.is_ascii name = true ->
    Str.is_ascii before = true ->
    Str.is_ascii after = true ->
    SchemaMatching._normalize_field_name (Str.upper name)
    = SchemaMatching._normalize_field_name name
    /\ SchemaMatching._normalize_field_name (Str.lower name)
       = SchemaMatching._normalize_field_name name
    /\ SchemaMatching._normalize_field_name (before ++ "_" ++ after)
       = SchemaMatching._normalize_field_name (before ++ after)
    /\ SchemaMatching._normalize_field_name (before ++ "-" ++ after)
       = SchemaMatching._normalize_field_name (before ++ after).
Proof.
  intros name before after _ _ _. rewrite !normalize_by_core.
  assert (name_core (Str.upper name) = name_core name) as ->
      by (unfold name_core; rewrite lower_upper; reflexivity).
  assert (name_core (Str.lower name) = name_core name) as ->
      by (unfold name_core; rewrite lower_lower; reflexivity).
  rewrite !name_core_app.
  change (name_core "_") with "". change (name_core "-") with "".
  repeat split.
Qed.

End Normalisation.

Lemma normalize_field_name_insensitive_witness :
  SchemaMatching._normalize_field_name (Str.upper "firstName")
  = SchemaMatching._normalize_field_name "firstName"
  /\ SchemaMatching._normalize_field_name (Str.lower "firstName")
     = SchemaMatching._normalize_field_name "firstName"
  /\ SchemaMatching._normalize_field_name ("first" ++ "_" ++ "name")
     = SchemaMatching._normalize_field_name ("first" ++ "name")
  /\ SchemaMatching._normalize_field_name ("first" ++ "-" ++ "name")
     = SchemaMatching._normalize_field_name ("first" ++ "name").
Proof.
  apply (normalize_field_name_insensitive "firstName" "first" "name"); reflexivity.
Defined.

Section Matching.

Lemma in_dict_set {V : Type} :
  forall (d : dict V) k v k' v',
    In (k', v') (Dict.set d k v) -> (k', v') = (k, v) \/ In (k', v') d.
Proof.
  intros d k v k' v'. induction d as [| [k0 v0] d IH]; simpl.
  - intros [E | []]. left. symmetry. exact E.
  - destruct (String.eqb_spec k k0) as [E | NE]; simpl.
    + subst k0. intros [E | H]; [left; symmetry; exact E | right; right; exact H].
    + intros [E | H]; [right; left; exact E |].
      destruct (IH H) as [E | H']; [left; exact E | right; right; exact H'].
Qed.

Lemma dict_set_keys_nodup {V : Type} :
  forall (d : dict V) k v, NoDup (Dict.keys d) -> NoDup (Dict.keys (Dict.set d k v)).
Proof.
  intros d k v. unfold Dict.keys. induction d as [| [k0 v0] d IH]; simpl; intros Hnd.
  - constructor; [intros [] | constructor].
  - inversion Hnd as [| ? ? Hnotin Hnd']; subst.
    destruct (String.eqb_spec k k0) as [E | NE]; simpl.
    + constructor; assumption.
    + constructor; [| exact (IH Hnd')].
      intros Hin. apply in_map_iff in Hin. destruct Hin as [[k1 v1] [Hk Hin]].
      simpl in Hk. subst k1.
      destruct (in_dict_set _ _ _ _ _ Hin) as [E | H].
      * injection E as E1 _. congruence.
      * apply Hnotin. apply in_map_iff. exists (k0, v1). split; [reflexivity | exact H].
Qed.

Lemma dict_get_in {V : Type} :
  forall (d : dict V) k v, Dict.get d k = Some v -> In (k, v) d.
Proof.
  intros d k v. induction d as [| [k0 v0] d IH]; simpl; [discriminate |].
  destruct (String.eqb_spec k k0) as [E | NE].
  - intros H. injection H as <-. subst k0. left. reflexivity.
  - intros H. right. exact (IH H).
Qed.

Lemma by_normalized_name_entries :
  forall fields,
    NoDup (Dict.keys (SchemaMatching.by_normalized_name fields))
    /\ forall n f,
         In (n, f) (SchemaMatching.by_normalized_name fields) ->
         In f (Dict.keys fields) /\ SchemaMatching._normalize_field_name f = n.
Proof.
  intros fields. unfold SchemaMatching.by_normalized_name.
  generalize (Dict.keys fields) as names. intros names.
  assert (forall (l : list string) (acc : dict string),
             NoDup (Dict.keys acc) ->
             (forall n f, In (n, f) acc ->
                          In f names /\ SchemaMatching._normalize_field_name f = n) ->
             incl l names ->
             let d := fold_left (fun acc f =>
                                   Dict.set acc (SchemaMatching._normalize_field_name f) f)
                                l acc in
             NoDup (Dict.keys d)
             /\ forall n f, In (n, f) d ->
                            In f names /\ SchemaMatching._normalize_field_name f = n) as Hgen.
  { induction l as [| x l IH]; intros acc Hnd Hacc Hincl; simpl.
    - split; assumption.
    - apply IH.
      + apply dict_set_keys_nodup. exact Hnd.
      + intros n f Hin. destruct (in_dict_set _ _ _ _ _ Hin) as [E | H].
        * injection E as -> ->. split; [apply Hincl; left; reflexivity | reflexivity].
        * exact (Hacc n f H).
      + intros y Hy. apply Hincl. right. exact Hy. }
  apply (Hgen names []).
  - constructor.
  - intros n f [].
  - apply incl_refl.
Qed.

Lemma match_fields_entries :
  forall source_schema target_schema fm,
    In fm (SchemaMatching.match_fields
             (SchemaMatching.by_normalized_name (es_fields source_schema))
             (SchemaMatching.by_normalized_name (es_fields target_schema))) ->
    name_matched source_schema target_schema fm.
Proof.
  intros source_schema target_schema fm Hin.
  unfold SchemaMatching.match_fields in Hin.
  apply in_flat_map in Hin. destruct Hin as [[n target_field] [Htarget Hin]].
  cbn [fst snd] in Hin.
  destruct (Dict.get _ n) as [source_field |] eqn:Hsource; [| contradiction].
  destruct Hin as [<- | []].
  destruct (by_normalized_name_entries (es_fields source_schema)) as [_ Hs].
  destruct (by_normalized_name_entries (es_fields target_schema)) as [_ Ht].
  destruct (Hs n source_field (dict_get_in _ _ _ Hsource)) as [Hs1 Hs2].
  destruct (Ht n target_field Htarget) as [Ht1 Ht2].
  exists source_field. cbn [fm_target_field SchemaMatching.auto_matched].
  split; [reflexivity |]. split; [exact Hs1 |]. split; [exact Ht1 | congruence].
Qed.

Lemma match_fields_targets_nodup :
  forall source_fields target_fields,
    NoDup (Dict.values target_fields) ->
    NoDup (map fm_target_field (SchemaMatching.match_fields source_fields target_fields)).
Proof.
  intros source_fields target_fields. unfold SchemaMatching.match_fields, Dict.values.
  induction target_fields as [| [n t] rest IH]; simpl; intros Hnd; [constructor |].
  inversion Hnd as [| ? ? Hnotin Hnd']; subst.
  destruct (Dict.get source_fields n) as [s |]; simpl; [| exact (IH Hnd')].
  constructor; [| exact (IH Hnd')].
  intros Hin. apply Hnotin.
  apply in_map_iff in Hin. destruct Hin as [fm [Hfm Hin]].
  apply in_flat_map in Hin. destruct Hin as [[n' t'] [Hrest Hin]].
  cbn [fst snd] in Hin. destruct (Dict.get source_fields n'); [| contradiction].
  destruct Hin as [<- | []]. simpl in Hfm. subst t'.
  apply in_map_iff. exists (n', t). split; [reflexivity | exact Hrest].
Qed.

Lemma by_normalized_name_values_nodup :
  forall fields, NoDup (Dict.values (SchemaMatching.by_normalized_name fields)).
Proof.
  intros fields.
  destruct (by_normalized_name_entries fields) as [Hnd Hentries].
  revert Hnd Hentries. generalize (SchemaMatching.by_normalized_name fields) as d.
  unfold Dict.keys, Dict.values.
  induction d as [| [n f] d IH]; simpl; intros Hnd Hentries; [constructor |].
  inversion Hnd as [| ? ? Hnotin Hnd']; subst.
  constructor.
  - intros Hin. apply Hnotin. apply in_map_iff in Hin.
    destruct Hin as [[n' f'] [Hf Hin]]. simpl in Hf. subst f'.
    apply in_map_iff. exists (n', f). split; [| exact Hin].
    simpl. destruct (Hentries n' f (or_intror Hin)) as [_ <-].
    destruct (Hentries n f (or_introl eq_refl)) as [_ <-]. reflexivity.
  - apply IH; [exact Hnd' |]. intros n' f' H. apply Hentries. right. exact H.
Qed.

Lemma created_mapping_matched :
  forall source_schema target_schema source_service target_service auto_match,
    Forall (name_matched source_schema target_schema)
           (em_field_mappings
              (SchemaMatching.create_mapping_from_schemas source_schema target_schema
                 source_service target_service auto_match)).
Proof.
  intros source_schema target_schema source_service target_service auto_match.
  cbn [SchemaMatching.create_mapping_from_schemas em_field_mappings].
  destruct auto_match; [| constructor].
  apply Forall_forall. intros fm Hin. exact (match_fields_entries _ _ _ Hin).
Qed.

(** X21.  Every field mapping [create_mapping_from_schemas] makes is a
    direct copy, without condition or default, from a field of the
    source schema to a field of the target schema whose normalized
    names agree; no target field is mapped twice; and without
    [auto_match] no field mapping is made. *)
Theorem create_mapping_from_schemas_pairs :
  forall (source_schema target_schema : EntitySchema)
         (source_service target_service : string) (auto_match : bool),
    let mapping := SchemaMatching.create_mapping_from_schemas source_schema target_schema
                     source_service target_service auto_match in
    Forall (name_matched source_schema target_schema) (em_field_mappings mapping)
    /\ NoDup (map fm_target_field (em_field_mappings mapping))
    /\ (auto_match = false -> em_field_mappings mapping = [])
    /\ em_source_entity mapping = es_name source_schema
    /\ em_target_entity mapping = es_name target_schema.
Proof.
  intros source_schema target_schema source_service target_service auto_match.
  split; [apply created_mapping_matched |].
  cbn [SchemaMatching.create_mapping_from_schemas em_field_mappings
       em_source_entity em_target_entity].
  destruct auto_match.
  - split; [| split; [discriminate | split; reflexivity]].
    apply match_fields_targets_nodup. apply by_normalized_name_values_nodup.
  - repeat split; try constructor.
Qed.

(** X22.  When both schemas are registered, and every field of the
    target schema has its first segment among the fields of that schema
    or lies under [meta_data], [validate_mapping] finds in the mapping
    [create_mapping_from_schemas] makes no field that is not declared:
    the errors it returns are those of the required target fields left
    without a mapping. *)
Theorem created_mapping_validates :
  forall (self : Registry.SchemaRegistry) (source_schema target_schema : EntitySchema)
         (source_service target_service : string) (auto_match : bool),
    let mapping := SchemaMatching.create_mapping_from_schemas source_schema target_schema
                     source_service target_service auto_match in
    Registry.get_entity_schema self source_service (es_name source_schema)
    = Some source_schema ->
    Registry.get_entity_schema self target_service (es_name target_schema)
    = Some target_schema ->
    (forall field,
        In field (Dict.keys (es_fields target_schema)) ->
        Dict.contains (es_fields target_schema) (hd "" (Str.split "." field)) = true
        \/ Str.startswith field "meta_data" = true) ->
    Registry.validate_mapping self mapping
    = map Registry.missing_mapping_error
          (Registry.unmapped_required_fields mapping target_schema).
Proof.
  intros self source_schema target_schema source_service target_service auto_match
         mapping Hsource Htarget Hroots.
  pose proof (created_mapping_matched source_schema target_schema
                source_service target_service auto_match) as Hpairs.
  fold mapping in Hpairs.
  unfold Registry.validate_mapping.
  change (em_source_service mapping) with source_service.
  change (em_source_entity mapping) with (es_name source_schema).
  change (em_target_service mapping) with target_service.
  change (em_target_entity mapping) with (es_name target_schema).
  rewrite Hsource, Htarget. cbn [app].
  rewrite declared_no_field_errors.
  - unfold Registry.unmapped_required_fields. rewrite map_map. reflexivity.
  - intros fm Hin. rewrite Forall_forall in Hpairs.
    destruct (Hpairs fm Hin) as [source_field [Hfm [Hs [Ht _]]]].
    split.
    + unfold Registry.source_declared. rewrite Hfm. cbn [fm_source_field].
      right. left. unfold Dict.contains.
      apply in_map_iff in Hs. destruct Hs as [[k v] [Hk Hin']]. simpl in Hk. subst k.
      destruct (Dict.get (es_fields source_schema) source_field) eqn:E; [reflexivity |].
      exfalso. revert E. clear - Hin'.
      induction (es_fields source_schema) as [| [k0 v0] d IH]; [contradiction |].
      simpl. destruct (String.eqb_spec source_field k0); [discriminate |].
      destruct Hin' as [E | H]; [congruence | exact (IH H)].
    + unfold Registry.target_declared. right. exact (Hroots _ Ht).
Qed.

End Matching.

Lemma created_mapping_validates_witness :
  Registry.validate_mapping Examples.registry
    (SchemaMatching.create_mapping_from_schemas Cases.stripe_customer_schema
       Cases.chargebee_customer_schema "stripe" "chargebee" true)
  = map Registry.missing_mapping_error
        (Registry.unmapped_required_fields
           (SchemaMatching.create_mapping_from_schemas Cases.stripe_customer_schema
              Cases.chargebee_customer_schema "stripe" "chargebee" true)
           Cases.chargebee_customer_schema).
Proof.
  apply (created_mapping_validates Examples.registry Cases.stripe_customer_schema
           Cases.chargebee_customer_schema "stripe" "chargebee" true).
  - reflexivity.
  - reflexivity.
  - intros field [<- | [<- | [<- | []]]]; left; reflexivity.
Defined.

(** ** Batches and keys *)

Section Batches.
Context {A : Type}.

Lemma full_but_last_cons :
  forall size (b : list A) rest,
    (rest = [] -> (0 < List.length b <= size)%nat) ->
    (rest <> [] -> List.length b = size /\ full_but_last size rest) ->
    full_but_last size (b :: rest).
Proof.
  intros size b [| c rest] Hlast Hfull.
  - simpl. apply Hlast. reflexivity.
  - apply Hfull. discriminate.
Qed.

Lemma batches_from :
  forall (records : list A) (batch_size : Z) (fuel : nat) (start : Z),
    (0 < batch_size)%Z ->
    (0 <= start)%Z ->
    (Z.of_nat (List.length records) - start <= Z.of_nat fuel)%Z ->
    let batches :=
      map (fun i => Pipeline.slice records i (i + batch_size)%Z)
          (Pipeline.range_up fuel start (Z.of_nat (List.length records)) batch_size) in
    List.concat batches = skipn (Z.to_nat start) records
    /\ full_but_last (Z.to_nat batch_size) batches
    /\ (batches = [] <-> (Z.of_nat (List.length records) <= start)%Z)
    /\ Z.of_nat (List.length batches)
       = Z.max 0 ((Z.of_nat (List.length records) - start + batch_size - 1) / batch_size).
Proof.
  intros records batch_size fuel. induction fuel as [| fuel IH];
    intros start Hsize Hstart Hfuel; cbn [Pipeline.range_up].
  - cbn [map List.concat List.length]. split; [| split; [exact I | split]].
    + symmetry. apply skipn_all2. lia.
    + split; [intros _; lia | reflexivity].
    + assert ((Z.of_nat (List.length records) - start + batch_size - 1) / batch_size <= 0)%Z.
      { apply Z.le_trans with ((batch_size - 1) / batch_size)%Z.
        - apply Z.div_le_mono; lia.
        - rewrite Z.div_small; lia. }
      lia.
  - destruct (Z.ltb_spec start (Z.of_nat (List.length records))) as [Hlt | Hge].
    + destruct (IH (start + batch_size)%Z Hsize ltac:(lia) ltac:(lia))
        as [Hconcat [Hfull [Hnil Hcount]]].
      cbn [map List.concat List.length].
      set (rest := map (fun i => Pipeline.slice records i (i + batch_size)%Z)
                       (Pipeline.range_up fuel (start + batch_size)
                          (Z.of_nat (List.length records)) batch_size)) in *.
      assert (Pipeline.slice records start (start + batch_size)
              = firstn (Z.to_nat batch_size) (skipn (Z.to_nat start) records)) as Hslice.
      { unfold Pipeline.slice. f_equal. f_equal. lia. }
      assert (List.length (Pipeline.slice records start (start + batch_size))
              = Nat.min (Z.to_nat batch_size) (List.length records - Z.to_nat start))
        as Hlen.
      { rewrite Hslice, length_firstn, length_skipn. reflexivity. }
      split; [| split; [| split]].
      * rewrite Hconcat, Hslice.
        replace (Z.to_nat (start + batch_size))
          with (Z.to_nat batch_size + Z.to_nat start)%nat by lia.
        rewrite <- skipn_skipn. apply firstn_skipn.
      * apply full_but_last_cons.
        -- intros Hrest. apply Hnil in Hrest. rewrite Hlen. lia.
        -- intros Hrest. split; [| exact Hfull].
           rewrite Hlen.
           assert (~ (Z.of_nat (List.length records) <= start + batch_size)%Z)
             by (intros H; apply Hnil in H; contradiction).
           lia.
      * split; [discriminate | lia].
      * rewrite Nat2Z.inj_succ, Hcount.
        replace (Z.of_nat (List.length records) - start + batch_size - 1)%Z
          with ((Z.of_nat (List.length records) - (start + batch_size) + batch_size - 1)
                + 1 * batch_size)%Z by lia.
        rewrite Z.div_add by lia.
        assert (0 <= (Z.of_nat (List.length records) - (start + batch_size)
                      + batch_size - 1) / batch_size)%Z.
        { apply Z.div_pos; lia. }
        lia.
    + cbn [map List.concat List.length]. split; [| split; [exact I | split]].
      * symmetry. apply skipn_all2. lia.
      * split; [intros _; lia | reflexivity].
      * assert ((Z.of_nat (List.length records) - start + batch_size - 1) / batch_size
                <= 0)%Z.
        { apply Z.le_trans with ((batch_size - 1) / batch_size)%Z.
          - apply Z.div_le_mono; lia.
          - rewrite Z.div_small; lia. }
        lia.
Qed.

(** X24.  With a positive batch size [_batch_iterator] cuts the records
    into consecutive batches: put end to end the batches are the
    records, every batch but the last has exactly [batch_size] records,
    the last has between one and [batch_size], and their number is the
    number of records divided by [batch_size], rounded up.  A batch
    size of zero raises ValueError, and a negative one yields no batch
    at all. *)
Theorem batch_iterator_partition :
  forall (records : list A) (batch_size : Z),
    ((0 < batch_size)%Z
     /\ exists batches,
          Pipeline._batch_iterator records batch_size = Ok batches
          /\ List.concat batches = records
          /\ full_but_last (Z.to_nat batch_size) batches
          /\ Z.of_nat (List.length batches)
             = ((Z.of_nat (List.length records) + batch_size - 1) / batch_size)%Z)
    \/ (batch_size = 0%Z /\ Pipeline._batch_iterator records batch_size = Raise ValueError)
    \/ ((batch_size < 0)%Z /\ Pipeline._batch_iterator records batch_size = Ok []).
Proof.
  intros records batch_size. unfold Pipeline._batch_iterator.
  destruct (Z.eqb_spec batch_size 0) as [E | NE]; [right; left; split; [exact E | reflexivity] |].
  destruct (Z.ltb_spec batch_size 0) as [Hneg | Hpos]; [right; right; split; [exact Hneg | reflexivity] |].
  left. split; [lia |].
  destruct (batches_from records batch_size (List.length records) 0 ltac:(lia) ltac:(lia)
              ltac:(lia)) as [Hconcat [Hfull [_ Hcount]]].
  eexists. split; [reflexivity |]. split; [exact Hconcat |]. split; [exact Hfull |].
  rewrite Hcount. rewrite Z.sub_0_r.
  assert (0 <= (Z.of_nat (List.length records) + batch_size - 1) / batch_size)%Z
    by (apply Z.div_pos; lia).
  lia.
Qed.

End Batches.

Section Keys.

Lemma join_cons2 :
  forall sep x y l, Str.join sep (x :: y :: l) = x ++ sep ++ Str.join sep (y :: l).
Proof. reflexivity. Qed.

Lemma join_char_cons :
  forall sep c p ps, Str.join sep (String c p :: ps) = String c (Str.join sep (p :: ps)).
Proof. intros sep c p [| q ps]; reflexivity. Qed.

Lemma join_split_char :
  forall ch s, Str.join (String ch EmptyString) (Str.split (String ch EmptyString) s) = s.
Proof.
  intros ch s. unfold Str.split. induction s as [| c r IH]; [reflexivity |].
  rewrite split_go_char.
  destruct (Str.split_go (String ch EmptyString) r 0) as [p ps].
  destruct (Ascii.eqb_spec ch c) as [E | NE].
  - subst c. rewrite join_cons2, IH. reflexivity.
  - rewrite join_char_cons, IH. reflexivity.
Qed.

Lemma split_app_char :
  forall ch a rest,
    Str.mem_char ch a = false ->
    Str.split (String ch EmptyString) (a ++ String ch rest)
    = a :: Str.split (String ch EmptyString) rest.
Proof.
  intros ch a rest. unfold Str.split. induction a as [| c a IH]; intros Hmem.
  - cbn [append]. rewrite split_go_char, Ascii.eqb_refl.
    destruct (Str.split_go (String ch EmptyString) rest 0). reflexivity.
  - cbn [Str.mem_char] in Hmem. apply orb_false_iff in Hmem. destruct Hmem as [Hc Ha].
    cbn [append]. rewrite split_go_char, Hc.
    specialize (IH Ha).
    destruct (Str.split_go (String ch EmptyString) (a ++ String ch rest) 0) as [p ps].
    destruct (Str.split_go (String ch EmptyString) rest 0) as [q qs].
    injection IH as -> ->. reflexivity.
Qed.

Lemma split_key_underscore :
  forall head rest,
    Str.mem_char "_"%char head = false ->
    Pipeline.split_key (head ++ "_" ++ rest) = (head, rest).
Proof.
  intros head rest Hhead. unfold Pipeline.split_key.
  change (head ++ "_" ++ rest) with (head ++ String "_"%char rest).
  rewrite (split_app_char "_"%char head rest Hhead). cbn [hd tl].
  rewrite join_split_char. reflexivity.
Qed.

Lemma append_assoc : forall a b c : string, (a ++ b) ++ c = a ++ b ++ c.
Proof. intros a b c. induction a as [| x a IH]; simpl; [| rewrite IH]; reflexivity. Qed.

(** X25.  The key the transformed records of an entity are held under
    is read back into the service and the entity when the service name
    has no underscore, whatever the entity name; when the service name
    has one, the key is read as the part of the service name before its
    first underscore, with the rest of it moved into the entity name. *)
Theorem split_key_of_data_key :
  forall (service entity : string),
    Str.mem_char "_"%char service = false ->
    Pipeline.split_key (Pipeline.data_key service entity) = (service, entity)
    /\ forall more,
         Pipeline.split_key (Pipeline.data_key (service ++ "_" ++ more) entity)
         = (service, more ++ "_" ++ entity).
Proof.
  intros service entity Hservice. unfold Pipeline.data_key. split.
  - apply split_key_underscore. exact Hservice.
  - intros more. rewrite !append_assoc.
    apply (split_key_underscore service (more ++ "_" ++ entity) Hservice).
Qed.

End Keys.

Lemma split_key_of_data_key_witness :
  Pipeline.split_key (Pipeline.data_key "chargebee" "plan_item_price")
  = ("chargebee", "plan_item_price")
  /\ forall more,
       Pipeline.split_key (Pipeline.data_key ("chargebee" ++ "_" ++ more) "plan_item_price")
       = ("chargebee", more ++ "_" ++ "plan_item_price").
Proof.
  apply (split_key_of_data_key "chargebee" "plan_item_price").
  reflexivity.
Defined.

(** ** The validation phase *)

Section ValidationPhase.
Context {rt : PyRuntime}.

Lemma validation_fold :
  forall schema records valid step,
    fold_left (Pipeline.validation_step schema) records (valid, step)
    = ((valid ++ filter Records.is_valid (map (Pipeline.checked schema) records))%list,
       Pipeline.mk_MigrationStep (Pipeline.step_entity step)
         (Pipeline.records_processed step + Z.of_nat (List.length records))
         (Pipeline.records_succeeded step
          + Z.of_nat (List.length (filter Records.is_valid
                                     (map (Pipeline.checked schema) records))))
         (Pipeline.records_failed step
          + Z.of_nat (List.length (failed_records schema records)))
         (Pipeline.step_errors step
          ++ map (fun r => (tr_id r, tr_validation_errors r))
                 (failed_records schema records))%list).
Proof.
  intros schema records. unfold failed_records.
  induction records as [| record rest IH]; intros valid step.
  - simpl. rewrite !app_nil_r, !Z.add_0_r. destruct step; reflexivity.
  - cbn [fold_left map filter]. unfold Pipeline.validation_step at 2.
    destruct (Records.is_valid (Pipeline.checked schema record)) eqn:Hvalid;
      rewrite IH; cbn [negb Pipeline.step_entity Pipeline.records_processed
                       Pipeline.records_succeeded Pipeline.records_failed
                       Pipeline.step_errors List.length map].
    + rewrite <- app_assoc. cbn [app]. f_equal. f_equal; lia.
    + rewrite <- app_assoc. cbn [app]. f_equal. f_equal; lia.
Qed.

Lemma is_valid_checked :
  forall schema record,
    Records.is_valid record = false ->
    Records.is_valid (Pipeline.checked schema record) = false.
Proof.
  intros [s |] record H; [| exact H].
  unfold Pipeline.checked, Records.is_valid, Records.extend_errors in *.
  cbn [tr_validation_errors]. rewrite existsb_app.
  apply negb_false_iff in H. rewrite H. reflexivity.
Qed.

Lemma validate_records_valid :
  forall schema entity records,
    Forall (fun r => Records.is_valid r = true)
           (fst (Pipeline.validate_records schema entity records)).
Proof.
  intros schema entity records. unfold Pipeline.validate_records.
  rewrite validation_fold. cbn [fst app].
  apply Forall_forall. intros r Hr. apply filter_In in Hr. exact (proj2 Hr).
Qed.

(** X26.  The validation loop keeps, in their order, exactly the
    records that are valid once the errors of the schema are added to
    those they carry; its counters add up: every record is counted
    processed, the kept ones succeeded, the others failed, and each
    failed record is listed with its errors.  A record that already
    carries an error of severity [error] is never kept, whatever the
    schema, and none at all is checked when no schema is registered. *)
Theorem validate_records_keeps_valid :
  forall (schema : option EntitySchema) (entity : string)
         (records : list TransformedRecord),
    let '(valid_records, step) := Pipeline.validate_records schema entity records in
    valid_records = filter Records.is_valid (map (Pipeline.checked schema) records)
    /\ Pipeline.records_processed step = Z.of_nat (List.length records)
    /\ Pipeline.records_succeeded step = Z.of_nat (List.length valid_records)
    /\ (Pipeline.records_succeeded step + Pipeline.records_failed step
        = Pipeline.records_processed step)%Z
    /\ map fst (Pipeline.step_errors step) = map tr_id (failed_records schema records)
    /\ Forall (fun r => Records.is_valid r = true) valid_records
    /\ (forall record,
          In record records -> Records.is_valid record = false ->
          ~ In (Pipeline.checked schema record) valid_records).
Proof.
  intros schema entity records. unfold Pipeline.validate_records.
  rewrite validation_fold. cbn [app Pipeline.new_step Pipeline.step_entity
    Pipeline.records_processed Pipeline.records_succeeded Pipeline.records_failed
    Pipeline.step_errors Z.add].
  split; [reflexivity |]. split; [reflexivity |]. split; [reflexivity |].
  split; [| split; [| split]].
  - unfold failed_records.
    rewrite <- Nat2Z.inj_add. f_equal.
    rewrite <- (length_map (Pipeline.checked schema) records).
    induction (map (Pipeline.checked schema) records) as [| r l IH]; [reflexivity |].
    simpl. destruct (Records.is_valid r); simpl; lia.
  - rewrite map_map. reflexivity.
  - apply Forall_forall. intros r Hr. apply filter_In in Hr. exact (proj2 Hr).
  - intros record _ Hinvalid Hin. apply filter_In in Hin. destruct Hin as [_ Hvalid].
    rewrite (is_valid_checked schema record Hinvalid) in Hvalid. discriminate Hvalid.
Qed.

Lemma run_validation_fold :
  forall registry (l : dict (list TransformedRecord)) data steps key records,
    Dict.get (fst (fold_left
                (fun acc kv =>
                   let '(target_service, target_entity) := Pipeline.split_key (fst kv) in
                   let schema :=
                     Registry.get_entity_schema registry target_service target_entity in
                   let '(valid_records, step) :=
                     Pipeline.validate_records schema target_entity (snd kv) in
                   (Dict.set (fst acc) (fst kv) valid_records, (snd acc ++ [step])%list))
                l (data, steps))) key = Some records ->
    Forall (fun r => Records.is_valid r = true) records
    \/ (Dict.get data key = Some records /\ ~ In key (Dict.keys l)).
Proof.
  intros registry l. induction l as [| [k recs] l IH]; intros data steps key records Hget.
  - right. split; [exact Hget | intros []].
  - cbn [fold_left fst snd] in Hget.
    destruct (Pipeline.split_key k) as [target_service target_entity].
    pose proof (validate_records_valid
                  (Registry.get_entity_schema registry target_service target_entity)
                  target_entity recs) as Hvalid.
    destruct (Pipeline.validate_records _ target_entity recs) as [valid_records step].
    cbn [fst] in Hvalid.
    cbn [fst snd] in Hget.
    destruct (IH _ _ _ _ Hget) as [Hall | [Hheld Hnotin]]; [left; exact Hall |].
    rewrite dict_get_set in Hheld.
    destruct (String.eqb_spec key k) as [E | NE].
    + injection Hheld as <-. left. exact Hvalid.
    + right. split; [exact Hheld |]. simpl. intros [E | Hin]; [congruence | contradiction].
Qed.

Lemma dict_get_key {V : Type} :
  forall (d : dict V) k v, Dict.get d k = Some v -> In k (Dict.keys d).
Proof.
  intros d k v H. apply (in_dict_key d k v). apply dict_get_in. exact H.
Qed.

(** X27.  After [_run_validation] every record held under every key of
    the transformed data is valid, and one step is added for each key. *)
Theorem run_validation_leaves_valid :
  forall (registry : Registry.SchemaRegistry)
         (transformed_data : dict (list TransformedRecord))
         (key : string) (records : list TransformedRecord),
    Dict.get (fst (Pipeline._run_validation registry transformed_data)) key
    = Some records ->
    Forall (fun r => Records.is_valid r = true) records
    /\ List.length (snd (Pipeline._run_validation registry transformed_data))
       = List.length transformed_data.
Proof.
  intros registry transformed_data key records Hget. split.
  - unfold Pipeline._run_validation in Hget.
    destruct (run_validation_fold _ _ _ _ _ _ Hget) as [Hall | [Hheld Hnotin]];
      [exact Hall |].
    exfalso. apply Hnotin. exact (dict_get_key _ _ _ Hheld).
  - unfold Pipeline._run_validation.
    assert (forall (l : dict (list TransformedRecord)) data steps,
               List.length (snd (fold_left
                 (fun acc kv =>
                    let '(target_service, target_entity) := Pipeline.split_key (fst kv) in
                    let schema :=
                      Registry.get_entity_schema registry target_service target_entity in
                    let '(valid_records, step) :=
                      Pipeline.validate_records schema target_entity (snd kv) in
                    (Dict.set (fst acc) (fst kv) valid_records, (snd acc ++ [step])%list))
                 l (data, steps)))
               = (List.length steps + List.length l)%nat) as Hgen.
    { induction l as [| [k recs] l IH]; intros data steps; [simpl; lia |].
      cbn [fold_left fst snd].
      destruct (Pipeline.split_key k) as [target_service target_entity].
      destruct (Pipeline.validate_records _ target_entity recs) as [valid_records step].
      rewrite IH. cbn [fst snd]. rewrite length_app. simpl. lia. }
    rewrite Hgen. reflexivity.
Qed.

(** X28.  A record for which a field mapping failed does not pass the
    validation phase: transformed with an error recorded, it is counted
    failed and dropped, whatever schema is registered for it, and also
    when none is. *)
Theorem failed_transform_fails_validation :
  forall (self : Transformer.TransformEngine) (source_records : list SourceRecord)
         (mapping : EntityMapping) (target_service target_entity : string)
         (context : pydict) (record : TransformedRecord)
         (schema : option EntitySchema) (entity : string),
    Transformer.transform_record self source_records mapping target_service
      target_entity context = Ok record ->
    tr_validation_errors record <> [] ->
    fst (Pipeline.validate_records schema entity [record]) = []
    /\ Pipeline.records_failed (snd (Pipeline.validate_records schema entity [record]))
       = 1%Z.
Proof.
  intros self source_records mapping target_service target_entity context record
         schema entity Hrun Herrors.
  pose proof (transform_record_invalid _ _ _ _ _ _ _ Hrun Herrors) as Hinvalid.
  unfold Pipeline.validate_records. rewrite validation_fold.
  unfold failed_records. cbn [map filter].
  rewrite (is_valid_checked schema record Hinvalid). split; reflexivity.
Qed.

End ValidationPhase.

Lemma run_validation_leaves_valid_witness :
  Forall (fun r => Records.is_valid r = true) [Cases.complete_record]
  /\ List.length
       (snd (Pipeline._run_validation (rt := reference_runtime) Examples.registry
               [("chargebee_customer",
                 [Cases.empty_record; Cases.complete_record; Cases.failed_record])]))
     = List.length
         [("chargebee_customer",
           [Cases.empty_record; Cases.complete_record; Cases.failed_record])].
Proof.
  apply (run_validation_leaves_valid (rt := reference_runtime) Examples.registry
           [("chargebee_customer",
             [Cases.empty_record; Cases.complete_record; Cases.failed_record])]
           "chargebee_customer" [Cases.complete_record]).
  vm_compute. reflexivity.
Defined.

Lemma failed_transform_fails_validation_witness :
  fst (Pipeline.validate_records (rt := reference_runtime) None "customer"
         [Cases.failed_record]) = []
  /\ Pipeline.records_failed
       (snd (Pipeline.validate_records (rt := reference_runtime) None "customer"
               [Cases.failed_record]))
     = 1%Z.
Proof.
  apply (failed_transform_fails_validation (rt := reference_runtime) Examples.engine
           [Examples.stripe_jane] Cases.failing_mapping "chargebee" "customer" []
           Cases.failed_record None "customer").
  - vm_compute. reflexivity.
  - discriminate.
Defined.

(** ** What deduplication keeps *)

Section DedupSlots.
Context {rt : PyRuntime}.
Import Orchestrator.

Local Arguments Py.eqb : simpl never.

Lemma seen_set_absent :
  forall seen k r, seen_get seen k = None -> seen_set seen k r = (seen ++ [(k, r)])%list.
Proof.
  induction seen as [| [k' r'] seen IH]; intros k r H; simpl in *; [reflexivity |].
  destruct (Py.eqb k k'); [discriminate H |]. rewrite (IH _ _ H). reflexivity.
Qed.

Lemma seen_get_app :
  forall (s t : seen_map) k,
    seen_get (s ++ t)%list k
    = match seen_get s k with Some r => Some r | None => seen_get t k end.
Proof.
  induction s as [| [k' r'] s IH]; intros t k; simpl; [reflexivity |].
  destruct (Py.eqb k k'); [reflexivity | apply IH].
Qed.

Lemma seen_set_app :
  forall (s t : seen_map) k r,
    seen_set (s ++ t)%list k r
    = match seen_get s k with
      | Some _ => (seen_set s k r ++ t)%list
      | None => (s ++ seen_set t k r)%list
      end.
Proof.
  induction s as [| [k' r'] s IH]; intros t k r; simpl; [reflexivity |].
  destruct (Py.eqb k k'); [reflexivity |].
  rewrite IH. destruct (seen_get s k); reflexivity.
Qed.

Lemma seen_get_set_none :
  forall s k r k1,
    seen_get s k <> None ->
    seen_get s k1 = None ->
    seen_get (seen_set s k r) k1 = None.
Proof.
  induction s as [| [k' r'] s IH]; intros k r k1 Hk Hk1; simpl in *; [contradiction |].
  destruct (Py.eqb k1 k') eqn:E1; [discriminate Hk1 |].
  destruct (Py.eqb k k') eqn:E; simpl; rewrite E1; [exact Hk1 |].
  apply IH; assumption.
Qed.

Lemma slots_replace :
  forall key_field seen s r existing,
    slots key_field seen ->
    seen_get seen (VStr s) = Some existing ->
    own_key key_field r = Some (VStr s) ->
    slots key_field (seen_set seen (VStr s) r).
Proof.
  intros key_field seen s r existing Hslots. revert existing.
  induction Hslots as [| seen k1 r1 Hslots IH Hown Hfresh]; intros existing Hget Hr.
  - discriminate Hget.
  - rewrite seen_set_app. rewrite seen_get_app in Hget.
    destruct (seen_get seen (VStr s)) as [found |] eqn:Hfound.
    + apply slots_snoc; [exact (IH found eq_refl Hr) | exact Hown |].
      apply seen_get_set_none; [congruence | exact Hfresh].
    + simpl in Hget |- *. destruct (Py.eqb (VStr s) k1) eqn:E; [| discriminate Hget].
      apply eqb_str_left in E. subst k1.
      apply slots_snoc; assumption.
Qed.

Lemma own_key_with_meta_data :
  forall key_field record meta,
    key_field <> "meta_data" ->
    own_key key_field (with_meta_data record meta) = own_key key_field record.
Proof.
  intros key_field record meta Hfield. unfold own_key, with_meta_data.
  cbn [tr_data tr_id]. unfold Py.get. rewrite dict_get_set.
  destruct (String.eqb_spec key_field "meta_data"); [contradiction | reflexivity].
Qed.

Lemma dedup_step_slots :
  forall key_field preferred_source seen record seen',
    key_field <> "meta_data" ->
    slots key_field seen ->
    dedup_step key_field preferred_source seen record = Ok seen' ->
    slots key_field seen'.
Proof.
  intros key_field preferred_source seen record seen' Hfield Hslots Hstep.
  unfold dedup_step in Hstep.
  destruct (negb (Py.truthy (Py.get (tr_data record) key_field))) eqn:Hkeyless.
  - destruct (hashable (tr_id record)) eqn:Hhash; [| discriminate Hstep].
    injection Hstep as <-.
    destruct (seen_get seen (tr_id record)) eqn:Hget; [exact Hslots |].
    rewrite (seen_set_absent _ _ _ Hget).
    apply slots_snoc; [exact Hslots | | exact Hget].
    unfold own_key. rewrite Hkeyless, Hhash. reflexivity.
  - assert (own_key key_field record
            = Some (VStr (Str.lower (Py.str (Py.get (tr_data record) key_field))))) as Hown.
    { unfold own_key. rewrite Hkeyless. reflexivity. }
    destruct (seen_get seen _) as [existing |] eqn:Hget.
    + destruct (_ && _).
      * destruct (py_update _ _) as [new_meta | e]; cbn [bind] in Hstep;
          [| discriminate Hstep].
        injection Hstep as <-.
        apply (slots_replace _ _ _ _ existing Hslots Hget).
        rewrite (own_key_with_meta_data _ _ _ Hfield). exact Hown.
      * injection Hstep as <-. exact Hslots.
    + injection Hstep as <-. rewrite (seen_set_absent _ _ _ Hget).
      apply slots_snoc; assumption.
Qed.

Lemma dedup_loop_slots :
  forall key_field preferred_source records seen seen',
    key_field <> "meta_data" ->
    slots key_field seen ->
    dedup_loop key_field preferred_source records seen = Ok seen' ->
    slots key_field seen'.
Proof.
  intros key_field preferred_source records.
  induction records as [| record rest IH]; intros seen seen' Hfield Hslots Hloop.
  - simpl in Hloop. injection Hloop as <-. exact Hslots.
  - simpl in Hloop.
    destruct (dedup_step key_field preferred_source seen record) as [seen1 | e] eqn:Hstep;
      cbn [bind] in Hloop; [| discriminate Hloop].
    exact (IH _ _ Hfield (dedup_step_slots _ _ _ _ _ Hfield Hslots Hstep) Hloop).
Qed.

Lemma dedup_loop_app :
  forall key_field preferred_source l1 l2 seen,
    dedup_loop key_field preferred_source (l1 ++ l2) seen
    = (do seen' <- dedup_loop key_field preferred_source l1 seen ;;
       dedup_loop key_field preferred_source l2 seen').
Proof.
  intros key_field preferred_source l1 l2. induction l1 as [| r l1 IH]; intros seen.
  - reflexivity.
  - simpl. destruct (dedup_step key_field preferred_source seen r); cbn [bind];
      [apply IH | reflexivity].
Qed.

Lemma dedup_step_fresh :
  forall key_field preferred_source seen record k,
    own_key key_field record = Some k ->
    seen_get seen k = None ->
    dedup_step key_field preferred_source seen record = Ok (seen ++ [(k, record)])%list.
Proof.
  intros key_field preferred_source seen record k Hown Hfresh.
  unfold own_key in Hown. unfold dedup_step.
  destruct (negb (Py.truthy (Py.get (tr_data record) key_field))).
  - destruct (hashable (tr_id record)); [| discriminate Hown].
    injection Hown as <-. rewrite Hfresh, (seen_set_absent _ _ _ Hfresh). reflexivity.
  - injection Hown as <-. rewrite Hfresh, (seen_set_absent _ _ _ Hfresh). reflexivity.
Qed.

Lemma dedup_loop_of_slots :
  forall key_field preferred_source seen,
    slots key_field seen ->
    dedup_loop key_field preferred_source (seen_values seen) [] = Ok seen.
Proof.
  intros key_field preferred_source seen Hslots.
  induction Hslots as [| seen k r Hslots IH Hown Hfresh]; [reflexivity |].
  unfold seen_values in *. rewrite map_app, dedup_loop_app, IH. cbn [bind map snd].
  cbn [dedup_loop]. rewrite (dedup_step_fresh _ _ _ _ _ Hown Hfresh). reflexivity.
Qed.

Lemma dedup_entity_idempotent :
  forall (config : MigrationConfig) (entity : string)
         (records kept : list TransformedRecord),
    dedup_key_field config entity <> "meta_data" ->
    dedup_entity config entity records = Ok kept ->
    dedup_entity config entity kept = Ok kept.
Proof.
  intros config entity records kept Hfield Hrun.
  unfold dedup_entity in *. fold (dedup_key_field config entity) in *.
  destruct (dedup_loop _ _ records []) as [seen | e] eqn:Hloop; cbn [bind] in Hrun;
    [| discriminate Hrun].
  injection Hrun as <-.
  pose proof (dedup_loop_slots _ _ _ _ _ Hfield (slots_nil _) Hloop) as Hslots.
  rewrite (dedup_loop_of_slots _ _ _ Hslots). reflexivity.
Qed.

Lemma dict_set_absent {V : Type} :
  forall (d : dict V) k v, Dict.get d k = None -> Dict.set d k v = (d ++ [(k, v)])%list.
Proof.
  induction d as [| [k0 v0] d IH]; intros k v H; simpl in *; [reflexivity |].
  destruct (String.eqb k k0); [discriminate H |]. rewrite (IH _ _ H). reflexivity.
Qed.

Lemma dict_get_app_absent {V : Type} :
  forall (d : dict V) k k' v,
    Dict.get d k = None -> k <> k' -> Dict.get (d ++ [(k', v)])%list k = None.
Proof.
  induction d as [| [k0 v0] d IH]; intros k k' v H NE; simpl in *.
  - destruct (String.eqb_spec k k'); [contradiction | reflexivity].
  - destruct (String.eqb k k0); [discriminate H | exact (IH _ _ _ H NE)].
Qed.

Lemma dedup_entities_result :
  forall config l acc result_,
    dedup_entities config l acc = Ok result_ ->
    NoDup (Dict.keys l) ->
    (forall k, In k (Dict.keys l) -> Dict.get acc k = None) ->
    exists l', result_ = (acc ++ l')%list /\ deduplicated config l l'.
Proof.
  intros config l. induction l as [| [entity records] l IH];
    intros acc result_ Hrun Hnd Hfresh.
  - simpl in Hrun. injection Hrun as <-. exists []. rewrite app_nil_r.
    split; [reflexivity | constructor].
  - simpl in Hrun.
    destruct (dedup_entity config entity records) as [kept | e] eqn:Hkept;
      cbn [bind] in Hrun; [| discriminate Hrun].
    simpl in Hnd. inversion Hnd as [| ? ? Hnotin Hnd']; subst.
    rewrite (dict_set_absent acc entity kept) in Hrun
      by (apply Hfresh; left; reflexivity).
    destruct (IH _ _ Hrun Hnd') as [l' [-> Hl']].
    { intros k Hk. apply dict_get_app_absent.
      - apply Hfresh. right. exact Hk.
      - intros ->. contradiction. }
    exists ((entity, kept) :: l'). rewrite <- app_assoc. split; [reflexivity |].
    constructor; [split; [reflexivity | exact Hkept] | exact Hl'].
Qed.

Lemma dedup_entities_again :
  forall config l l' acc,
    deduplicated config l l' ->
    (forall entity, In entity (Dict.keys l) ->
                    dedup_key_field config entity <> "meta_data") ->
    NoDup (Dict.keys l) ->
    (forall k, In k (Dict.keys l) -> Dict.get acc k = None) ->
    dedup_entities config l' acc = Ok (acc ++ l')%list.
Proof.
  intros config l l' acc Hded. revert acc.
  induction Hded as [| [entity records] [entity' kept] l l' [Hname Hkept] Hrest IH];
    intros acc Hfields Hnd Hfresh.
  - simpl. rewrite app_nil_r. reflexivity.
  - cbn [fst snd] in Hname, Hkept. subst entity'.
    cbn [dedup_entities].
    rewrite (dedup_entity_idempotent config entity records kept
               (Hfields entity (or_introl eq_refl)) Hkept).
    cbn [bind].
    simpl in Hnd. inversion Hnd as [| ? ? Hnotin Hnd']; subst.
    rewrite (dict_set_absent acc entity kept) by (apply Hfresh; left; reflexivity).
    rewrite IH.
    + rewrite <- app_assoc. reflexivity.
    + intros e He. apply Hfields. right. exact He.
    + exact Hnd'.
    + intros k Hk. apply dict_get_app_absent.
      * apply Hfresh. right. exact Hk.
      * intros ->. contradiction.
Qed.

(** X29.  Deduplication is idempotent: when no entity is deduplicated
    on the field [meta_data], deduplicating what [_deduplicate_records]
    has returned returns it again, every entity with the same records
    in the same order. *)
Theorem deduplicate_records_idempotent :
  forall (config : MigrationConfig)
         (records_by_entity deduplicated_ : dict (list TransformedRecord)),
    NoDup (Dict.keys records_by_entity) ->
    (forall entity, In entity (Dict.keys records_by_entity) ->
                    dedup_key_field config entity <> "meta_data") ->
    _deduplicate_records config records_by_entity = Ok deduplicated_ ->
    _deduplicate_records config deduplicated_ = Ok deduplicated_.
Proof.
  intros config records_by_entity result_ Hnd Hfields Hrun.
  unfold _deduplicate_records in *.
  destruct (dedup_entities_result _ _ _ _ Hrun Hnd (fun _ _ => eq_refl))
    as [l' [-> Hl']].
  cbn [app].
  exact (dedup_entities_again config records_by_entity l' [] Hl' Hfields Hnd
           (fun _ _ => eq_refl)).
Qed.

Lemma in_seen_set :
  forall seen k r k' r',
    In (k', r') (seen_set seen k r) -> r' = r \/ In (k', r') seen.
Proof.
  induction seen as [| [k0 r0] seen IH]; intros k r k' r'; simpl.
  - intros [E | []]. injection E as _ <-. left. reflexivity.
  - destruct (Py.eqb k k0); simpl.
    + intros [E | H]; [injection E as _ <-; left; reflexivity | right; right; exact H].
    + intros [E | H]; [right; left; exact E |].
      destruct (IH _ _ _ _ H) as [E | H']; [left; exact E | right; right; exact H'].
Qed.

Lemma seen_set_length :
  forall seen k r, (List.length (seen_set seen k r) <= S (List.length seen))%nat.
Proof.
  induction seen as [| [k0 r0] seen IH]; intros k r; simpl; [lia |].
  destruct (Py.eqb k k0); simpl; [lia | specialize (IH k r); lia].
Qed.

Lemma made_from_refl : forall r, made_from r r.
Proof. intros r. repeat split; auto. Qed.

Lemma made_from_with_meta_data : forall record meta, made_from (with_meta_data record meta) record.
Proof.
  intros record meta. unfold made_from, with_meta_data. cbn.
  do 3 (split; [reflexivity |]). split; [intros _; reflexivity |].
  do 2 (split; [reflexivity |]).
  intros key Hkey. rewrite dict_get_set.
  destruct (String.eqb_spec key "meta_data"); [contradiction |].
  split; [reflexivity | intros v _ H; exact H].
Qed.

Lemma dedup_step_provenance :
  forall key_field preferred_source seen record seen' (all : list TransformedRecord),
    dedup_step key_field preferred_source seen record = Ok seen' ->
    In record all ->
    Forall (fun kr => exists original, In original all /\ made_from (snd kr) original) seen ->
    Forall (fun kr => exists original, In original all /\ made_from (snd kr) original) seen'
    /\ (List.length seen' <= S (List.length seen))%nat.
Proof.
  intros key_field preferred_source seen record seen' all Hstep Hin Hseen.
  assert (forall k r,
             made_from r record ->
             Forall (fun kr => exists original, In original all /\ made_from (snd kr) original)
                    (seen_set seen k r)) as Hset.
  { intros k r Hr. apply Forall_forall. intros [k' r'] Hin'.
    destruct (in_seen_set _ _ _ _ _ Hin') as [-> | Hold].
    - exists record. split; [exact Hin | exact Hr].
    - rewrite Forall_forall in Hseen. exact (Hseen _ Hold). }
  unfold dedup_step in Hstep.
  destruct (negb (Py.truthy (Py.get (tr_data record) key_field))).
  - destruct (hashable (tr_id record)); [| discriminate Hstep].
    injection Hstep as <-.
    destruct (seen_get seen (tr_id record)).
    + split; [exact Hseen | lia].
    + split; [apply Hset; apply made_from_refl | apply seen_set_length].
  - destruct (seen_get seen _) as [existing |].
    + destruct (_ && _).
      * destruct (py_update _ _) as [new_meta | e]; cbn [bind] in Hstep;
          [| discriminate Hstep].
        injection Hstep as <-.
        split; [apply Hset; apply made_from_with_meta_data | apply seen_set_length].
      * injection Hstep as <-. split; [exact Hseen | lia].
    + injection Hstep as <-.
      split; [apply Hset; apply made_from_refl | apply seen_set_length].
Qed.

Lemma dedup_loop_provenance :
  forall key_field preferred_source records seen seen' (all : list TransformedRecord),
    dedup_loop key_field preferred_source records seen = Ok seen' ->
    incl records all ->
    Forall (fun kr => exists original, In original all /\ made_from (snd kr) original) seen ->
    Forall (fun kr => exists original, In original all /\ made_from (snd kr) original) seen'
    /\ (List.length seen' <= List.length seen + List.length records)%nat.
Proof.
  intros key_field preferred_source records.
  induction records as [| record rest IH]; intros seen seen' all Hloop Hincl Hseen.
  - simpl in Hloop. injection Hloop as <-. split; [exact Hseen | lia].
  - simpl in Hloop.
    destruct (dedup_step key_field preferred_source seen record) as [seen1 | e] eqn:Hstep;
      cbn [bind] in Hloop; [| discriminate Hloop].
    destruct (dedup_step_provenance _ _ _ _ _ all Hstep
                (Hincl record (or_introl eq_refl)) Hseen) as [Hseen1 Hlen1].
    destruct (IH seen1 seen' all Hloop
                (fun x Hx => Hincl x (or_intror Hx)) Hseen1) as [Hseen' Hlen'].
    split; [exact Hseen' | simpl; lia].
Qed.

(** X30.  Deduplication invents nothing: it keeps no more records than
    it is given, and every record it keeps is one of those in all that
    cannot be an object shared with the merged [meta_data]: its target,
    its warnings, its id when that is no object, the services and
    entities of its source records, what its errors say, the fields of
    its payload outside [meta_data] and the value of each of them that
    held no object. *)
Theorem dedup_entity_keeps_given_records :
  forall (config : MigrationConfig) (entity : string)
         (records kept : list TransformedRecord),
    dedup_entity config entity records = Ok kept ->
    (List.length kept <= List.length records)%nat
    /\ Forall (fun r => exists original, In original records /\ made_from r original) kept.
Proof.
  intros config entity records kept Hrun. unfold dedup_entity in Hrun.
  destruct (dedup_loop _ _ records []) as [seen | e] eqn:Hloop; cbn [bind] in Hrun;
    [| discriminate Hrun].
  injection Hrun as <-.
  destruct (dedup_loop_provenance _ _ _ _ _ records Hloop (incl_refl _) (Forall_nil _))
    as [Hseen Hlen].
  unfold seen_values. rewrite length_map. split; [simpl in Hlen; lia |].
  apply Forall_forall. intros r Hr. apply in_map_iff in Hr.
  destruct Hr as [[k r'] [E Hin]]. simpl in E. subst r'.
  rewrite Forall_forall in Hseen. exact (Hseen _ Hin).
Qed.

End DedupSlots.

Lemma deduplicate_records_idempotent_witness :
  Orchestrator._deduplicate_records (rt := reference_runtime) Examples.dedup_config
    [("customers", [Examples.stripe_customer])]
  = Ok [("customers", [Examples.stripe_customer])].
Proof.
  apply (deduplicate_records_idempotent (rt := reference_runtime) Examples.dedup_config
           [("customers", [Examples.stripe_customer; Examples.salesforce_customer])]
           [("customers", [Examples.stripe_customer])]).
  - repeat constructor. intros [].
  - intros entity [<- | []]. discriminate.
  - reflexivity.
Defined.

Lemma dedup_entity_keeps_given_records_witness :
  (List.length [Examples.stripe_customer]
   <= List.length [Examples.stripe_customer; Examples.salesforce_customer])%nat
  /\ Forall (fun r => exists original,
                 In original [Examples.stripe_customer; Examples.salesforce_customer]
                 /\ made_from r original)
            [Examples.stripe_customer].
Proof.
  apply (dedup_entity_keeps_given_records (rt := reference_runtime) Examples.dedup_config
           "customers" [Examples.stripe_customer; Examples.salesforce_customer]
           [Examples.stripe_customer]).
  reflexivity.
Defined.

(** ** Inferred schemas *)

Section Inference.
Context {rt : PyRuntime}.
Import SchemaInference.

Lemma dict_get_app_last {V : Type} :
  forall (d : dict V) k v, Dict.get d k = None -> Dict.get (d ++ [(k, v)])%list k = Some v.
Proof.
  induction d as [| [k0 v0] d IH]; intros k v H; simpl in *.
  - rewrite String.eqb_refl. reflexivity.
  - destruct (String.eqb k k0); [discriminate H | exact (IH _ _ H)].
Qed.

Lemma dict_set_app_last {V : Type} :
  forall (d : dict V) k v v',
    Dict.get d k = None -> Dict.set (d ++ [(k, v)])%list k v' = (d ++ [(k, v')])%list.
Proof.
  induction d as [| [k0 v0] d IH]; intros k v v' H; simpl in *.
  - rewrite String.eqb_refl. reflexivity.
  - destruct (String.eqb k k0); [discriminate H | rewrite (IH _ _ _ H); reflexivity].
Qed.

Lemma dict_get_nodup {V : Type} :
  forall (d : dict V) k v, NoDup (Dict.keys d) -> In (k, v) d -> Dict.get d k = Some v.
Proof.
  induction d as [| [k0 v0] d IH]; intros k v Hnd Hin; [contradiction |].
  simpl in Hnd. inversion Hnd as [| ? ? Hnotin Hnd']; subst. simpl.
  destruct Hin as [E | Hin].
  - injection E as -> ->. rewrite String.eqb_refl. reflexivity.
  - destruct (String.eqb_spec k k0) as [-> | NE]; [| exact (IH _ _ Hnd' Hin)].
    exfalso. apply Hnotin. exact (in_dict_key d k0 v Hin).
Qed.

Lemma observe_fresh :
  forall path value a,
    Dict.get (field_types a) path = None ->
    field_types (observe path value a)
    = (field_types a ++ [(path, sample_types value)])%list
    /\ Dict.get (field_required (observe path value a)) path
       = Some (negb (Py.is_none value))
    /\ forall other, other <> path ->
         Dict.get (field_required (observe path value a)) other
         = Dict.get (field_required a) other.
Proof.
  intros path value a Hfresh. unfold observe, Dict.contains, sample_types.
  rewrite Hfresh. cbn [negb].
  rewrite (dict_set_absent (field_types a) path [] Hfresh).
  destruct (Py.is_none value); cbn [field_types field_required negb].
  - split; [reflexivity |]. split.
    + rewrite dict_get_set, String.eqb_refl. reflexivity.
    + intros other NE. rewrite !dict_get_set.
      destruct (String.eqb_spec other path); [contradiction | reflexivity].
  - rewrite (dict_get_app_last _ _ _ Hfresh), (dict_set_app_last _ _ _ _ Hfresh).
    split; [reflexivity |]. split.
    + rewrite dict_get_set, String.eqb_refl. reflexivity.
    + intros other NE. rewrite dict_get_set.
      destruct (String.eqb_spec other path); [contradiction | reflexivity].
Qed.

Lemma analyze_record_flat_cons :
  forall key value rest a,
    flat_value value = true ->
    _analyze_record (VDict ((key, value) :: rest)) "" a
    = _analyze_record (VDict rest) "" (observe key value a).
Proof.
  intros key value rest a Hflat.
  destruct value as [| | | | | [| [] ?] |]; try reflexivity; discriminate Hflat.
Qed.

Lemma analyze_record_flat :
  forall (d : pydict) a,
    NoDup (Dict.keys d) ->
    Forall (fun kv => flat_value (snd kv) = true) d ->
    (forall k, In k (Dict.keys d) -> Dict.get (field_types a) k = None) ->
    field_types (_analyze_record (VDict d) "" a)
    = (field_types a ++ map (fun kv => (fst kv, sample_types (snd kv))) d)%list
    /\ (forall k v, In (k, v) d ->
                    Dict.get (field_required (_analyze_record (VDict d) "" a)) k
                    = Some (negb (Py.is_none v)))
    /\ (forall k, ~ In k (Dict.keys d) ->
                  Dict.get (field_required (_analyze_record (VDict d) "" a)) k
                  = Dict.get (field_required a) k).
Proof.
  induction d as [| [key value] rest IH]; intros a Hnd Hflat Hfresh.
  - simpl. rewrite app_nil_r. repeat split. intros k v [].
  - simpl in Hnd. inversion Hnd as [| ? ? Hnotin Hnd']; subst.
    inversion Hflat as [| ? ? Hvalue Hrest]; subst. cbn [snd] in Hvalue.
    rewrite (analyze_record_flat_cons _ _ _ _ Hvalue).
    destruct (observe_fresh key value a (Hfresh key (or_introl eq_refl)))
      as [Htypes [Hreq Hother]].
    destruct (IH (observe key value a) Hnd' Hrest) as [IHt [IHr IHo]].
    { intros k Hk. rewrite Htypes. apply dict_get_app_absent.
      - apply Hfresh. right. exact Hk.
      - intros ->. contradiction. }
    split; [| split].
    + rewrite IHt, Htypes, <- app_assoc. reflexivity.
    + intros k v [E | Hin].
      * injection E as -> ->. rewrite (IHo _ Hnotin). exact Hreq.
      * exact (IHr k v Hin).
    + intros k Hk. simpl in Hk.
      rewrite IHo by tauto. apply Hother. intros ->. apply Hk. left. reflexivity.
Qed.

Lemma fold_set_fresh {V W : Type} :
  forall (f : string * V -> W) (l : dict V) (acc : dict W),
    NoDup (Dict.keys l) ->
    (forall k, In k (Dict.keys l) -> Dict.get acc k = None) ->
    fold_left (fun fields kv => Dict.set fields (fst kv) (f kv)) l acc
    = (acc ++ map (fun kv => (fst kv, f kv)) l)%list.
Proof.
  intros f l. induction l as [| [k v] l IH]; intros acc Hnd Hfresh; simpl.
  - rewrite app_nil_r. reflexivity.
  - simpl in Hnd. inversion Hnd as [| ? ? Hnotin Hnd']; subst.
    rewrite (dict_set_absent acc k _ (Hfresh k (or_introl eq_refl))).
    rewrite IH; [rewrite <- app_assoc; reflexivity | exact Hnd' |].
    intros k' Hk'. apply dict_get_app_absent.
    + apply Hfresh. right. exact Hk'.
    + intros ->. contradiction.
Qed.

Lemma split_without_char :
  forall ch s, Str.mem_char ch s = false -> Str.split (String ch EmptyString) s = [s].
Proof.
  intros ch s. unfold Str.split. induction s as [| c r IH]; intros Hmem; [reflexivity |].
  cbn [Str.mem_char] in Hmem. apply orb_false_iff in Hmem. destruct Hmem as [Hc Hr].
  rewrite split_go_char, Hc. specialize (IH Hr).
  destruct (Str.split_go (String ch EmptyString) r 0) as [p ps].
  injection IH as -> ->. reflexivity.
Qed.

Lemma contains_char :
  forall ch s, Str.mem_char ch s = false -> Str.contains s (String ch EmptyString) = false.
Proof.
  intros ch s. induction s as [| c r IH]; intros Hmem; [reflexivity |].
  cbn [Str.mem_char] in Hmem. apply orb_false_iff in Hmem. destruct Hmem as [Hc Hr].
  cbn [Str.contains]. rewrite startswith_char, Hc, (IH Hr). reflexivity.
Qed.

Lemma sample_type_accepted :
  forall value,
    Py.is_none value = false ->
    Validator.type_checks (_determine_field_type (sample_types value)) value = true.
Proof.
  intros value Hvalue. unfold sample_types. rewrite Hvalue.
  destruct value; try discriminate Hvalue; reflexivity.
Qed.

Lemma flat_map_nothing {X Y : Type} :
  forall (f : X -> list Y) (l : list X),
    (forall x, In x l -> f x = []) -> flat_map f l = [].
Proof.
  intros f l. induction l as [| x l IH]; intros H; [reflexivity |].
  simpl. rewrite (H x (or_introl eq_refl)). apply IH.
  intros y Hy. apply H. right. exact Hy.
Qed.

Lemma all_field_paths_flat :
  forall (d : pydict),
    Forall (fun kv => flat_value (snd kv) = true) d ->
    Validator._get_all_field_paths d "" = Dict.keys d.
Proof.
  unfold Validator._get_all_field_paths.
  induction d as [| [key value] rest IH]; intros Hflat; [reflexivity |].
  inversion Hflat as [| ? ? Hvalue Hrest]; subst. cbn [snd] in Hvalue.
  specialize (IH Hrest).
  cbn [Validator.all_field_paths] in IH |- *. cbn [Str.is_empty].
  destruct value; try discriminate Hvalue; cbn [app Dict.keys map fst]; f_equal; exact IH.
Qed.

(** X23.  The schema inferred from one sample accepts that sample:
    for a record whose payload has no dot in its keys and holds no
    object and no list that starts with an object, validation against
    the schema [infer_schema_from_data] makes from the payload reports
    nothing, in either mode. *)
Theorem inferred_schema_accepts_sample :
  forall (record : TransformedRecord) (service_name entity_name : string) (strict : bool),
    NoDup (Dict.keys (tr_data record)) ->
    Forall (fun kv => Str.mem_char "."%char (fst kv) = false
                      /\ flat_value (snd kv) = true) (tr_data record) ->
    Validator.validate_record record
      (infer_schema_from_data [VDict (tr_data record)] service_name entity_name) strict
    = [].
Proof.
  intros record service_name entity_name strict Hnd Hshape.
  set (sample := tr_data record) in *.
  assert (Forall (fun kv : string * pyval => flat_value (snd kv) = true) sample) as Hflat.
  { apply Forall_forall. intros kv Hkv. rewrite Forall_forall in Hshape.
    exact (proj2 (Hshape kv Hkv)). }
  destruct (analyze_record_flat sample (mk_analysis [] [] []) Hnd Hflat (fun _ _ => eq_refl))
    as [Htypes [Hreq _]].
  cbn [field_types app] in Htypes.
  unfold infer_schema_from_data. cbn [fold_left].
  set (a := _analyze_record (VDict sample) "" (mk_analysis [] [] [])) in *.
  rewrite Htypes.
  rewrite (fold_set_fresh (fun kv => inferred_field a (fst kv) (snd kv))).
  2: { unfold Dict.keys. rewrite map_map. exact Hnd. }
  2: { intros k _. reflexivity. }
  cbn [app]. rewrite map_map. cbn [fst snd].
  set (fields := map (fun kv : string * pyval =>
                        (fst kv, inferred_field a (fst kv) (sample_types (snd kv)))) sample).
  assert (flat_map (fun kv : string * FieldDefinition =>
                      Validator._validate_field (fst kv)
                        (Validator._get_nested_value sample (fst kv)) (snd kv)) fields = [])
    as Hfields.
  { apply flat_map_nothing. intros [k fd] Hin. unfold fields in Hin.
    apply in_map_iff in Hin. destruct Hin as [[k' v] [E Hin]].
    cbn [fst snd] in E. injection E as -> <-. cbn [fst snd].
    rewrite Forall_forall in Hshape. destruct (Hshape _ Hin) as [Hdot _].
    cbn [fst] in Hdot.
    unfold Validator._get_nested_value. rewrite (split_without_char _ _ Hdot).
    cbn [fold_left]. unfold Py.get. rewrite (dict_get_nodup _ _ _ Hnd Hin).
    unfold inferred_field. rewrite (Hreq _ _ Hin).
    cbn [Validator._validate_field].
    destruct (Py.is_none v) eqn:Hv; [reflexivity |].
    cbn [negb andb]. unfold Validator._validate_type.
    rewrite (sample_type_accepted v Hv). cbn [negb].
    unfold Validator.max_length_errors, Validator.enum_errors. reflexivity. }
  unfold Validator.validate_record. cbn [es_fields]. fold sample.
  rewrite Hfields. destruct strict; [| reflexivity].
  cbn [app]. apply flat_map_nothing. intros field Hin.
  rewrite (all_field_paths_flat sample Hflat) in Hin.
  apply in_map_iff in Hin. destruct Hin as [[k v] [E Hin]]. cbn [fst] in E. subst field.
  rewrite Forall_forall in Hshape. destruct (Hshape _ Hin) as [Hdot _]. cbn [fst] in Hdot.
  rewrite (split_without_char _ _ Hdot). cbn [hd].
  assert (Dict.contains fields k = true) as ->; [| reflexivity].
  unfold Dict.contains.
  rewrite (dict_get_nodup fields k (inferred_field a k (sample_types v))); [reflexivity | |].
  - unfold fields, Dict.keys. rewrite map_map. exact Hnd.
  - unfold fields. apply in_map_iff. exists (k, v). split; [reflexivity | exact Hin].
Qed.

End Inference.

Lemma inferred_schema_accepts_sample_witness :
  Validator.validate_record (rt := reference_runtime) Examples.record_with_extra
    (SchemaInference.infer_schema_from_data
       [VDict (tr_data Examples.record_with_extra)] "chargebee" "customer") true
  = [].
Proof.
  apply (inferred_schema_accepts_sample (rt := reference_runtime)
           Examples.record_with_extra "chargebee" "customer" true).
  - repeat constructor; simpl; intuition discriminate.
  - repeat constructor.
Defined.

(** ** Instances of the properties of bands, timestamps and unknown fields *)

(** The bands of two closed tiers, under the default field mapping. *)
Lemma tier_mapping_contiguous_witness :
  (exists bands,
      Transformer._transform_tier_mapping
        (VList Cases.closed_tiers) [] [] [] = Ok (VList bands)
      /\ List.length bands = List.length Cases.closed_tiers
      /\ contiguous_from 1 bands)
  /\ (forall last,
        open_tier last ->
        exists bands b,
          Transformer._transform_tier_mapping
            (VList (Cases.closed_tiers ++ [last])) [] [] []
          = Ok (VList (bands ++ [VDict b]))
          /\ List.length bands = List.length Cases.closed_tiers
          /\ contiguous_from 1 (bands ++ [VDict b])
          /\ Py.get b "ending_unit" = Py.get_or [] "null_up_to" (VStr "inf")).
Proof.
  apply (tier_mapping_contiguous Cases.closed_tiers [] [] []).
  - reflexivity.
  - repeat constructor.
    + eexists. exists 10%Z. split; reflexivity.
    + eexists. exists 20%Z. split; reflexivity.
Defined.

(** The first second of the year 10000, in UTC. *)
Lemma unix_to_iso_out_of_range_witness :
  Transformer._transform_unix_to_iso (rt := reference_runtime) (VInt 253402300800)
    [] [] [] = Ok VNone.
Proof.
  apply (unix_to_iso_out_of_range (rt := reference_runtime) 253402300800 [] [] []).
  - lia.
  - simpl. lia.
Defined.

(** The field [nickname] of a record, unknown to the customer schema. *)
Lemma validate_record_strict_reports_witness :
  In (Validator.unknown_field_error "nickname" true)
     (Validator.validate_record (rt := reference_runtime) Examples.record_with_extra
        Examples.customer_schema true)
  /\ ve_severity (Validator.unknown_field_error "nickname" true) = "error".
Proof.
  apply (validate_record_strict_reports (rt := reference_runtime)
           Examples.record_with_extra Examples.customer_schema "nickname").
  - right. left. reflexivity.
  - reflexivity.
  - reflexivity.
Defined.
